(** * Box2Pix (models/box2pix.py): a shallow embedding of the network
      constructor, its weight initialiser and its forward pass.

    Tensors are rank-4 arrays (batch, channel, height, width) carried as a
    shape together with an index function.  Entries are exact rationals:
    the embedding follows the arithmetic of the computation graph, not the
    rounding of a particular floating-point format.  There is no NaN, no
    infinity and no overflow: what is proved about entries is proved of
    the computation in exact arithmetic, on data that is finite.

    The building blocks that the file imports from torch / torchvision
    (Conv2d, ConvTranspose2d, MaxPool2d, BatchNorm2d, BasicConv2d,
    Inception, torch.cat, slicing, in-place addition) are modelled by their
    documented shape rules and, where a property below depends on it, by
    their arithmetic.  What the source cannot determine (random initial
    weights, batch-norm statistics, the detection head, the model zoo) is an
    interface, [TorchLib], over which every definition is parametric. *)

From Stdlib Require Import ZArith QArith Qminmax List String Bool Lia Lqa.
From stdpp Require Import base strings gmap.
Import ListNotations.
Open Scope Z_scope.

Ltac Zify.zify_post_hook ::= Z.to_euclidean_division_equations.

(** ** Exceptions and the result monad *)

Inductive exn : Type :=
| RuntimeError (msg : string)
| AttributeError (msg : string)
| TypeError (msg : string)
| IndexError (msg : string)
| IOError (msg : string)
| ValueError (msg : string).

Inductive result (A : Type) : Type :=
| Ok (a : A)
| Raise (e : exn).
Arguments Ok {A} a.
Arguments Raise {A} e.

Definition bind {A B : Type} (m : result A) (k : A -> result B) : result B :=
  match m with
  | Ok a => k a
  | Raise e => Raise e
  end.

Notation "'let*' x ':=' c 'in' k" := (bind c (fun x => k))
  (at level 10, x pattern, c at level 100, k at level 200).

Definition succeeds {A : Type} (m : result A) : Prop := exists a, m = Ok a.
Definition raises {A : Type} (m : result A) : Prop := exists e, m = Raise e.

(** ** Shapes and tensors *)

(** torch.Size of a rank-4 tensor; [dim2] and [dim3] are what the source
    reads as [size()[2]] and [size()[3]]. *)
Record torch_Size : Type := mkSize { dim0 : Z; dim1 : Z; dim2 : Z; dim3 : Z }.

Record tensor : Type := mkTensor {
  shape : torch_Size;
  item : Z -> Z -> Z -> Z -> Q
}.

Definition in_range (s : torch_Size) (n c y x : Z) : Prop :=
  0 <= n < dim0 s /\ 0 <= c < dim1 s /\ 0 <= y < dim2 s /\ 0 <= x < dim3 s.

Definition in_rangeb (s : torch_Size) (n c y x : Z) : bool :=
  (0 <=? n) && (n <? dim0 s) && (0 <=? c) && (c <? dim1 s) &&
  (0 <=? y) && (y <? dim2 s) && (0 <=? x) && (x <? dim3 s).

(** Two tensors are equal when they have the same shape and the same
    entries at every index of that shape. *)
Definition tensor_eq (a b : tensor) : Prop :=
  shape a = shape b /\
  forall n c y x, in_range (shape a) n c y x -> (item a n c y x == item b n c y x)%Q.

Definition all_zero (t : tensor) : Prop :=
  forall n c y x, in_range (shape t) n c y x -> (item t n c y x == 0)%Q.

Definition all_const (v : Q) (t : tensor) : Prop :=
  forall n c y x, in_range (shape t) n c y x -> (item t n c y x == v)%Q.

Definition full (s : torch_Size) (v : Q) : tensor :=
  {| shape := s; item := fun _ _ _ _ => v |}.

Definition zeros (s : torch_Size) : tensor := full s 0.

(** Entry of [t] with zero padding outside its shape. *)
Definition padded (t : tensor) (n c y x : Z) : Q :=
  if in_rangeb (shape t) n c y x then item t n c y x else 0%Q.

(** Finite sums over [0 <= i < n]. *)
Fixpoint sum_upto (n : nat) (f : nat -> Q) : Q :=
  match n with
  | O => 0%Q
  | S n' => (sum_upto n' f + f n')%Q
  end.

Definition Qsum (n : Z) (f : Z -> Q) : Q :=
  sum_upto (Z.to_nat n) (fun i => f (Z.of_nat i)).

(** ** Python slicing and in-place addition *)

(** PySlice_AdjustIndices for step 1: negative bounds count from the end,
    then both bounds are clamped into [0, len]; nothing is raised. *)
Definition adjust_index (i len : Z) : Z :=
  if i <? 0 then Z.max 0 (i + len) else Z.min i len.

Definition slice_length (start stop len : Z) : Z :=
  Z.max 0 (adjust_index stop len - adjust_index start len).

(** [t[:, :, y0:y1, x0:x1]]. *)
Definition getitem_hw (t : tensor) (y0 y1 x0 x1 : Z) : tensor :=
  let s := shape t in
  {| shape := mkSize (dim0 s) (dim1 s)
                     (slice_length y0 y1 (dim2 s)) (slice_length x0 x1 (dim3 s));
     item := fun n c y x =>
       item t n c (adjust_index y0 (dim2 s) + y) (adjust_index x0 (dim3 s) + x) |}.

Definition contiguous (t : tensor) : tensor := t.

(** A dimension of the right operand broadcasts onto the left operand when
    it is equal or 1; the left operand of an in-place operation is never
    resized. *)
Definition broadcasts_to (db da : Z) : bool := (db =? da) || (db =? 1).

Definition bidx (db i : Z) : Z := if db =? 1 then 0 else i.

(** [a += b]. *)
Definition iadd (a b : tensor) : result tensor :=
  let sa := shape a in
  let sb := shape b in
  if broadcasts_to (dim0 sb) (dim0 sa) && broadcasts_to (dim1 sb) (dim1 sa) &&
     broadcasts_to (dim2 sb) (dim2 sa) && broadcasts_to (dim3 sb) (dim3 sa)
  then Ok {| shape := sa;
             item := fun n c y x =>
               (item a n c y x +
                item b (bidx (dim0 sb) n) (bidx (dim1 sb) c)
                       (bidx (dim2 sb) y) (bidx (dim3 sb) x))%Q |}
  else Raise (RuntimeError "The size of tensor a must match the size of tensor b").

(** [t * a + b] with Python scalars. *)
Definition affine (t : tensor) (a b : Q) : tensor :=
  {| shape := shape t; item := fun n c y x => (item t n c y x * a + b)%Q |}.

(** [torch.unsqueeze(t[:, c], 1)]: channel [c] as a one-channel tensor. *)
Definition select_channel (t : tensor) (c : Z) : result tensor :=
  let s := shape t in
  if (0 <=? c) && (c <? dim1 s)
  then Ok {| shape := mkSize (dim0 s) 1 (dim2 s) (dim3 s);
             item := fun n _ y x => item t n c y x |}
  else Raise (IndexError "index out of range for dimension 1").

(** [torch.cat([a; b], 1)]. *)
Definition cat2 (a b : tensor) : result tensor :=
  let sa := shape a in
  let sb := shape b in
  if (dim0 sa =? dim0 sb) && (dim2 sa =? dim2 sb) && (dim3 sa =? dim3 sb)
  then Ok {| shape := mkSize (dim0 sa) (dim1 sa + dim1 sb) (dim2 sa) (dim3 sa);
             item := fun n c y x =>
               if c <? dim1 sa then item a n c y x else item b n (c - dim1 sa) y x |}
  else Raise (RuntimeError "Sizes of tensors must match except in dimension 1").

(** [torch.cat(ts, 1)]. *)
Definition torch_cat (ts : list tensor) : result tensor :=
  match ts with
  | [] => Raise (RuntimeError "torch.cat(): expected a non-empty list of Tensors")
  | t :: rest => fold_left (fun acc u => let* a := acc in cat2 a u) rest (Ok t)
  end.

(** ** torch.nn modules *)

(** [torch.nn.modules.conv._ConvNd]: the attributes shared by [nn.Conv2d]
    ([transposed = false], weight laid out (out, in, kh, kw)) and
    [nn.ConvTranspose2d] ([transposed = true], weight laid out
    (in, out, kh, kw)).  [bias = None] when built with [bias=False]. *)
Record ConvNd : Type := mkConvNd {
  transposed : bool;
  in_channels : Z;
  out_channels : Z;
  kernel_size : Z * Z;
  stride : Z * Z;
  padding : Z * Z;
  weight : tensor;
  bias : option (Z -> Q)
}.

(** [training] is the flag that every [nn.Module] carries: the constructor
    of the module sets it, [eval()] clears it. *)
Record BatchNorm2d : Type := mkBatchNorm2d {
  num_features : Z;
  eps : Q;
  training : bool;
  bn_weight : Z -> Q;
  bn_bias : Z -> Q
}.

Record MaxPool2d : Type := mkMaxPool2d {
  pool_kernel_size : Z;
  pool_stride : Z;
  pool_padding : Z;
  ceil_mode : bool
}.

(** The leaf modules that [self.modules()] can yield. *)
Inductive nn_Module : Type :=
| MConv (m : ConvNd)
| MBatchNorm2d (m : BatchNorm2d)
| MMaxPool2d (m : MaxPool2d).

(** torchvision.models.googlenet.BasicConv2d: a bias-free convolution,
    batch normalisation with eps = 0.001, then ReLU. *)
Record BasicConv2d : Type := mkBasicConv2d {
  conv : ConvNd;
  bn : BatchNorm2d
}.

(** The four-branch block shared by torchvision's [Inception] and by this
    file's [Inception2]. *)
Record InceptionBlock : Type := mkInception {
  branch1 : BasicConv2d;
  branch2 : BasicConv2d * BasicConv2d;
  branch3 : BasicConv2d * BasicConv2d;
  branch4 : MaxPool2d * BasicConv2d
}.

(** models.multibox.MultiBox, as far as this file sees it: the class count
    it was built for and the leaf modules it registers. *)
Record MultiBox : Type := mkMultiBox {
  mb_num_classes : Z;
  mb_modules : list nn_Module
}.

(** ** The parts of the environment that the source does not determine *)

Class TorchLib : Type := {
  (** entries that [reset_parameters] gives a freshly allocated weight of the
      given shape, and a bias of the given length *)
  random_weight : torch_Size -> result (Z -> Z -> Z -> Z -> Q);
  random_bias : Z -> result (Z -> Q);
  (** entries that [nn.init.xavier_uniform_] draws for a tensor *)
  xavier_uniform_values : tensor -> result (Z -> Z -> Z -> Z -> Q);
  (** entries of [F.batch_norm] on a tensor: normalised with the statistics
      of the batch when the module is in training mode (the running
      statistics are then updated but not read), with the running statistics
      otherwise *)
  batch_norm_values : BatchNorm2d -> tensor -> Z -> Z -> Z -> Z -> Q;
  (** the detection head: its constructor, its forward pass and the type of
      the location / confidence tensors it returns *)
  box_tensor : Type;
  MultiBox_new : Z -> result MultiBox;
  MultiBox_forward : MultiBox -> list tensor -> result (box_tensor * box_tensor);
  (** [torch.utils.model_zoo.load_url] and [nn.Module.load_state_dict] *)
  state_dict : Type;
  load_url : string -> result state_dict;
  load_state_dict : forall M : Type, M -> state_dict -> result M
}.

(** ** Shape rules *)

(** ATen's [div_rtn]: integer division rounding toward minus infinity. *)
Definition div_rtn (x y : Z) : Z := x / y.

(** ATen's [pooling_output_shape] (dilation 1, symmetric padding). *)
Definition pooling_output_shape (inputSize kernelSize pad stride : Z) (ceil : bool) : Z :=
  let outputSize :=
    div_rtn (inputSize + 2 * pad - (kernelSize - 1) - 1 + (if ceil then stride - 1 else 0))
            stride + 1 in
  if ceil && ((outputSize - 1) * stride >=? inputSize + pad)
  then outputSize - 1 else outputSize.

(** Output length of a convolution (dilation 1). *)
Definition conv_output_size (inputSize kernelSize pad stride : Z) : Z :=
  (inputSize + 2 * pad - kernelSize) / stride + 1.

(** Output length of a transposed convolution (dilation 1, no output
    padding). *)
Definition conv_transpose_output_size (inputSize kernelSize pad stride : Z) : Z :=
  (inputSize - 1) * stride - 2 * pad + kernelSize.

(** ** Forward passes of the torch modules *)

Definition bias_at (m : ConvNd) (co : Z) : Q :=
  match bias m with
  | Some b => b co
  | None => 0%Q
  end.

(** [nn.Conv2d.forward]. *)
Definition Conv2d_forward (m : ConvNd) (x : tensor) : result tensor :=
  let s := shape x in
  let '(kh, kw) := kernel_size m in
  let '(sh, sw) := stride m in
  let '(ph, pw) := padding m in
  if negb (dim1 s =? in_channels m)
  then Raise (RuntimeError "expected input to have in_channels channels")
  else if (dim2 s + 2 * ph <? kh) || (dim3 s + 2 * pw <? kw)
  then Raise (RuntimeError "Kernel size can't be greater than actual input size")
  else Ok {| shape := mkSize (dim0 s) (out_channels m)
                             (conv_output_size (dim2 s) kh ph sh)
                             (conv_output_size (dim3 s) kw pw sw);
             item := fun n co y x' =>
               (bias_at m co +
                Qsum (in_channels m) (fun ci =>
                Qsum kh (fun ky =>
                Qsum kw (fun kx =>
                  padded x n ci (y * sh - ph + ky) (x' * sw - pw + kx)
                  * item (weight m) co ci ky kx))))%Q |}.

(** The input index that kernel tap [k] of a transposed convolution reads
    for output index [o], if any. *)
Definition source_index (o k s len : Z) : option Z :=
  let d := o - k in
  if (d mod s =? 0) && (0 <=? d / s) && (d / s <? len) then Some (d / s) else None.

(** [nn.ConvTranspose2d.forward]: every input entry is scattered through
    the kernel; written here as the equivalent gather over kernel taps. *)
Definition ConvTranspose2d_forward (m : ConvNd) (x : tensor) : result tensor :=
  let s := shape x in
  let '(kh, kw) := kernel_size m in
  let '(sh, sw) := stride m in
  let '(ph, pw) := padding m in
  if negb (dim1 s =? in_channels m)
  then Raise (RuntimeError "expected input to have in_channels channels")
  else Ok {| shape := mkSize (dim0 s) (out_channels m)
                             (conv_transpose_output_size (dim2 s) kh ph sh)
                             (conv_transpose_output_size (dim3 s) kw pw sw);
             item := fun n co y x' =>
               (bias_at m co +
                Qsum (in_channels m) (fun ci =>
                Qsum kh (fun ky =>
                Qsum kw (fun kx =>
                  match source_index (y + ph) ky sh (dim2 s),
                        source_index (x' + pw) kx sw (dim3 s) with
                  | Some iy, Some ix => item x n ci iy ix * item (weight m) ci co ky kx
                  | _, _ => 0
                  end))))%Q |}.

Definition max_opt (acc : option Q) (v : Q) : option Q :=
  match acc with
  | None => Some v
  | Some a => Some (Qmax a v)
  end.

(** Largest entry of the pooling window anchored at (y0, x0); positions
    outside the tensor are the implicit minus-infinity padding. *)
Definition window_max (x : tensor) (n c y0 x0 k : Z) : Q :=
  default 0%Q
    (fold_left (fun acc ky =>
       fold_left (fun acc kx =>
         if in_rangeb (shape x) n c (y0 + ky) (x0 + kx)
         then max_opt acc (item x n c (y0 + ky) (x0 + kx)) else acc)
         (seqZ 0 k) acc)
       (seqZ 0 k) None).

(** [nn.MaxPool2d.forward], with ATen's [pool2d_shape_check]. *)
Definition MaxPool2d_forward (m : MaxPool2d) (x : tensor) : result tensor :=
  let s := shape x in
  let k := pool_kernel_size m in
  let oh := pooling_output_shape (dim2 s) k (pool_padding m) (pool_stride m) (ceil_mode m) in
  let ow := pooling_output_shape (dim3 s) k (pool_padding m) (pool_stride m) (ceil_mode m) in
  if (dim1 s =? 0) || (dim2 s =? 0) || (dim3 s =? 0)
  then Raise (RuntimeError "Expected 4D tensor with optional 0 dim batch size for input")
  else if k / 2 <? pool_padding m
  then Raise (RuntimeError "pad should be at most half of effective kernel size")
  else if (oh <? 1) || (ow <? 1)
  then Raise (RuntimeError "Output size is too small")
  else Ok {| shape := mkSize (dim0 s) (dim1 s) oh ow;
             item := fun n c y x' =>
               window_max x n c (y * pool_stride m - pool_padding m)
                                (x' * pool_stride m - pool_padding m) k |}.

Definition relu (x : tensor) : tensor :=
  {| shape := shape x; item := fun n c y x' => Qmax 0 (item x n c y x') |}.

Section Blocks.
Context {T : TorchLib}.

(** [nn.BatchNorm2d.forward].  In training mode [F.batch_norm] first
    refuses an input with a single value per channel
    ([_verify_batch_size]: batch size times height times width is 1); the
    shape is kept, the entries are the library's. *)
Definition BatchNorm2d_forward (m : BatchNorm2d) (x : tensor) : result tensor :=
  if training m && (dim0 (shape x) * dim2 (shape x) * dim3 (shape x) =? 1)
  then Raise (ValueError "Expected more than 1 value per channel when training")
  else if negb (dim1 (shape x) =? num_features m)
  then Raise (RuntimeError "running_mean should contain as many elements as channels")
  else Ok {| shape := shape x; item := batch_norm_values m x |}.

(** [BasicConv2d.forward]: conv, bn, relu. *)
Definition BasicConv2d_forward (m : BasicConv2d) (x : tensor) : result tensor :=
  let* x := Conv2d_forward (conv m) x in
  let* x := BatchNorm2d_forward (bn m) x in
  Ok (relu x).

(** [nn.Sequential] of two blocks. *)
Definition Sequential2 {A B : Type} (fa : A -> tensor -> result tensor)
    (fb : B -> tensor -> result tensor) (m : A * B) (x : tensor) : result tensor :=
  let* x := fa (fst m) x in
  fb (snd m) x.

(** [Inception2.forward]; torchvision's [Inception.forward] is the same
    code. *)
Definition Inception2_forward (self : InceptionBlock) (x : tensor) : result tensor :=
  let* branch1 := BasicConv2d_forward (branch1 self) x in
  let* branch2 := Sequential2 BasicConv2d_forward BasicConv2d_forward (branch2 self) x in
  let* branch3 := Sequential2 BasicConv2d_forward BasicConv2d_forward (branch3 self) x in
  let* branch4 := Sequential2 MaxPool2d_forward BasicConv2d_forward (branch4 self) x in
  let outputs := [branch1; branch2; branch3; branch4] in
  torch_cat outputs.

Definition Inception_forward (m : InceptionBlock) (x : tensor) : result tensor :=
  Inception2_forward m x.

End Blocks.

(** ** Constructors of the torch modules *)

Section Constructors.
Context {T : TorchLib}.

Definition negative_dimension : exn :=
  RuntimeError "Trying to create tensor with negative dimension".

(** [nn.Conv2d(in_channels, out_channels, kernel_size, stride, padding,
    bias)]: the weight is allocated, then filled by [reset_parameters]. *)
Definition Conv2d_new (in_channels out_channels kernel_size stride padding : Z)
    (with_bias : bool) : result ConvNd :=
  if (in_channels <? 0) || (out_channels <? 0) then Raise negative_dimension else
  let size := mkSize out_channels in_channels kernel_size kernel_size in
  let* w := random_weight size in
  let* b := (if with_bias
             then let* b := random_bias out_channels in Ok (Some b)
             else Ok None) in
  Ok (mkConvNd false in_channels out_channels (kernel_size, kernel_size)
               (stride, stride) (padding, padding) (mkTensor size w) b).

(** [nn.ConvTranspose2d(in_channels, out_channels, kernel_size, stride,
    bias=False)]. *)
Definition ConvTranspose2d_new (in_channels out_channels kernel_size stride : Z)
    : result ConvNd :=
  if (in_channels <? 0) || (out_channels <? 0) then Raise negative_dimension else
  let size := mkSize in_channels out_channels kernel_size kernel_size in
  let* w := random_weight size in
  Ok (mkConvNd true in_channels out_channels (kernel_size, kernel_size)
               (stride, stride) (0, 0) (mkTensor size w) None).

Definition BatchNorm2d_new (num_features : Z) (eps : Q) : result BatchNorm2d :=
  if num_features <? 0 then Raise negative_dimension else
  Ok (mkBatchNorm2d num_features eps true (fun _ => 1%Q) (fun _ => 0%Q)).

(** [nn.MaxPool2d(kernel_size, stride=..., padding=..., ceil_mode=...)]. *)
Definition MaxPool2d_new (kernel_size stride padding : Z) (ceil_mode : bool) : MaxPool2d :=
  mkMaxPool2d kernel_size stride padding ceil_mode.

(** [BasicConv2d(in_channels, out_channels, **kwargs)]. *)
Definition BasicConv2d_new (in_channels out_channels kernel_size stride padding : Z)
    : result BasicConv2d :=
  let* conv := Conv2d_new in_channels out_channels kernel_size stride padding false in
  let* bn := BatchNorm2d_new out_channels (1 # 1000) in
  Ok (mkBasicConv2d conv bn).

(** The four branches; [k5] and [p5] are the kernel size and padding of the
    second convolution of branch 3. *)
Definition inception_branches (k5 p5 : Z)
    (in_channels ch1x1 ch3x3red ch3x3 ch5x5red ch5x5 pool_proj : Z)
    : result InceptionBlock :=
  let* branch1 := BasicConv2d_new in_channels ch1x1 1 1 0 in
  let* b2a := BasicConv2d_new in_channels ch3x3red 1 1 0 in
  let* b2b := BasicConv2d_new ch3x3red ch3x3 3 1 1 in
  let* b3a := BasicConv2d_new in_channels ch5x5red 1 1 0 in
  let* b3b := BasicConv2d_new ch5x5red ch5x5 k5 1 p5 in
  let* b4b := BasicConv2d_new in_channels pool_proj 1 1 0 in
  Ok (mkInception branch1 (b2a, b2b) (b3a, b3b) (MaxPool2d_new 3 1 1 true, b4b)).

(** torchvision's [Inception]: branch 3 ends in a 3x3 convolution. *)
Definition Inception_new := inception_branches 3 1.

(** [Inception2.__init__]: branch 3 ends in a 5x5 convolution, padding 2. *)
Definition Inception2_new := inception_branches 5 2.

End Constructors.

(** ** Initial weights *)

(** [nn.init.constant_(t, v)]. *)
Definition constant_ (t : tensor) (v : Q) : tensor := full (shape t) v.

(** [dst.copy_(src)]: [src] must broadcast onto [dst]. *)
Definition copy_ (dst src : tensor) : result tensor :=
  let sd := shape dst in
  let ss := shape src in
  if broadcasts_to (dim0 ss) (dim0 sd) && broadcasts_to (dim1 ss) (dim1 sd) &&
     broadcasts_to (dim2 ss) (dim2 sd) && broadcasts_to (dim3 ss) (dim3 sd)
  then Ok {| shape := sd;
             item := fun a b c d =>
               item src (bidx (dim0 ss) a) (bidx (dim1 ss) b)
                        (bidx (dim2 ss) c) (bidx (dim3 ss) d) |}
  else Raise (RuntimeError "The size of tensor a must match the size of tensor b").

(** Modelled from the spec: one tap of the bilinear filter of
    utils.helper.get_upsampling_weight, whose source is not available.
    Spec 4.5 asks for "an exact bilinear-interpolation kernel ... computed from
    its kernel size and channel count"; this is the tent function centred
    on the kernel, [1 - |i - center| / factor] with
    [factor = (kernel_size + 1) // 2] and [center = factor - 1] for an odd
    kernel, [factor - 0.5] for an even one. *)
Definition bilinear_tap (kernel_size i : Z) : Q :=
  let factor := (kernel_size + 1) / 2 in
  let center2 := if kernel_size mod 2 =? 1 then 2 * factor - 2 else 2 * factor - 1 in
  (1 - inject_Z (Z.abs (2 * i - center2)) / inject_Z (2 * factor))%Q.

(** Modelled from the spec: utils.helper.get_upsampling_weight, whose
    source is not available.  Spec 4.5: "each output channel receiving an
    independent copy of the same 2D bilinear filter restricted to its own
    input channel ... channel i of input maps only to channel i of output". *)
Definition get_upsampling_weight (channels kernel_size : Z) : tensor :=
  {| shape := mkSize channels channels kernel_size kernel_size;
     item := fun ci co ky kx =>
       if ci =? co
       then (bilinear_tap kernel_size ky * bilinear_tap kernel_size kx)%Q
       else 0%Q |}.

(** ** The network *)

(** The attributes that [Box2Pix.__init__] sets, in registration order. *)
Record Box2Pix : Type := mkBox2Pix {
  transform_input : bool;
  conv1 : BasicConv2d;
  maxpool1 : MaxPool2d;
  conv2 : BasicConv2d;
  conv3 : BasicConv2d;
  maxpool2 : MaxPool2d;
  inception3a : InceptionBlock;
  inception3b : InceptionBlock;
  maxpool3 : MaxPool2d;
  inception4a : InceptionBlock;
  inception4b : InceptionBlock;
  inception4c : InceptionBlock;
  inception4d : InceptionBlock;
  inception4e : InceptionBlock;
  maxpool4 : MaxPool2d;
  inception5a : InceptionBlock;
  inception5b : InceptionBlock;
  maxpool5 : MaxPool2d;
  inception6a : InceptionBlock;
  inception6b : InceptionBlock;
  maxpool6 : MaxPool2d;
  inception7a : InceptionBlock;
  inception7b : InceptionBlock;
  sem_score3b : ConvNd;
  sem_score4e : ConvNd;
  sem_score5b : ConvNd;
  sem_score6b : ConvNd;
  sem_upscore : ConvNd;
  sem_upscore2 : ConvNd;
  sem_upscore4 : ConvNd;
  sem_upscore8 : ConvNd;
  offs_score3b : ConvNd;
  offs_score4e : ConvNd;
  offs_score5b : ConvNd;
  offs_score6b : ConvNd;
  offs_upscore : ConvNd;
  offs_upscore2 : ConvNd;
  offs_upscore4 : ConvNd;
  offs_upscore8 : ConvNd;
  multibox : MultiBox
}.

Fixpoint mapM {A B : Type} (f : A -> result B) (l : list A) : result (list B) :=
  match l with
  | [] => Ok []
  | a :: l' => let* b := f a in let* bs := mapM f l' in Ok (b :: bs)
  end.

Section Network.
Context {T : TorchLib}.

(** [nn.init.xavier_uniform_(t)]: the shape stays, the entries are drawn. *)
Definition xavier_uniform_ (t : tensor) : result tensor :=
  let* v := xavier_uniform_values t in
  Ok (mkTensor (shape t) v).

(** *** [Box2Pix._initialize_weights] *)

(** The loop body for an instance of [nn.Conv2d] (first branch) or of
    [nn.ConvTranspose2d] (second branch). *)
Definition initialize_conv (num_classes : Z) (m : ConvNd) : result ConvNd :=
  if negb (transposed m) then
    if (fst (kernel_size m) =? 1) &&
       ((out_channels m =? num_classes) || (out_channels m =? 2))
    then
      let w := constant_ (weight m) 0 in
      match bias m with
      | Some b =>
          Ok (mkConvNd (transposed m) (in_channels m) (out_channels m) (kernel_size m)
                       (stride m) (padding m) w (Some (fun _ => 0%Q)))
      | None => Raise (AttributeError "'NoneType' object has no attribute 'fill_'")
      end
    else
      let* w := xavier_uniform_ (weight m) in
      Ok (mkConvNd (transposed m) (in_channels m) (out_channels m) (kernel_size m)
                   (stride m) (padding m) w (bias m))
  else
    let upsampling_weight := get_upsampling_weight (out_channels m) (fst (kernel_size m)) in
    let* w := copy_ (weight m) upsampling_weight in
    Ok (mkConvNd (transposed m) (in_channels m) (out_channels m) (kernel_size m)
                 (stride m) (padding m) w (bias m)).

(** The loop body for an instance of [nn.BatchNorm2d]. *)
Definition initialize_bn (m : BatchNorm2d) : BatchNorm2d :=
  mkBatchNorm2d (num_features m) (eps m) (training m) (fun _ => 1%Q) (fun _ => 0%Q).

(** The loop body, by [isinstance]. *)
Definition initialize_module (num_classes : Z) (m : nn_Module) : result nn_Module :=
  match m with
  | MConv c => let* c := initialize_conv num_classes c in Ok (MConv c)
  | MBatchNorm2d b => Ok (MBatchNorm2d (initialize_bn b))
  | MMaxPool2d p => Ok (MMaxPool2d p)
  end.

(** The loop over the sub-modules of the containers. *)
Definition initialize_BasicConv2d (num_classes : Z) (m : BasicConv2d) : result BasicConv2d :=
  let* c := initialize_conv num_classes (conv m) in
  Ok (mkBasicConv2d c (initialize_bn (bn m))).

Definition initialize_pair (num_classes : Z) (m : BasicConv2d * BasicConv2d)
    : result (BasicConv2d * BasicConv2d) :=
  let* a := initialize_BasicConv2d num_classes (fst m) in
  let* b := initialize_BasicConv2d num_classes (snd m) in
  Ok (a, b).

Definition initialize_Inception (num_classes : Z) (m : InceptionBlock) : result InceptionBlock :=
  let* b1 := initialize_BasicConv2d num_classes (branch1 m) in
  let* b2 := initialize_pair num_classes (branch2 m) in
  let* b3 := initialize_pair num_classes (branch3 m) in
  let* b4 := initialize_BasicConv2d num_classes (snd (branch4 m)) in
  Ok (mkInception b1 b2 b3 (fst (branch4 m), b4)).

Definition initialize_MultiBox (num_classes : Z) (m : MultiBox) : result MultiBox :=
  let* ms := mapM (initialize_module num_classes) (mb_modules m) in
  Ok (mkMultiBox (mb_num_classes m) ms).

(** [for m in self.modules(): ...], module by module in registration
    order. *)
Definition _initialize_weights (self : Box2Pix) (num_classes : Z) : result Box2Pix :=
  let* c1 := initialize_BasicConv2d num_classes (conv1 self) in
  let* c2 := initialize_BasicConv2d num_classes (conv2 self) in
  let* c3 := initialize_BasicConv2d num_classes (conv3 self) in
  let* i3a := initialize_Inception num_classes (inception3a self) in
  let* i3b := initialize_Inception num_classes (inception3b self) in
  let* i4a := initialize_Inception num_classes (inception4a self) in
  let* i4b := initialize_Inception num_classes (inception4b self) in
  let* i4c := initialize_Inception num_classes (inception4c self) in
  let* i4d := initialize_Inception num_classes (inception4d self) in
  let* i4e := initialize_Inception num_classes (inception4e self) in
  let* i5a := initialize_Inception num_classes (inception5a self) in
  let* i5b := initialize_Inception num_classes (inception5b self) in
  let* i6a := initialize_Inception num_classes (inception6a self) in
  let* i6b := initialize_Inception num_classes (inception6b self) in
  let* i7a := initialize_Inception num_classes (inception7a self) in
  let* i7b := initialize_Inception num_classes (inception7b self) in
  let* s3 := initialize_conv num_classes (sem_score3b self) in
  let* s4 := initialize_conv num_classes (sem_score4e self) in
  let* s5 := initialize_conv num_classes (sem_score5b self) in
  let* s6 := initialize_conv num_classes (sem_score6b self) in
  let* su := initialize_conv num_classes (sem_upscore self) in
  let* su2 := initialize_conv num_classes (sem_upscore2 self) in
  let* su4 := initialize_conv num_classes (sem_upscore4 self) in
  let* su8 := initialize_conv num_classes (sem_upscore8 self) in
  let* o3 := initialize_conv num_classes (offs_score3b self) in
  let* o4 := initialize_conv num_classes (offs_score4e self) in
  let* o5 := initialize_conv num_classes (offs_score5b self) in
  let* o6 := initialize_conv num_classes (offs_score6b self) in
  let* ou := initialize_conv num_classes (offs_upscore self) in
  let* ou2 := initialize_conv num_classes (offs_upscore2 self) in
  let* ou4 := initialize_conv num_classes (offs_upscore4 self) in
  let* ou8 := initialize_conv num_classes (offs_upscore8 self) in
  let* mb := initialize_MultiBox num_classes (multibox self) in
  Ok (mkBox2Pix (transform_input self)
        c1 (maxpool1 self) c2 c3 (maxpool2 self) i3a i3b (maxpool3 self)
        i4a i4b i4c i4d i4e (maxpool4 self) i5a i5b (maxpool5 self)
        i6a i6b (maxpool6 self) i7a i7b
        s3 s4 s5 s6 su su2 su4 su8 o3 o4 o5 o6 ou ou2 ou4 ou8 mb).

(** *** [Box2Pix.__init__] *)

Definition Box2Pix_init (num_classes : Z) (transform_input : bool) : result Box2Pix :=
  let* conv1 := BasicConv2d_new 3 64 7 2 3 in
  let maxpool1 := MaxPool2d_new 3 2 0 true in
  let* conv2 := BasicConv2d_new 64 64 1 1 0 in
  let* conv3 := BasicConv2d_new 64 192 3 1 1 in

  let maxpool2 := MaxPool2d_new 3 2 0 true in
  let* inception3a := Inception_new 192 64 96 128 16 32 32 in
  let* inception3b := Inception_new 256 128 128 192 32 96 64 in

  let maxpool3 := MaxPool2d_new 3 2 0 true in
  let* inception4a := Inception_new 480 192 96 208 16 48 64 in
  let* inception4b := Inception_new 512 160 112 224 24 64 64 in
  let* inception4c := Inception_new 512 128 128 256 24 64 64 in
  let* inception4d := Inception_new 512 112 144 288 32 64 64 in
  let* inception4e := Inception_new 528 256 160 320 32 128 128 in

  let maxpool4 := MaxPool2d_new 2 2 0 true in
  let* inception5a := Inception_new 832 256 160 320 32 128 128 in
  let* inception5b := Inception_new 832 384 192 384 48 128 128 in

  let maxpool5 := MaxPool2d_new 2 2 0 true in
  let* inception6a := Inception2_new 1024 256 160 320 32 128 128 in
  let* inception6b := Inception2_new 832 384 192 384 48 128 128 in

  let maxpool6 := MaxPool2d_new 2 2 0 true in
  let* inception7a := Inception2_new 1024 256 160 320 32 128 128 in
  let* inception7b := Inception2_new 832 384 192 384 48 128 128 in

  let* sem_score3b := Conv2d_new 480 num_classes 1 1 0 true in
  let* sem_score4e := Conv2d_new 832 num_classes 1 1 0 true in
  let* sem_score5b := Conv2d_new 1024 num_classes 1 1 0 true in
  let* sem_score6b := Conv2d_new 1024 num_classes 1 1 0 true in
  let* sem_upscore := ConvTranspose2d_new num_classes num_classes 4 2 in
  let* sem_upscore2 := ConvTranspose2d_new num_classes num_classes 4 2 in
  let* sem_upscore4 := ConvTranspose2d_new num_classes num_classes 4 2 in
  let* sem_upscore8 := ConvTranspose2d_new num_classes num_classes 16 8 in

  let* offs_score3b := Conv2d_new 480 2 1 1 0 true in
  let* offs_score4e := Conv2d_new 832 2 1 1 0 true in
  let* offs_score5b := Conv2d_new 1024 2 1 1 0 true in
  let* offs_score6b := Conv2d_new 1024 2 1 1 0 true in
  let* offs_upscore := ConvTranspose2d_new 2 2 4 2 in
  let* offs_upscore2 := ConvTranspose2d_new 2 2 4 2 in
  let* offs_upscore4 := ConvTranspose2d_new 2 2 4 2 in
  let* offs_upscore8 := ConvTranspose2d_new 2 2 16 8 in

  let* multibox := MultiBox_new num_classes in
  _initialize_weights
    (mkBox2Pix transform_input
       conv1 maxpool1 conv2 conv3 maxpool2 inception3a inception3b maxpool3
       inception4a inception4b inception4c inception4d inception4e maxpool4
       inception5a inception5b maxpool5 inception6a inception6b maxpool6
       inception7a inception7b
       sem_score3b sem_score4e sem_score5b sem_score6b
       sem_upscore sem_upscore2 sem_upscore4 sem_upscore8
       offs_score3b offs_score4e offs_score5b offs_score6b
       offs_upscore offs_upscore2 offs_upscore4 offs_upscore8 multibox)
    num_classes.

(** *** [Box2Pix._transform_input] *)

Definition _transform_input (x : tensor) : result tensor :=
  let* c0 := select_channel x 0 in
  let x_ch0 := affine c0 ((229 # 1000) / (5 # 10)) (((485 # 1000) - (5 # 10)) / (5 # 10)) in
  let* c1 := select_channel x 1 in
  let x_ch1 := affine c1 ((224 # 1000) / (5 # 10)) (((456 # 1000) - (5 # 10)) / (5 # 10)) in
  let* c2 := select_channel x 2 in
  let x_ch2 := affine c2 ((225 # 1000) / (5 # 10)) (((406 # 1000) - (5 # 10)) / (5 # 10)) in
  torch_cat [x_ch0; x_ch1; x_ch2].

(** *** [Box2Pix.forward] *)

Definition forward (self : Box2Pix) (x : tensor)
    : result (box_tensor * box_tensor * tensor * tensor) :=
  let feature_maps := [] in
  let size := shape x in

  let* x := (if transform_input self then _transform_input x else Ok x) in
  let* x := BasicConv2d_forward (conv1 self) x in
  let* x := MaxPool2d_forward (maxpool1 self) x in
  let* x := BasicConv2d_forward (conv2 self) x in
  let* x := BasicConv2d_forward (conv3 self) x in
  let* x := MaxPool2d_forward (maxpool2 self) x in
  let* x := Inception_forward (inception3a self) x in
  let* inception3b := Inception_forward (inception3b self) x in
  let* x := MaxPool2d_forward (maxpool3 self) inception3b in
  let* x := Inception_forward (inception4a self) x in
  let* x := Inception_forward (inception4b self) x in
  let* x := Inception_forward (inception4c self) x in
  let* x := Inception_forward (inception4d self) x in
  let* inception4e := Inception_forward (inception4e self) x in
  let feature_maps := feature_maps ++ [inception4e] in

  let* x := MaxPool2d_forward (maxpool4 self) inception4e in
  let* x := Inception_forward (inception5a self) x in
  let* inception5b := Inception_forward (inception5b self) x in
  let feature_maps := feature_maps ++ [inception5b] in

  let* x := MaxPool2d_forward (maxpool5 self) inception5b in
  let* x := Inception2_forward (inception6a self) x in
  let* inception6b := Inception2_forward (inception6b self) x in
  let feature_maps := feature_maps ++ [inception6b] in

  let* x := MaxPool2d_forward (maxpool6 self) inception6b in
  let* x := Inception2_forward (inception7a self) x in
  let* inception7b := Inception2_forward (inception7b self) x in
  let feature_maps := feature_maps ++ [inception7b] in

  let* (loc_preds, conf_preds) := MultiBox_forward (multibox self) feature_maps in

  let* sem_score6b := Conv2d_forward (sem_score6b self) inception6b in
  let* sem_score5b := Conv2d_forward (sem_score5b self) inception5b in
  let* semantics := ConvTranspose2d_forward (sem_upscore self) sem_score6b in
  let semantics := getitem_hw semantics 1 (1 + dim2 (shape sem_score5b))
                                        1 (1 + dim3 (shape sem_score5b)) in
  let* semantics := iadd semantics sem_score5b in
  let* sem_score4e := Conv2d_forward (sem_score4e self) inception4e in
  let* semantics := ConvTranspose2d_forward (sem_upscore2 self) semantics in
  let semantics := getitem_hw semantics 1 (1 + dim2 (shape sem_score4e))
                                        1 (1 + dim3 (shape sem_score4e)) in
  let* semantics := iadd semantics sem_score4e in
  let* sem_score3b := Conv2d_forward (sem_score3b self) inception3b in
  let* semantics := ConvTranspose2d_forward (sem_upscore4 self) semantics in
  let semantics := getitem_hw semantics 1 (1 + dim2 (shape sem_score3b))
                                        1 (1 + dim3 (shape sem_score3b)) in
  let* semantics := iadd semantics sem_score3b in
  let* semantics := ConvTranspose2d_forward (sem_upscore8 self) semantics in
  let semantics := contiguous (getitem_hw semantics 4 (4 + dim2 size) 4 (4 + dim3 size)) in

  let* offs_score6b := Conv2d_forward (offs_score6b self) inception6b in
  let* offs_score5b := Conv2d_forward (offs_score5b self) inception5b in
  let* offsets := ConvTranspose2d_forward (offs_upscore self) offs_score6b in
  let offsets := getitem_hw offsets 1 (1 + dim2 (shape offs_score5b))
                                    1 (1 + dim3 (shape offs_score5b)) in
  let* offsets := iadd offsets offs_score5b in
  let* offs_score4e := Conv2d_forward (offs_score4e self) inception4e in
  let* offsets := ConvTranspose2d_forward (offs_upscore2 self) offsets in
  let offsets := getitem_hw offsets 1 (1 + dim2 (shape offs_score4e))
                                    1 (1 + dim3 (shape offs_score4e)) in
  let* offsets := iadd offsets offs_score4e in
  let* offs_score3b := Conv2d_forward (offs_score3b self) inception3b in
  let* offsets := ConvTranspose2d_forward (offs_upscore4 self) offsets in
  let offsets := getitem_hw offsets 1 (1 + dim2 (shape offs_score3b))
                                    1 (1 + dim3 (shape offs_score3b)) in
  let* offsets := iadd offsets offs_score3b in
  let* offsets := ConvTranspose2d_forward (offs_upscore8 self) offsets in
  let offsets := contiguous (getitem_hw offsets 4 (4 + dim2 size) 4 (4 + dim3 size)) in

  Ok (loc_preds, conf_preds, semantics, offsets).

(** *** The factory [box2pix] *)

(** The call [Box2Pix(num_classes, **kwargs)]: [__init__] takes
    [num_classes] and [transform_input] (default [False]) and nothing
    else. *)
Definition Box2Pix_call (num_classes : Z) (kwargs : gmap string bool) : result Box2Pix :=
  if decide (dom kwargs ⊆ ({["transform_input"]} : gset string))
  then Box2Pix_init num_classes (default false (kwargs !! "transform_input"))
  else Raise (TypeError "__init__() got an unexpected keyword argument").

Definition box2pix (num_classes : Z) (pretrained : bool) (kwargs : gmap string bool)
    : result Box2Pix :=
  if pretrained then
    let kwargs :=
      if decide ("transform_input" ∉ dom kwargs)
      then <["transform_input" := true]> kwargs else kwargs in
    let* model := Box2Pix_call num_classes kwargs in
    let* sd := load_url "" in
    let* model := load_state_dict Box2Pix model sd in
    Ok model
  else Box2Pix_call num_classes kwargs.

End Network.

(** ** A concrete library

    A deterministic stand-in for the environment, used to run the
    definitions: weights start at one, batch normalisation is the identity,
    the detection head has no sub-modules of its own and reports the shapes
    of the feature maps it is given, and the model zoo cannot resolve the
    empty URL. *)
Definition plain_lib : TorchLib := {|
  random_weight := fun _ => Ok (fun _ _ _ _ => 1%Q);
  random_bias := fun _ => Ok (fun _ => 1%Q);
  xavier_uniform_values := fun _ => Ok (fun _ _ _ _ => 1%Q);
  batch_norm_values := fun _ x => item x;
  box_tensor := list torch_Size;
  MultiBox_new := fun num_classes => Ok (mkMultiBox num_classes []);
  MultiBox_forward := fun _ feature_maps =>
    Ok (map shape feature_maps, map shape feature_maps);
  state_dict := unit;
  load_url := fun url =>
    if decide (url = "") then Raise (IOError "cannot open the model file") else Ok tt;
  load_state_dict := fun _ model _ => Ok model
|}.

Definition image (n h w : Z) (v : Q) : tensor := full (mkSize n 3 h w) v.


(** ** The forward pass in three stages

    [forward] is one straight-line function.  The definitions below name
    its three stages (the encoder up to the last tap, one fusion step, one
    dense path) so that properties can be stated stage by stage;
    [forward_stages] proves that they compose to [forward]. *)

Record taps : Type := mkTaps {
  tap3b : tensor;
  tap4e : tensor;
  tap5b : tensor;
  tap6b : tensor;
  tap7b : tensor
}.

(** The list handed to the detection head. *)
Definition feature_maps (t : taps) : list tensor :=
  [tap4e t; tap5b t; tap6b t; tap7b t].

(** The tensors read by the score projections of a dense path, shallow to
    deep. *)
Definition dense_taps (t : taps) : list tensor :=
  [tap3b t; tap4e t; tap5b t; tap6b t].

Section Stages.
Context {T : TorchLib}.

Definition encoder (self : Box2Pix) (x : tensor) : result taps :=
  let* x := (if transform_input self then _transform_input x else Ok x) in
  let* x := BasicConv2d_forward (conv1 self) x in
  let* x := MaxPool2d_forward (maxpool1 self) x in
  let* x := BasicConv2d_forward (conv2 self) x in
  let* x := BasicConv2d_forward (conv3 self) x in
  let* x := MaxPool2d_forward (maxpool2 self) x in
  let* x := Inception_forward (inception3a self) x in
  let* i3b := Inception_forward (inception3b self) x in
  let* x := MaxPool2d_forward (maxpool3 self) i3b in
  let* x := Inception_forward (inception4a self) x in
  let* x := Inception_forward (inception4b self) x in
  let* x := Inception_forward (inception4c self) x in
  let* x := Inception_forward (inception4d self) x in
  let* i4e := Inception_forward (inception4e self) x in
  let* x := MaxPool2d_forward (maxpool4 self) i4e in
  let* x := Inception_forward (inception5a self) x in
  let* i5b := Inception_forward (inception5b self) x in
  let* x := MaxPool2d_forward (maxpool5 self) i5b in
  let* x := Inception2_forward (inception6a self) x in
  let* i6b := Inception2_forward (inception6b self) x in
  let* x := MaxPool2d_forward (maxpool6 self) i6b in
  let* x := Inception2_forward (inception7a self) x in
  let* i7b := Inception2_forward (inception7b self) x in
  Ok (mkTaps i3b i4e i5b i6b i7b).

(** The crop of an upsampled map to the height and width of [like], from
    the top-left offset [off]. *)
Definition crop (off : Z) (t : tensor) (h w : Z) : tensor :=
  getitem_hw t off (off + h) off (off + w).

(** One fusion step: upsample, crop at offset 1, add the finer score. *)
Definition fuse (up : ConvNd) (coarse score : tensor) : result tensor :=
  let* u := ConvTranspose2d_forward up coarse in
  iadd (crop 1 u (dim2 (shape score)) (dim3 (shape score))) score.

(** One dense path, given its four score projections and its four
    upsampling operators. *)
Definition dense_path (score3b score4e score5b score6b up up2 up4 up8 : ConvNd)
    (size : torch_Size) (t : taps) : result tensor :=
  let* s6 := Conv2d_forward score6b (tap6b t) in
  let* s5 := Conv2d_forward score5b (tap5b t) in
  let* f5 := fuse up s6 s5 in
  let* s4 := Conv2d_forward score4e (tap4e t) in
  let* f4 := fuse up2 f5 s4 in
  let* s3 := Conv2d_forward score3b (tap3b t) in
  let* f3 := fuse up4 f4 s3 in
  let* u8 := ConvTranspose2d_forward up8 f3 in
  Ok (contiguous (crop 4 u8 (dim2 size) (dim3 size))).

Definition semantics_path (self : Box2Pix) : torch_Size -> taps -> result tensor :=
  dense_path (sem_score3b self) (sem_score4e self) (sem_score5b self) (sem_score6b self)
             (sem_upscore self) (sem_upscore2 self) (sem_upscore4 self) (sem_upscore8 self).

Definition offsets_path (self : Box2Pix) : torch_Size -> taps -> result tensor :=
  dense_path (offs_score3b self) (offs_score4e self) (offs_score5b self) (offs_score6b self)
             (offs_upscore self) (offs_upscore2 self) (offs_upscore4 self) (offs_upscore8 self).

Definition staged_forward (self : Box2Pix) (x : tensor)
    : result (box_tensor * box_tensor * tensor * tensor) :=
  let* t := encoder self x in
  let* (loc_preds, conf_preds) := MultiBox_forward (multibox self) (feature_maps t) in
  let* semantics := semantics_path self (shape x) t in
  let* offsets := offsets_path self (shape x) t in
  Ok (loc_preds, conf_preds, semantics, offsets).

End Stages.

(** ** What the constructor establishes

    The configuration of every module, as [__init__] writes it, and the
    initial values that [_initialize_weights] leaves in the score
    projections and in the upsampling operators. *)

Definition conv_is (m : ConvNd) (tr : bool) (cin cout k s p : Z) : Prop :=
  transposed m = tr /\ in_channels m = cin /\ out_channels m = cout /\
  kernel_size m = (k, k) /\ stride m = (s, s) /\ padding m = (p, p).

Definition basic_is (m : BasicConv2d) (cin cout k s p : Z) : Prop :=
  conv_is (conv m) false cin cout k s p /\ bias (conv m) = None /\
  num_features (bn m) = cout.

Definition inception_is (m : InceptionBlock) (k5 p5 cin c1 c3r c3 c5r c5 pp : Z) : Prop :=
  basic_is (branch1 m) cin c1 1 1 0 /\
  basic_is (fst (branch2 m)) cin c3r 1 1 0 /\
  basic_is (snd (branch2 m)) c3r c3 3 1 1 /\
  basic_is (fst (branch3 m)) cin c5r 1 1 0 /\
  basic_is (snd (branch3 m)) c5r c5 k5 1 p5 /\
  fst (branch4 m) = mkMaxPool2d 3 1 1 true /\
  basic_is (snd (branch4 m)) cin pp 1 1 0.

(** A score projection: a 1x1 convolution whose weight and bias are zero. *)
Definition zero_score (m : ConvNd) (cin cout : Z) : Prop :=
  conv_is m false cin cout 1 1 0 /\
  (forall a b c d, item (weight m) a b c d == 0)%Q /\
  exists b, bias m = Some b /\ forall i, (b i == 0)%Q.

(** An upsampling operator: a bias-free transposed convolution on [c]
    channels whose weight is the bilinear kernel. *)
Definition bilinear_upscore (m : ConvNd) (c k s : Z) : Prop :=
  conv_is m true c c k s 0 /\ bias m = None /\
  tensor_eq (weight m) (get_upsampling_weight c k).

Record constructed (self : Box2Pix) (num_classes : Z) : Prop := mkConstructed {
  is_conv1 : basic_is (conv1 self) 3 64 7 2 3;
  is_maxpool1 : maxpool1 self = mkMaxPool2d 3 2 0 true;
  is_conv2 : basic_is (conv2 self) 64 64 1 1 0;
  is_conv3 : basic_is (conv3 self) 64 192 3 1 1;
  is_maxpool2 : maxpool2 self = mkMaxPool2d 3 2 0 true;
  is_inception3a : inception_is (inception3a self) 3 1 192 64 96 128 16 32 32;
  is_inception3b : inception_is (inception3b self) 3 1 256 128 128 192 32 96 64;
  is_maxpool3 : maxpool3 self = mkMaxPool2d 3 2 0 true;
  is_inception4a : inception_is (inception4a self) 3 1 480 192 96 208 16 48 64;
  is_inception4b : inception_is (inception4b self) 3 1 512 160 112 224 24 64 64;
  is_inception4c : inception_is (inception4c self) 3 1 512 128 128 256 24 64 64;
  is_inception4d : inception_is (inception4d self) 3 1 512 112 144 288 32 64 64;
  is_inception4e : inception_is (inception4e self) 3 1 528 256 160 320 32 128 128;
  is_maxpool4 : maxpool4 self = mkMaxPool2d 2 2 0 true;
  is_inception5a : inception_is (inception5a self) 3 1 832 256 160 320 32 128 128;
  is_inception5b : inception_is (inception5b self) 3 1 832 384 192 384 48 128 128;
  is_maxpool5 : maxpool5 self = mkMaxPool2d 2 2 0 true;
  is_inception6a : inception_is (inception6a self) 5 2 1024 256 160 320 32 128 128;
  is_inception6b : inception_is (inception6b self) 5 2 832 384 192 384 48 128 128;
  is_maxpool6 : maxpool6 self = mkMaxPool2d 2 2 0 true;
  is_inception7a : inception_is (inception7a self) 5 2 1024 256 160 320 32 128 128;
  is_inception7b : inception_is (inception7b self) 5 2 832 384 192 384 48 128 128;
  is_sem_score3b : zero_score (sem_score3b self) 480 num_classes;
  is_sem_score4e : zero_score (sem_score4e self) 832 num_classes;
  is_sem_score5b : zero_score (sem_score5b self) 1024 num_classes;
  is_sem_score6b : zero_score (sem_score6b self) 1024 num_classes;
  is_sem_upscore : bilinear_upscore (sem_upscore self) num_classes 4 2;
  is_sem_upscore2 : bilinear_upscore (sem_upscore2 self) num_classes 4 2;
  is_sem_upscore4 : bilinear_upscore (sem_upscore4 self) num_classes 4 2;
  is_sem_upscore8 : bilinear_upscore (sem_upscore8 self) num_classes 16 8;
  is_offs_score3b : zero_score (offs_score3b self) 480 2;
  is_offs_score4e : zero_score (offs_score4e self) 832 2;
  is_offs_score5b : zero_score (offs_score5b self) 1024 2;
  is_offs_score6b : zero_score (offs_score6b self) 1024 2;
  is_offs_upscore : bilinear_upscore (offs_upscore self) 2 4 2;
  is_offs_upscore2 : bilinear_upscore (offs_upscore2 self) 2 4 2;
  is_offs_upscore4 : bilinear_upscore (offs_upscore4 self) 2 4 2;
  is_offs_upscore8 : bilinear_upscore (offs_upscore8 self) 2 16 8
}.

(** ** Tap sizes

    Height (or width) of each tap for an input of height (width) [h], by
    the shape rules of the layers that [forward] applies on the way. *)

Definition size3b (h : Z) : Z :=
  pooling_output_shape
    (pooling_output_shape (conv_output_size h 7 3 2) 3 0 2 true) 3 0 2 true.
Definition size4e (h : Z) : Z := pooling_output_shape (size3b h) 3 0 2 true.
Definition size5b (h : Z) : Z := pooling_output_shape (size4e h) 2 0 2 true.
Definition size6b (h : Z) : Z := pooling_output_shape (size5b h) 2 0 2 true.
Definition size7b (h : Z) : Z := pooling_output_shape (size6b h) 2 0 2 true.

(** The shapes of the four feature maps that reach the detection head. *)
Definition head_input_shapes (n h w : Z) : list torch_Size :=
  [mkSize n 832 (size4e h) (size4e w); mkSize n 1024 (size5b h) (size5b w);
   mkSize n 1024 (size6b h) (size6b w); mkSize n 1024 (size7b h) (size7b w)].

(** Height (or width) that a dense path returns for an input of height
    (width) [h]: the window [4 : 4 + h] of the stride-8 upsampling of the
    shallowest tap, clamped to it. *)
Definition dense_output_size (h : Z) : Z :=
  slice_length 4 (4 + h) (conv_transpose_output_size (size3b h) 16 0 8).

(** ** Reading a fusion step

    [fused_from up coarse score fused]: [fused] has exactly the shape of the
    finer [score], and each of its entries is the entry of the upsampled
    [coarse] map one row down and one column right, plus the entry of
    [score]. *)
Definition fused_from (up : ConvNd) (coarse score fused : tensor) : Prop :=
  exists u, ConvTranspose2d_forward up coarse = Ok u /\
    shape fused = shape score /\
    forall n c y x, in_range (shape score) n c y x ->
      (item fused n c y x == item u n c (1 + y) (1 + x) + item score n c y x)%Q.

(** [cropped_from up8 fused h w out]: [out] is the window of the stride-8
    upsampling of [fused] that starts four rows down and four columns
    right; it is [h] x [w] unless the upsampled map ends before that. *)
Definition cropped_from (up8 : ConvNd) (fused : tensor) (h w : Z) (out : tensor) : Prop :=
  exists u, ConvTranspose2d_forward up8 fused = Ok u /\
    dim0 (shape out) = dim0 (shape u) /\ dim1 (shape out) = dim1 (shape u) /\
    dim2 (shape out) = Z.min h (dim2 (shape u) - 4) /\
    dim3 (shape out) = Z.min w (dim3 (shape u) - 4) /\
    forall n c y x, in_range (shape out) n c y x ->
      (item out n c y x == item u n c (4 + y) (4 + x))%Q.

(** Zero at every index, inside the shape or not. *)
Definition zero_everywhere (t : tensor) : Prop :=
  forall n c y x, (item t n c y x == 0)%Q.

(** What a dense path reads and how: the four score projections of the
    taps, three exact fusion steps from the deepest tap up, and the final
    crop. *)
Definition dense_path_reads (score3b score4e score5b score6b up up2 up4 up8 : ConvNd)
    (size : torch_Size) (t : taps) (out : tensor) : Prop :=
  exists sc3 sc4 sc5 sc6 f5 f4 f3,
    Conv2d_forward score6b (tap6b t) = Ok sc6 /\ Conv2d_forward score5b (tap5b t) = Ok sc5 /\
    Conv2d_forward score4e (tap4e t) = Ok sc4 /\ Conv2d_forward score3b (tap3b t) = Ok sc3 /\
    fused_from up sc6 sc5 f5 /\ fused_from up2 f5 sc4 f4 /\ fused_from up4 f4 sc3 f3 /\
    cropped_from up8 f3 (dim2 size) (dim3 size) out.

(** The shape contract of the detection head: it returns on every list of
    feature maps of the shapes that the encoder produces for an
    (n, 3, h, w) input. *)
Definition head_accepts {T : TorchLib} (self : Box2Pix) (n h w : Z) : Prop :=
  forall fm, map shape fm = head_input_shapes n h w ->
    succeeds (MultiBox_forward (multibox self) fm).

(** Shapes of the two dense outputs of a forward pass. *)
Definition dense_shapes {A B : Type} (r : result (A * B * tensor * tensor))
    : result (torch_Size * torch_Size) :=
  let* out := r in
  match out with
  | (_, _, semantics, offsets) => Ok (shape semantics, shape offsets)
  end.

(** ** [self.modules()]

    The leaf modules of the network in registration order, as the loop of
    [_initialize_weights] meets them. *)

Definition BasicConv2d_modules (m : BasicConv2d) : list nn_Module :=
  [MConv (conv m); MBatchNorm2d (bn m)].

Definition Inception_modules (m : InceptionBlock) : list nn_Module :=
  BasicConv2d_modules (branch1 m) ++
  BasicConv2d_modules (fst (branch2 m)) ++ BasicConv2d_modules (snd (branch2 m)) ++
  BasicConv2d_modules (fst (branch3 m)) ++ BasicConv2d_modules (snd (branch3 m)) ++
  MMaxPool2d (fst (branch4 m)) :: BasicConv2d_modules (snd (branch4 m)).

Definition modules (self : Box2Pix) : list nn_Module :=
  BasicConv2d_modules (conv1 self) ++ MMaxPool2d (maxpool1 self) ::
  BasicConv2d_modules (conv2 self) ++ BasicConv2d_modules (conv3 self) ++
  MMaxPool2d (maxpool2 self) ::
  Inception_modules (inception3a self) ++ Inception_modules (inception3b self) ++
  MMaxPool2d (maxpool3 self) ::
  Inception_modules (inception4a self) ++ Inception_modules (inception4b self) ++
  Inception_modules (inception4c self) ++ Inception_modules (inception4d self) ++
  Inception_modules (inception4e self) ++
  MMaxPool2d (maxpool4 self) ::
  Inception_modules (inception5a self) ++ Inception_modules (inception5b self) ++
  MMaxPool2d (maxpool5 self) ::
  Inception_modules (inception6a self) ++ Inception_modules (inception6b self) ++
  MMaxPool2d (maxpool6 self) ::
  Inception_modules (inception7a self) ++ Inception_modules (inception7b self) ++
  [MConv (sem_score3b self); MConv (sem_score4e self); MConv (sem_score5b self);
   MConv (sem_score6b self); MConv (sem_upscore self); MConv (sem_upscore2 self);
   MConv (sem_upscore4 self); MConv (sem_upscore8 self);
   MConv (offs_score3b self); MConv (offs_score4e self); MConv (offs_score5b self);
   MConv (offs_score6b self); MConv (offs_upscore self); MConv (offs_upscore2 self);
   MConv (offs_upscore4 self); MConv (offs_upscore8 self)] ++
  mb_modules (multibox self).

(** The test of [_initialize_weights] for a score projection: an
    [nn.Conv2d] with a 1x1 kernel and [num_classes] or 2 output channels. *)
Definition score_like (num_classes : Z) (m : ConvNd) : Prop :=
  transposed m = false /\ fst (kernel_size m) = 1 /\
  (out_channels m = num_classes \/ out_channels m = 2).

Definition zero_parameters (m : ConvNd) : Prop :=
  (forall a b c d, item (weight m) a b c d == 0)%Q /\
  exists b, bias m = Some b /\ forall i, (b i == 0)%Q.

(** The eight upsampling operators of the network, each with its channel
    count, kernel size and stride. *)
Definition upscore_operators (self : Box2Pix) (num_classes : Z)
    : list (ConvNd * Z * Z * Z) :=
  [(sem_upscore self, num_classes, 4, 2); (sem_upscore2 self, num_classes, 4, 2);
   (sem_upscore4 self, num_classes, 4, 2); (sem_upscore8 self, num_classes, 16, 8);
   (offs_upscore self, 2, 4, 2); (offs_upscore2 self, 2, 4, 2);
   (offs_upscore4 self, 2, 4, 2); (offs_upscore8 self, 2, 16, 8)].

(** The widths of the bias-free 1x1 convolutions of the backbone. *)
Definition backbone_1x1_widths : list Z :=
  [16; 24; 32; 48; 64; 96; 112; 128; 144; 160; 192; 256; 384].

(** ** Tensors as objects

    [forward] adds in place ([semantics += sem_score5b]) into a slice of a
    tensor it has just computed.  To follow what such a write can reach, the
    definitions below run the same program on tensor objects: a heap of
    storages, and views (a storage address and, for a slice, a window into
    it) as the values of the Python variables.  Every module call allocates
    a fresh storage, slicing makes a view of the same storage, and [+=]
    writes into the storage through the view. *)

Abbreviation heap := (list tensor).

Record view : Type := mkView {
  storage : nat;
  window : option (Z * Z * Z * Z)  (* row offset, column offset, height, width *)
}.

Definition window_of (s : tensor) (w : option (Z * Z * Z * Z)) : Z * Z * Z * Z :=
  match w with
  | Some w => w
  | None => (0, 0, dim2 (shape s), dim3 (shape s))
  end.

(** The tensor seen through a window of storage [s]. *)
Definition read_window (s : tensor) (w : option (Z * Z * Z * Z)) : tensor :=
  match w with
  | None => s
  | Some (oy, ox, hh, ww) =>
      {| shape := mkSize (dim0 (shape s)) (dim1 (shape s)) hh ww;
         item := fun n c y x => item s n c (oy + y) (ox + x) |}
  end.

(** Storage [s] after the window has been overwritten with [r]. *)
Definition write_window (s : tensor) (w : option (Z * Z * Z * Z)) (r : tensor) : tensor :=
  match w with
  | None => r
  | Some (oy, ox, hh, ww) =>
      {| shape := shape s;
         item := fun n c y x =>
           if (oy <=? y) && (y <? oy + hh) && (ox <=? x) && (x <? ox + ww)
           then item r n c (y - oy) (x - ox)
           else item s n c y x |}
  end.

Definition read (h : heap) (v : view) : option tensor :=
  match h !! storage v with
  | Some s => Some (read_window s (window v))
  | None => None
  end.

(** Programs that run on a heap. *)
Definition St (A : Type) : Type := heap -> result (A * heap).

Definition ret_st {A : Type} (a : A) : St A := fun h => Ok (a, h).

Definition bind_st {A B : Type} (m : St A) (k : A -> St B) : St B :=
  fun h =>
    match m h with
    | Ok (a, h') => k a h'
    | Raise e => Raise e
    end.

Notation "'do*' x ':=' c 'in' k" := (bind_st c (fun x => k))
  (at level 10, x pattern, c at level 100, k at level 200).

Definition lift {A : Type} (r : result A) : St A :=
  fun h =>
    match r with
    | Ok a => Ok (a, h)
    | Raise e => Raise e
    end.

Definition dangling : exn := RuntimeError "tensor object is not on the heap".

Definition deref (v : view) : St tensor :=
  fun h =>
    match read h v with
    | Some t => Ok (t, h)
    | None => Raise dangling
    end.

(** [v.size()]. *)
Definition size_of (v : view) : St torch_Size :=
  do* t := deref v in ret_st (shape t).

Definition new_tensor (t : tensor) : St view :=
  fun h => Ok (mkView (length h) None, h ++ [t]).

(** A module call: the result is a new tensor. *)
Definition call (f : tensor -> result tensor) (v : view) : St view :=
  do* t := deref v in
  do* r := lift (f t) in
  new_tensor r.

(** [v[:, :, y0:y1, x0:x1]]: a view of the same storage. *)
Definition getitem_view (v : view) (y0 y1 x0 x1 : Z) : St view :=
  fun h =>
    match h !! storage v with
    | Some s =>
        let '(oy, ox, hh, ww) := window_of s (window v) in
        Ok (mkView (storage v)
                   (Some (oy + adjust_index y0 hh, ox + adjust_index x0 ww,
                          slice_length y0 y1 hh, slice_length x0 x1 ww)), h)
    | None => Raise dangling
    end.

(** [a += b]: the sum is written into the storage of [a], through its
    window; the variable keeps denoting the same view. *)
Definition iadd_view (a b : view) : St view :=
  fun h =>
    match h !! storage a, read h b with
    | Some s, Some tb =>
        match iadd (read_window s (window a)) tb with
        | Ok r => Ok (a, <[storage a := write_window s (window a) r]> h)
        | Raise e => Raise e
        end
    | _, _ => Raise dangling
    end.

(** [v.contiguous()]: a whole tensor is returned as it is, a slice is
    copied. *)
Definition contiguous_view (v : view) : St view :=
  match window v with
  | None => ret_st v
  | Some _ => do* t := deref v in new_tensor t
  end.

Fixpoint deref_all (vs : list view) : St (list tensor) :=
  match vs with
  | [] => ret_st []
  | v :: vs' => do* t := deref v in do* ts := deref_all vs' in ret_st (t :: ts)
  end.

(** Same shape and the same entry at every index of the shape. *)
Definition tensor_same (a b : tensor) : Prop :=
  shape a = shape b /\
  forall n c y x, in_range (shape a) n c y x -> item a n c y x = item b n c y x.

Section Objects.
Context {T : TorchLib}.

Definition call_head (m : MultiBox) (feature_maps : list view)
    : St (box_tensor * box_tensor) :=
  do* ts := deref_all feature_maps in
  lift (MultiBox_forward m ts).

(** [Box2Pix.forward] on tensor objects, line by line. *)
Definition forward_st (self : Box2Pix) (x : view)
    : St (box_tensor * box_tensor * view * view) :=
  let feature_maps := [] in
  do* size := size_of x in

  do* x := (if transform_input self then call _transform_input x else ret_st x) in
  do* x := call (BasicConv2d_forward (conv1 self)) x in
  do* x := call (MaxPool2d_forward (maxpool1 self)) x in
  do* x := call (BasicConv2d_forward (conv2 self)) x in
  do* x := call (BasicConv2d_forward (conv3 self)) x in
  do* x := call (MaxPool2d_forward (maxpool2 self)) x in
  do* x := call (Inception_forward (inception3a self)) x in
  do* inception3b := call (Inception_forward (inception3b self)) x in
  do* x := call (MaxPool2d_forward (maxpool3 self)) inception3b in
  do* x := call (Inception_forward (inception4a self)) x in
  do* x := call (Inception_forward (inception4b self)) x in
  do* x := call (Inception_forward (inception4c self)) x in
  do* x := call (Inception_forward (inception4d self)) x in
  do* inception4e := call (Inception_forward (inception4e self)) x in
  let feature_maps := feature_maps ++ [inception4e] in

  do* x := call (MaxPool2d_forward (maxpool4 self)) inception4e in
  do* x := call (Inception_forward (inception5a self)) x in
  do* inception5b := call (Inception_forward (inception5b self)) x in
  let feature_maps := feature_maps ++ [inception5b] in

  do* x := call (MaxPool2d_forward (maxpool5 self)) inception5b in
  do* x := call (Inception2_forward (inception6a self)) x in
  do* inception6b := call (Inception2_forward (inception6b self)) x in
  let feature_maps := feature_maps ++ [inception6b] in

  do* x := call (MaxPool2d_forward (maxpool6 self)) inception6b in
  do* x := call (Inception2_forward (inception7a self)) x in
  do* inception7b := call (Inception2_forward (inception7b self)) x in
  let feature_maps := feature_maps ++ [inception7b] in

  do* (loc_preds, conf_preds) := call_head (multibox self) feature_maps in

  do* sem_score6b := call (Conv2d_forward (sem_score6b self)) inception6b in
  do* sem_score5b := call (Conv2d_forward (sem_score5b self)) inception5b in
  do* semantics := call (ConvTranspose2d_forward (sem_upscore self)) sem_score6b in
  do* s := size_of sem_score5b in
  do* semantics := getitem_view semantics 1 (1 + dim2 s) 1 (1 + dim3 s) in
  do* semantics := iadd_view semantics sem_score5b in
  do* sem_score4e := call (Conv2d_forward (sem_score4e self)) inception4e in
  do* semantics := call (ConvTranspose2d_forward (sem_upscore2 self)) semantics in
  do* s := size_of sem_score4e in
  do* semantics := getitem_view semantics 1 (1 + dim2 s) 1 (1 + dim3 s) in
  do* semantics := iadd_view semantics sem_score4e in
  do* sem_score3b := call (Conv2d_forward (sem_score3b self)) inception3b in
  do* semantics := call (ConvTranspose2d_forward (sem_upscore4 self)) semantics in
  do* s := size_of sem_score3b in
  do* semantics := getitem_view semantics 1 (1 + dim2 s) 1 (1 + dim3 s) in
  do* semantics := iadd_view semantics sem_score3b in
  do* semantics := call (ConvTranspose2d_forward (sem_upscore8 self)) semantics in
  do* semantics := getitem_view semantics 4 (4 + dim2 size) 4 (4 + dim3 size) in
  do* semantics := contiguous_view semantics in

  do* offs_score6b := call (Conv2d_forward (offs_score6b self)) inception6b in
  do* offs_score5b := call (Conv2d_forward (offs_score5b self)) inception5b in
  do* offsets := call (ConvTranspose2d_forward (offs_upscore self)) offs_score6b in
  do* s := size_of offs_score5b in
  do* offsets := getitem_view offsets 1 (1 + dim2 s) 1 (1 + dim3 s) in
  do* offsets := iadd_view offsets offs_score5b in
  do* offs_score4e := call (Conv2d_forward (offs_score4e self)) inception4e in
  do* offsets := call (ConvTranspose2d_forward (offs_upscore2 self)) offsets in
  do* s := size_of offs_score4e in
  do* offsets := getitem_view offsets 1 (1 + dim2 s) 1 (1 + dim3 s) in
  do* offsets := iadd_view offsets offs_score4e in
  do* offs_score3b := call (Conv2d_forward (offs_score3b self)) inception3b in
  do* offsets := call (ConvTranspose2d_forward (offs_upscore4 self)) offsets in
  do* s := size_of offs_score3b in
  do* offsets := getitem_view offsets 1 (1 + dim2 s) 1 (1 + dim3 s) in
  do* offsets := iadd_view offsets offs_score3b in
  do* offsets := call (ConvTranspose2d_forward (offs_upscore8 self)) offsets in
  do* offsets := getitem_view offsets 4 (4 + dim2 size) 4 (4 + dim3 size) in
  do* offsets := contiguous_view offsets in

  ret_st (loc_preds, conf_preds, semantics, offsets).

(** The same program in stages, as for [forward]. *)
Record tap_views : Type := mkTapViews {
  view3b : view;
  view4e : view;
  view5b : view;
  view6b : view;
  view7b : view
}.

Definition encoder_st (self : Box2Pix) (x : view) : St tap_views :=
  do* x := (if transform_input self then call _transform_input x else ret_st x) in
  do* x := call (BasicConv2d_forward (conv1 self)) x in
  do* x := call (MaxPool2d_forward (maxpool1 self)) x in
  do* x := call (BasicConv2d_forward (conv2 self)) x in
  do* x := call (BasicConv2d_forward (conv3 self)) x in
  do* x := call (MaxPool2d_forward (maxpool2 self)) x in
  do* x := call (Inception_forward (inception3a self)) x in
  do* i3b := call (Inception_forward (inception3b self)) x in
  do* x := call (MaxPool2d_forward (maxpool3 self)) i3b in
  do* x := call (Inception_forward (inception4a self)) x in
  do* x := call (Inception_forward (inception4b self)) x in
  do* x := call (Inception_forward (inception4c self)) x in
  do* x := call (Inception_forward (inception4d self)) x in
  do* i4e := call (Inception_forward (inception4e self)) x in
  do* x := call (MaxPool2d_forward (maxpool4 self)) i4e in
  do* x := call (Inception_forward (inception5a self)) x in
  do* i5b := call (Inception_forward (inception5b self)) x in
  do* x := call (MaxPool2d_forward (maxpool5 self)) i5b in
  do* x := call (Inception2_forward (inception6a self)) x in
  do* i6b := call (Inception2_forward (inception6b self)) x in
  do* x := call (MaxPool2d_forward (maxpool6 self)) i6b in
  do* x := call (Inception2_forward (inception7a self)) x in
  do* i7b := call (Inception2_forward (inception7b self)) x in
  ret_st (mkTapViews i3b i4e i5b i6b i7b).

Definition fuse_st (up : ConvNd) (coarse score : view) : St view :=
  do* u := call (ConvTranspose2d_forward up) coarse in
  do* s := size_of score in
  do* c := getitem_view u 1 (1 + dim2 s) 1 (1 + dim3 s) in
  iadd_view c score.

Definition dense_path_st (score3b score4e score5b score6b up up2 up4 up8 : ConvNd)
    (size : torch_Size) (t : tap_views) : St view :=
  do* s6 := call (Conv2d_forward score6b) (view6b t) in
  do* s5 := call (Conv2d_forward score5b) (view5b t) in
  do* f5 := fuse_st up s6 s5 in
  do* s4 := call (Conv2d_forward score4e) (view4e t) in
  do* f4 := fuse_st up2 f5 s4 in
  do* s3 := call (Conv2d_forward score3b) (view3b t) in
  do* f3 := fuse_st up4 f4 s3 in
  do* u8 := call (ConvTranspose2d_forward up8) f3 in
  do* c := getitem_view u8 4 (4 + dim2 size) 4 (4 + dim3 size) in
  contiguous_view c.

Definition staged_forward_st (self : Box2Pix) (x : view)
    : St (box_tensor * box_tensor * view * view) :=
  do* size := size_of x in
  do* t := encoder_st self x in
  do* (loc_preds, conf_preds) :=
    call_head (multibox self) [view4e t; view5b t; view6b t; view7b t] in
  do* semantics :=
    dense_path_st (sem_score3b self) (sem_score4e self) (sem_score5b self)
      (sem_score6b self) (sem_upscore self) (sem_upscore2 self) (sem_upscore4 self)
      (sem_upscore8 self) size t in
  do* offsets :=
    dense_path_st (offs_score3b self) (offs_score4e self) (offs_score5b self)
      (offs_score6b self) (offs_upscore self) (offs_upscore2 self) (offs_upscore4 self)
      (offs_upscore8 self) size t in
  ret_st (loc_preds, conf_preds, semantics, offsets).

End Objects.

(** A run on objects follows a run on values: when the run on values
    returns [a], the run on objects returns some [b] and a heap related to
    [a] by [R]; when it raises, the run on objects raises the same. *)
Definition sim {A B : Type} (R : A -> B -> heap -> Prop)
    (m : result A) (ms : result (B * heap)) : Prop :=
  match m with
  | Ok a => exists b h', ms = Ok (b, h') /\ R a b h'
  | Raise e => ms = Raise e
  end.

(** ** Attributes and hyper-parameters *)

(** The assignment [self.transform_input = b]. *)
Definition set_transform_input (self : Box2Pix) (b : bool) : Box2Pix :=
  mkBox2Pix b
    (conv1 self) (maxpool1 self) (conv2 self) (conv3 self) (maxpool2 self)
    (inception3a self) (inception3b self) (maxpool3 self)
    (inception4a self) (inception4b self) (inception4c self) (inception4d self)
    (inception4e self) (maxpool4 self) (inception5a self) (inception5b self)
    (maxpool5 self) (inception6a self) (inception6b self) (maxpool6 self)
    (inception7a self) (inception7b self)
    (sem_score3b self) (sem_score4e self) (sem_score5b self) (sem_score6b self)
    (sem_upscore self) (sem_upscore2 self) (sem_upscore4 self) (sem_upscore8 self)
    (offs_score3b self) (offs_score4e self) (offs_score5b self) (offs_score6b self)
    (offs_upscore self) (offs_upscore2 self) (offs_upscore4 self) (offs_upscore8 self)
    (multibox self).

(** What of a module is architecture and not parameter value: the
    hyper-parameters it was built with, the shape of its weight and whether
    it has a bias. *)
Inductive module_config : Type :=
| ConvConfig (transposed : bool) (in_channels out_channels : Z)
    (kernel_size stride padding : Z * Z) (weight_shape : torch_Size) (has_bias : bool)
| BatchNormConfig (num_features : Z) (eps : Q)
| MaxPoolConfig (m : MaxPool2d).

Definition config (m : nn_Module) : module_config :=
  match m with
  | MConv c =>
      ConvConfig (transposed c) (in_channels c) (out_channels c) (kernel_size c)
                 (stride c) (padding c) (shape (weight c))
                 (match bias c with Some _ => true | None => false end)
  | MBatchNorm2d b => BatchNormConfig (num_features b) (eps b)
  | MMaxPool2d p => MaxPoolConfig p
  end.

(** The ImageNet mean and standard deviation of each colour channel, as
    they appear in the constants of [_transform_input]. *)
Definition imagenet_statistics : list (Z * Q * Q) :=
  [(0, 485 # 1000, 229 # 1000); (1, 456 # 1000, 224 # 1000); (2, 406 # 1000, 225 # 1000)].

(** A tensor none of whose entries is negative. *)
Definition nonnegative (t : tensor) : Prop :=
  forall n c y x, (0 <= item t n c y x)%Q.

(** ** The architecture without the initial values

    What [__init__] fixes of every module and no training step or
    checkpoint changes: kinds, channel counts, kernel sizes, strides and
    paddings. *)
Record configured (self : Box2Pix) (num_classes : Z) : Prop := mkConfigured {
  cfg_conv1 : basic_is (conv1 self) 3 64 7 2 3;
  cfg_maxpool1 : maxpool1 self = mkMaxPool2d 3 2 0 true;
  cfg_conv2 : basic_is (conv2 self) 64 64 1 1 0;
  cfg_conv3 : basic_is (conv3 self) 64 192 3 1 1;
  cfg_maxpool2 : maxpool2 self = mkMaxPool2d 3 2 0 true;
  cfg_inception3a : inception_is (inception3a self) 3 1 192 64 96 128 16 32 32;
  cfg_inception3b : inception_is (inception3b self) 3 1 256 128 128 192 32 96 64;
  cfg_maxpool3 : maxpool3 self = mkMaxPool2d 3 2 0 true;
  cfg_inception4a : inception_is (inception4a self) 3 1 480 192 96 208 16 48 64;
  cfg_inception4b : inception_is (inception4b self) 3 1 512 160 112 224 24 64 64;
  cfg_inception4c : inception_is (inception4c self) 3 1 512 128 128 256 24 64 64;
  cfg_inception4d : inception_is (inception4d self) 3 1 512 112 144 288 32 64 64;
  cfg_inception4e : inception_is (inception4e self) 3 1 528 256 160 320 32 128 128;
  cfg_maxpool4 : maxpool4 self = mkMaxPool2d 2 2 0 true;
  cfg_inception5a : inception_is (inception5a self) 3 1 832 256 160 320 32 128 128;
  cfg_inception5b : inception_is (inception5b self) 3 1 832 384 192 384 48 128 128;
  cfg_maxpool5 : maxpool5 self = mkMaxPool2d 2 2 0 true;
  cfg_inception6a : inception_is (inception6a self) 5 2 1024 256 160 320 32 128 128;
  cfg_inception6b : inception_is (inception6b self) 5 2 832 384 192 384 48 128 128;
  cfg_maxpool6 : maxpool6 self = mkMaxPool2d 2 2 0 true;
  cfg_inception7a : inception_is (inception7a self) 5 2 1024 256 160 320 32 128 128;
  cfg_inception7b : inception_is (inception7b self) 5 2 832 384 192 384 48 128 128;
  cfg_sem_score3b : conv_is (sem_score3b self) false 480 num_classes 1 1 0;
  cfg_sem_score4e : conv_is (sem_score4e self) false 832 num_classes 1 1 0;
  cfg_sem_score5b : conv_is (sem_score5b self) false 1024 num_classes 1 1 0;
  cfg_sem_score6b : conv_is (sem_score6b self) false 1024 num_classes 1 1 0;
  cfg_sem_upscore : conv_is (sem_upscore self) true num_classes num_classes 4 2 0;
  cfg_sem_upscore2 : conv_is (sem_upscore2 self) true num_classes num_classes 4 2 0;
  cfg_sem_upscore4 : conv_is (sem_upscore4 self) true num_classes num_classes 4 2 0;
  cfg_sem_upscore8 : conv_is (sem_upscore8 self) true num_classes num_classes 16 8 0;
  cfg_offs_score3b : conv_is (offs_score3b self) false 480 2 1 1 0;
  cfg_offs_score4e : conv_is (offs_score4e self) false 832 2 1 1 0;
  cfg_offs_score5b : conv_is (offs_score5b self) false 1024 2 1 1 0;
  cfg_offs_score6b : conv_is (offs_score6b self) false 1024 2 1 1 0;
  cfg_offs_upscore : conv_is (offs_upscore self) true 2 2 4 2 0;
  cfg_offs_upscore2 : conv_is (offs_upscore2 self) true 2 2 4 2 0;
  cfg_offs_upscore4 : conv_is (offs_upscore4 self) true 2 2 4 2 0;
  cfg_offs_upscore8 : conv_is (offs_upscore8 self) true 2 2 16 8 0
}.

(** * Properties *)

(** ** The result monad *)

Lemma bind_assoc {A B C : Type} (m : result A) (f : A -> result B) (g : B -> result C) :
  bind (bind m f) g = bind m (fun a => bind (f a) g).
Proof. destruct m; reflexivity. Qed.

Lemma bind_Ok_inv {A B : Type} (m : result A) (k : A -> result B) (b : B) :
  bind m k = Ok b -> exists a, m = Ok a /\ k a = Ok b.
Proof. destruct m as [a|e]; simpl; [eauto | discriminate]. Qed.

(** Step through two sequences of binds that run the same computations in
    the same order. *)
Ltac step_binds :=
  repeat (rewrite ?bind_assoc;
          match goal with
          | |- bind ?m _ = bind ?m _ => destruct m; cbn [bind]; [ | reflexivity ]
          end).

Section StageLemmas.
Context {T : TorchLib}.

Lemma forward_stages (self : Box2Pix) (x : tensor) :
  forward self x = staged_forward self x.
Proof.
  unfold forward, staged_forward, encoder, semantics_path, offsets_path,
    dense_path, fuse, crop.
  cbn [app].
  step_binds.
  unfold feature_maps; cbn [tap3b tap4e tap5b tap6b tap7b].
  destruct (MultiBox_forward _ _) as [[loc conf]|]; cbn [bind]; [ | reflexivity ].
  step_binds.
  reflexivity.
Qed.

End StageLemmas.

(** ** The constructor *)

Ltac inv_bind H :=
  let a := fresh "a" in
  let Ha := fresh "Ha" in
  apply bind_Ok_inv in H; destruct H as (a & Ha & H).

Ltac inv_Ok H := injection H as H; subst.

Section ConstructorLemmas.
Context {T : TorchLib}.

Lemma Conv2d_new_is cin cout k s p b m :
  Conv2d_new cin cout k s p b = Ok m ->
  conv_is m false cin cout k s p /\ (b = false -> bias m = None) /\
  (b = true -> exists v, bias m = Some v) /\ 0 <= cout.
Proof.
  unfold Conv2d_new. intros H.
  destruct (_ || _) eqn:Hneg; [discriminate|].
  apply orb_false_iff in Hneg as [_ Hout%Z.ltb_ge].
  inv_bind H. inv_bind H. inv_Ok H.
  repeat split; cbn; try assumption.
  - intros ->. cbn in Ha0. congruence.
  - intros ->. cbn in Ha0. inv_bind Ha0. inv_Ok Ha0. eauto.
Qed.

Lemma ConvTranspose2d_new_is c k s m :
  ConvTranspose2d_new c c k s = Ok m ->
  conv_is m true c c k s 0 /\ bias m = None /\ shape (weight m) = mkSize c c k k.
Proof.
  unfold ConvTranspose2d_new. intros H.
  destruct (_ || _); [discriminate|].
  inv_bind H. inv_Ok H. repeat split.
Qed.

Lemma BasicConv2d_new_is cin cout k s p m :
  BasicConv2d_new cin cout k s p = Ok m -> basic_is m cin cout k s p.
Proof.
  unfold BasicConv2d_new. intros H.
  inv_bind H. inv_bind H. inv_Ok H.
  apply Conv2d_new_is in Ha as (Hc & Hb & _).
  unfold BatchNorm2d_new in Ha0. destruct (_ <? _); [discriminate|]. inv_Ok Ha0.
  repeat split; cbn; auto; apply Hc.
Qed.

Lemma inception_branches_is k5 p5 cin c1 c3r c3 c5r c5 pp m :
  inception_branches k5 p5 cin c1 c3r c3 c5r c5 pp = Ok m ->
  inception_is m k5 p5 cin c1 c3r c3 c5r c5 pp.
Proof.
  unfold inception_branches. intros H.
  do 6 inv_bind H. inv_Ok H.
  repeat split; cbn; eauto using BasicConv2d_new_is;
    match goal with
    | Hn : BasicConv2d_new _ _ _ _ _ = Ok ?m |- _ =>
        solve [ apply BasicConv2d_new_is in Hn; apply Hn ]
    end.
Qed.

Lemma initialize_conv_is nc m m' tr cin cout k s p :
  initialize_conv nc m = Ok m' ->
  conv_is m tr cin cout k s p ->
  conv_is m' tr cin cout k s p /\ (bias m = None -> bias m' = None).
Proof.
  unfold initialize_conv. intros H Hm.
  destruct (negb (transposed m)).
  - destruct (_ && _).
    + destruct (bias m) eqn:Hb; [|discriminate]. inv_Ok H. split; [exact Hm|discriminate].
    + inv_bind H. inv_Ok H. split; [exact Hm|auto].
  - inv_bind H. inv_Ok H. split; [exact Hm|auto].
Qed.

Lemma initialize_BasicConv2d_is nc m m' cin cout k s p :
  initialize_BasicConv2d nc m = Ok m' ->
  basic_is m cin cout k s p -> basic_is m' cin cout k s p.
Proof.
  unfold initialize_BasicConv2d. intros H (Hc & Hb & Hn).
  inv_bind H. inv_Ok H.
  destruct (initialize_conv_is _ _ _ _ _ _ _ _ _ Ha Hc) as [Hc' Hb'].
  repeat split; cbn; auto; apply Hc'.
Qed.

Lemma initialize_Inception_is nc m m' k5 p5 cin c1 c3r c3 c5r c5 pp :
  initialize_Inception nc m = Ok m' ->
  inception_is m k5 p5 cin c1 c3r c3 c5r c5 pp ->
  inception_is m' k5 p5 cin c1 c3r c3 c5r c5 pp.
Proof.
  unfold initialize_Inception, initialize_pair.
  intros H (H1 & H2 & H3 & H4 & H5 & H6 & H7).
  inv_bind H. inv_bind H. inv_bind H. inv_bind H. inv_Ok H.
  inv_bind Ha0. inv_bind Ha0. inv_Ok Ha0.
  inv_bind Ha1. inv_bind Ha1. inv_Ok Ha1.
  unfold inception_is; cbn.
  repeat match goal with
         | |- _ /\ _ => split
         end; eauto using initialize_BasicConv2d_is.
Qed.

Lemma initialize_conv_score nc m m' cin cout :
  initialize_conv nc m = Ok m' ->
  conv_is m false cin cout 1 1 0 ->
  cout = nc \/ cout = 2 ->
  zero_score m' cin cout.
Proof.
  unfold initialize_conv. intros H Hm Hout.
  destruct Hm as (Htr & Hin & Hc & Hk & Hs & Hp).
  rewrite Htr, Hk, Hc in H. cbn [negb fst] in H.
  replace ((cout =? nc) || (cout =? 2)) with true in H
    by (symmetry; apply orb_true_iff; destruct Hout; [left|right]; apply Z.eqb_eq; assumption).
  cbn in H. destruct (bias m); [|discriminate]. inv_Ok H.
  split; [repeat split; assumption|]. cbn. split.
  - intros; reflexivity.
  - eexists; split; [reflexivity|]. intros; reflexivity.
Qed.

Lemma bidx_in_range d i : 0 <= i < d -> bidx d i = i.
Proof. unfold bidx. intros H. destruct (Z.eqb_spec d 1); lia. Qed.

Lemma broadcasts_to_refl d : broadcasts_to d d = true.
Proof. unfold broadcasts_to. rewrite Z.eqb_refl. reflexivity. Qed.

Lemma initialize_conv_upscore nc m m' c k s :
  initialize_conv nc m = Ok m' ->
  conv_is m true c c k s 0 -> bias m = None ->
  shape (weight m) = mkSize c c k k ->
  bilinear_upscore m' c k s.
Proof.
  unfold initialize_conv. intros H Hm Hb Hw.
  pose proof Hm as (Htr & Hin & Hc & Hk & Hs & Hp).
  rewrite Htr, Hk, Hc in H. cbn [negb fst] in H.
  unfold copy_ in H. rewrite Hw in H. cbn [shape get_upsampling_weight dim0 dim1 dim2 dim3] in H.
  rewrite !broadcasts_to_refl in H. cbn [andb bind] in H.
  injection H as H. rewrite <- H.
  split; [repeat split; cbn; congruence|]. split; [exact Hb|]. cbn. split; [reflexivity|].
  intros a b c' d (Ha & Hb' & Hc' & Hd). cbn in *.
  rewrite !bidx_in_range by assumption. reflexivity.
Qed.

Theorem Box2Pix_init_constructed num_classes ti self :
  Box2Pix_init num_classes ti = Ok self ->
  constructed self num_classes /\ transform_input self = ti.
Proof.
  unfold Box2Pix_init. intros H.
  do 33 inv_bind H.
  unfold _initialize_weights in H. cbn [conv1 conv2 conv3 maxpool1 maxpool2 maxpool3
    maxpool4 maxpool5 maxpool6 inception3a inception3b inception4a inception4b
    inception4c inception4d inception4e inception5a inception5b inception6a
    inception6b inception7a inception7b sem_score3b sem_score4e sem_score5b
    sem_score6b sem_upscore sem_upscore2 sem_upscore4 sem_upscore8 offs_score3b
    offs_score4e offs_score5b offs_score6b offs_upscore offs_upscore2 offs_upscore4
    offs_upscore8 multibox transform_input] in H.
  do 33 inv_bind H. inv_Ok H.
  split; [|reflexivity].
  constructor; cbn;
    try reflexivity;
    try (eapply initialize_BasicConv2d_is; [eassumption|];
         eapply BasicConv2d_new_is; eassumption);
    try (eapply initialize_Inception_is; [eassumption|];
         eapply inception_branches_is; eassumption);
    try (eapply initialize_conv_score; [eassumption| |auto];
         match goal with
         | Hn : Conv2d_new ?cin ?cout _ _ _ _ = Ok ?m |- conv_is ?m _ _ _ _ _ _ =>
             apply Conv2d_new_is in Hn; apply Hn
         end);
    try (match goal with
         | Hi : initialize_conv _ ?m = Ok ?m', Hn : ConvTranspose2d_new _ _ _ _ = Ok ?m
           |- bilinear_upscore ?m' _ _ _ =>
             apply ConvTranspose2d_new_is in Hn; destruct Hn as (? & ? & ?);
             eapply initialize_conv_upscore; eassumption
         end).
Qed.

End ConstructorLemmas.

(** ** Shape rules in closed form *)

Lemma conv_output_size_same (h k p : Z) :
  k = 2 * p + 1 -> conv_output_size h k p 1 = h.
Proof. unfold conv_output_size. intros ->. rewrite Z.div_1_r. lia. Qed.

Lemma conv_output_size_stem (h : Z) : conv_output_size h 7 3 2 = (h + 1) / 2.
Proof. unfold conv_output_size. lia. Qed.

Lemma pooling_3_2_ceil (h : Z) : pooling_output_shape h 3 0 2 true = h / 2.
Proof.
  unfold pooling_output_shape, div_rtn. cbn [andb].
  rewrite Z.geb_leb.
  match goal with |- context [?a <=? ?b] => destruct (Z.leb_spec a b) end; lia.
Qed.

Lemma pooling_2_2_ceil (h : Z) : pooling_output_shape h 2 0 2 true = (h + 1) / 2.
Proof.
  unfold pooling_output_shape, div_rtn. cbn [andb].
  rewrite Z.geb_leb.
  match goal with |- context [?a <=? ?b] => destruct (Z.leb_spec a b) end; lia.
Qed.

Lemma pooling_3_1_1_ceil (h : Z) : pooling_output_shape h 3 1 1 true = h.
Proof.
  unfold pooling_output_shape, div_rtn. cbn [andb]. rewrite Z.div_1_r.
  rewrite Z.geb_leb.
  match goal with |- context [?a <=? ?b] => destruct (Z.leb_spec a b) end; lia.
Qed.

Lemma conv_transpose_output_size_2 (h : Z) : conv_transpose_output_size h 4 0 2 = 2 * h + 2.
Proof. unfold conv_transpose_output_size. lia. Qed.

Lemma conv_transpose_output_size_8 (h : Z) : conv_transpose_output_size h 16 0 8 = 8 * h + 8.
Proof. unfold conv_transpose_output_size. lia. Qed.

(** A slice with non-negative bounds keeps what lies inside the tensor. *)
Lemma slice_length_clamp (off h len : Z) :
  0 <= off -> 0 <= h -> 0 <= len ->
  slice_length off (off + h) len = Z.max 0 (Z.min h (len - off)).
Proof.
  intros. unfold slice_length, adjust_index.
  destruct (Z.ltb_spec off 0), (Z.ltb_spec (off + h) 0); lia.
Qed.


Lemma slice_length_inside (off h len : Z) :
  0 <= off -> 0 <= h -> off + h <= len -> slice_length off (off + h) len = h.
Proof. intros. rewrite slice_length_clamp by lia. lia. Qed.

Lemma adjust_index_inside (off len : Z) : 0 <= off <= len -> adjust_index off len = off.
Proof. intros. unfold adjust_index. destruct (Z.ltb_spec off 0); lia. Qed.

(** ** Shapes through the layers *)

Section LayerShapes.
Context {T : TorchLib}.

Lemma Conv2d_forward_shape m x cin cout k s p :
  conv_is m false cin cout k s p ->
  dim1 (shape x) = cin ->
  k <= dim2 (shape x) + 2 * p -> k <= dim3 (shape x) + 2 * p ->
  exists y, Conv2d_forward m x = Ok y /\
    shape y = mkSize (dim0 (shape x)) cout
                     (conv_output_size (dim2 (shape x)) k p s)
                     (conv_output_size (dim3 (shape x)) k p s).
Proof.
  intros (_ & Hin & Hout & Hk & Hs & Hp) Hc Hh Hw.
  unfold Conv2d_forward. rewrite Hk, Hs, Hp, Hin, Hout.
  rewrite (proj2 (Z.eqb_eq _ _) Hc). cbn [negb].
  rewrite (proj2 (Z.ltb_ge _ _) Hh), (proj2 (Z.ltb_ge _ _) Hw). cbn [orb].
  eexists; split; reflexivity.
Qed.

(** A [BasicConv2d] returns when its convolution does and batch
    normalisation has more than one value per channel to work on (which is
    asked for in training mode only). *)
Lemma BasicConv2d_forward_shape m x cin cout k s p :
  basic_is m cin cout k s p ->
  dim1 (shape x) = cin ->
  k <= dim2 (shape x) + 2 * p -> k <= dim3 (shape x) + 2 * p ->
  dim0 (shape x) * conv_output_size (dim2 (shape x)) k p s
                 * conv_output_size (dim3 (shape x)) k p s <> 1 ->
  exists y, BasicConv2d_forward m x = Ok y /\
    shape y = mkSize (dim0 (shape x)) cout
                     (conv_output_size (dim2 (shape x)) k p s)
                     (conv_output_size (dim3 (shape x)) k p s).
Proof.
  intros (Hc & _ & Hn) Hin Hh Hw Hbn.
  destruct (Conv2d_forward_shape _ _ _ _ _ _ _ Hc Hin Hh Hw) as (y & Hy & Sy).
  unfold BasicConv2d_forward. rewrite Hy. cbn [bind].
  unfold BatchNorm2d_forward. rewrite Sy. cbn [dim0 dim1 dim2 dim3].
  rewrite (proj2 (Z.eqb_neq _ _) Hbn), andb_false_r.
  rewrite Hn, Z.eqb_refl. cbn [negb bind].
  eexists; split; reflexivity.
Qed.

Lemma MaxPool2d_forward_shape k s p x :
  dim1 (shape x) <> 0 -> dim2 (shape x) <> 0 -> dim3 (shape x) <> 0 ->
  p <= k / 2 ->
  1 <= pooling_output_shape (dim2 (shape x)) k p s true ->
  1 <= pooling_output_shape (dim3 (shape x)) k p s true ->
  exists y, MaxPool2d_forward (mkMaxPool2d k s p true) x = Ok y /\
    shape y = mkSize (dim0 (shape x)) (dim1 (shape x))
                     (pooling_output_shape (dim2 (shape x)) k p s true)
                     (pooling_output_shape (dim3 (shape x)) k p s true).
Proof.
  intros H1 H2 H3 Hp Hh Hw. unfold MaxPool2d_forward.
  cbn [pool_kernel_size pool_stride pool_padding ceil_mode].
  rewrite (proj2 (Z.eqb_neq _ _) H1), (proj2 (Z.eqb_neq _ _) H2),
    (proj2 (Z.eqb_neq _ _) H3). cbn [orb].
  rewrite (proj2 (Z.ltb_ge _ _) Hp).
  rewrite (proj2 (Z.ltb_ge _ _) Hh), (proj2 (Z.ltb_ge _ _) Hw). cbn [orb].
  eexists; split; reflexivity.
Qed.

Lemma cat2_shape a b :
  dim0 (shape a) = dim0 (shape b) -> dim2 (shape a) = dim2 (shape b) ->
  dim3 (shape a) = dim3 (shape b) ->
  exists y, cat2 a b = Ok y /\
    shape y = mkSize (dim0 (shape a)) (dim1 (shape a) + dim1 (shape b))
                     (dim2 (shape a)) (dim3 (shape a)).
Proof.
  intros H0 H2 H3. unfold cat2.
  rewrite (proj2 (Z.eqb_eq _ _) H0), (proj2 (Z.eqb_eq _ _) H2), (proj2 (Z.eqb_eq _ _) H3).
  eexists; split; reflexivity.
Qed.

(** An Inception block keeps height and width and concatenates the
    channels of its four branches. *)
Lemma Inception2_forward_shape m x k5 p5 cin c1 c3r c3 c5r c5 pp :
  inception_is m k5 p5 cin c1 c3r c3 c5r c5 pp ->
  k5 = 2 * p5 + 1 -> 0 <= p5 ->
  dim1 (shape x) = cin -> cin <> 0 ->
  1 <= dim2 (shape x) -> 1 <= dim3 (shape x) ->
  dim0 (shape x) * dim2 (shape x) * dim3 (shape x) <> 1 ->
  exists y, Inception2_forward m x = Ok y /\
    shape y = mkSize (dim0 (shape x)) (c1 + c3 + c5 + pp)
                     (dim2 (shape x)) (dim3 (shape x)).
Proof.
  intros (H1 & H2a & H2b & H3a & H3b & H4a & H4b) Hk Hp Hin Hnz Hh Hw Hbn.
  unfold Inception2_forward, Sequential2.
  destruct (BasicConv2d_forward_shape _ x _ _ _ _ _ H1 Hin) as (y1 & E1 & S1);
    [lia | lia | rewrite !conv_output_size_same by lia; exact Hbn |].
  destruct (BasicConv2d_forward_shape _ x _ _ _ _ _ H2a Hin) as (y2a & E2a & S2a);
    [lia | lia | rewrite !conv_output_size_same by lia; exact Hbn |].
  rewrite !conv_output_size_same in S1, S2a by lia.
  destruct (BasicConv2d_forward_shape _ y2a _ _ _ _ _ H2b) as (y2 & E2 & S2);
    [rewrite S2a; cbn [dim0 dim1 dim2 dim3];
     rewrite ?conv_output_size_same by lia; first [reflexivity | lia | exact Hbn]..|].
  destruct (BasicConv2d_forward_shape _ x _ _ _ _ _ H3a Hin) as (y3a & E3a & S3a);
    [lia | lia | rewrite !conv_output_size_same by lia; exact Hbn |].
  rewrite !conv_output_size_same in S3a by lia.
  destruct (BasicConv2d_forward_shape _ y3a _ _ _ _ _ H3b) as (y3 & E3 & S3);
    [rewrite S3a; cbn [dim0 dim1 dim2 dim3];
     rewrite ?conv_output_size_same by lia; first [reflexivity | lia | exact Hbn]..|].
  destruct (MaxPool2d_forward_shape 3 1 1 x) as (y4a & E4a & S4a);
    [rewrite ?pooling_3_1_1_ceil; cbn; lia..|].
  rewrite !pooling_3_1_1_ceil in S4a.
  destruct (BasicConv2d_forward_shape _ y4a _ _ _ _ _ H4b) as (y4 & E4 & S4);
    [rewrite S4a; cbn [dim0 dim1 dim2 dim3];
     rewrite ?conv_output_size_same by lia; first [reflexivity | lia | exact Hbn]..|].
  rewrite E1. cbn [bind]. rewrite E2a. cbn [bind]. rewrite E2. cbn [bind].
  rewrite E3a. cbn [bind]. rewrite E3. cbn [bind].
  rewrite H4a, E4a. cbn [bind]. rewrite E4. cbn [bind].
  rewrite S2a in S2. rewrite S3a in S3. rewrite S4a in S4. cbn [dim0 dim1 dim2 dim3] in *.
  rewrite ?conv_output_size_same in * by lia.
  unfold torch_cat. cbn [fold_left bind].
  destruct (cat2_shape y1 y2) as (z1 & F1 & R1); [rewrite S1, S2; reflexivity..|].
  rewrite F1. cbn [bind].
  destruct (cat2_shape z1 y3) as (z2 & F2 & R2); [rewrite R1, S1, S3; reflexivity..|].
  rewrite F2. cbn [bind].
  destruct (cat2_shape z2 y4) as (z3 & F3 & R3); [rewrite R2, R1, S1, S4; reflexivity..|].
  rewrite F3. exists z3. split; [reflexivity|].
  rewrite R3, R2, R1, S1, S2, S3, S4. reflexivity.
Qed.

End LayerShapes.

(** ** The encoder *)

Lemma size3b_closed (h : Z) : size3b h = (h + 1) / 2 / 2 / 2.
Proof. unfold size3b. rewrite conv_output_size_stem, !pooling_3_2_ceil. reflexivity. Qed.

Lemma size4e_closed (h : Z) : size4e h = (h + 1) / 2 / 2 / 2 / 2.
Proof. unfold size4e. rewrite size3b_closed, pooling_3_2_ceil. reflexivity. Qed.

Lemma size5b_closed (h : Z) : size5b h = ((h + 1) / 2 / 2 / 2 / 2 + 1) / 2.
Proof. unfold size5b. rewrite size4e_closed, pooling_2_2_ceil. reflexivity. Qed.

Lemma size6b_closed (h : Z) : size6b h = (((h + 1) / 2 / 2 / 2 / 2 + 1) / 2 + 1) / 2.
Proof. unfold size6b. rewrite size5b_closed, pooling_2_2_ceil. reflexivity. Qed.

Lemma size7b_closed (h : Z) :
  size7b h = ((((h + 1) / 2 / 2 / 2 / 2 + 1) / 2 + 1) / 2 + 1) / 2.
Proof. unfold size7b. rewrite size6b_closed, pooling_2_2_ceil. reflexivity. Qed.

Ltac closed_sizes :=
  rewrite ?size3b_closed, ?size4e_closed, ?size5b_closed, ?size6b_closed, ?size7b_closed,
    ?conv_output_size_stem, ?pooling_3_2_ceil, ?pooling_2_2_ceil, ?pooling_3_1_1_ceil,
    ?conv_transpose_output_size_2, ?conv_transpose_output_size_8.

(** More than one value per channel at the deepest stage means more than
    one at every stage before it. *)
Lemma more_than_one_value (n a b a' b' : Z) :
  n * a' * b' <> 1 -> 1 <= a' <= a -> 1 <= b' <= b -> n * a * b <> 1.
Proof.
  intros H Ha Hb E. apply H.
  assert (Eb : b = 1).
  { destruct (Z.eq_mul_1 b (n * a)) as [?|?]; lia. }
  subst b. rewrite Z.mul_1_r in E.
  assert (Ea : a = 1).
  { destruct (Z.eq_mul_1 a n) as [?|?]; lia. }
  subst a. assert (a' = 1) by lia. assert (b' = 1) by lia. subst. lia.
Qed.

Lemma more_than_one_value_deepest (n h w : Z) :
  15 <= h -> 15 <= w -> 2 <= n \/ 143 <= h \/ 143 <= w ->
  n * size7b h * size7b w <> 1.
Proof.
  intros Hh Hw H.
  assert (Bh : 1 <= size7b h /\ (143 <= h -> 2 <= size7b h)) by (closed_sizes; lia).
  assert (Bw : 1 <= size7b w /\ (143 <= w -> 2 <= size7b w)) by (closed_sizes; lia).
  destruct Bh as [Bh1 Bh2], Bw as [Bw1 Bw2].
  generalize dependent (size7b h). generalize dependent (size7b w). intros b Bw1 Bw2 a Ba1 Ba2 E.
  assert (Eb : b = 1) by (destruct (Z.eq_mul_1 b (n * a)) as [?|?]; lia).
  subst b. rewrite Z.mul_1_r in E.
  assert (Ea : a = 1) by (destruct (Z.eq_mul_1 a n) as [?|?]; lia).
  subst a. lia.
Qed.

Ltac shape_side S :=
  rewrite ?S; cbn [dim0 dim1 dim2 dim3]; closed_sizes;
  rewrite ?conv_output_size_same by lia;
  first [ reflexivity | lia
        | match goal with
          | H : _ * _ * _ <> 1, Hh : 15 <= ?h, Hw : 15 <= ?w |- _ * _ * _ <> 1 =>
              apply (more_than_one_value _ _ _ _ _ H); clear - Hh Hw; lia
          end ].

Ltac shape_simpl S :=
  cbn [dim0 dim1 dim2 dim3] in S; closed_sizes;
  rewrite ?conv_output_size_stem, ?pooling_3_2_ceil, ?pooling_2_2_ceil,
    ?pooling_3_1_1_ceil in S;
  rewrite ?conv_output_size_same in S by lia.

Section EncoderLemmas.
Context {T : TorchLib}.

Lemma select_channel_shape x c :
  0 <= c < dim1 (shape x) ->
  exists y, select_channel x c = Ok y /\
    shape y = mkSize (dim0 (shape x)) 1 (dim2 (shape x)) (dim3 (shape x)).
Proof.
  intros [H0 H1]. unfold select_channel.
  rewrite (proj2 (Z.leb_le _ _) H0), (proj2 (Z.ltb_lt _ _) H1).
  eexists; split; reflexivity.
Qed.

Lemma _transform_input_shape x :
  3 <= dim1 (shape x) ->
  exists y, _transform_input x = Ok y /\
    shape y = mkSize (dim0 (shape x)) 3 (dim2 (shape x)) (dim3 (shape x)).
Proof.
  intros H. unfold _transform_input.
  destruct (select_channel_shape x 0) as (c0 & E0 & S0); [lia|].
  destruct (select_channel_shape x 1) as (c1 & E1 & S1); [lia|].
  destruct (select_channel_shape x 2) as (c2 & E2 & S2); [lia|].
  rewrite E0, E1, E2. cbn [bind torch_cat fold_left].
  set (a0 := affine c0 _ _). set (a1 := affine c1 _ _). set (a2 := affine c2 _ _).
  destruct (cat2_shape a0 a1) as (z1 & F1 & R1); [cbn; rewrite S0, S1; reflexivity..|].
  rewrite F1. cbn [bind].
  destruct (cat2_shape z1 a2) as (z2 & F2 & R2); [rewrite R1; cbn; rewrite S0, S2; reflexivity..|].
  rewrite F2. exists z2. split; [reflexivity|].
  rewrite R2, R1. cbn. rewrite S0, S1, S2. reflexivity.
Qed.

(** The architecture is part of what the constructor establishes. *)
Lemma constructed_configured self nc : constructed self nc -> configured self nc.
Proof.
  intros C. destruct C. constructor; try assumption;
    match goal with
    | H : zero_score ?m _ _ |- conv_is ?m _ _ _ _ _ _ => apply H
    | H : bilinear_upscore ?m _ _ _ |- conv_is ?m _ _ _ _ _ _ => apply H
    end.
Qed.

(** For every input of at least 15 x 15 pixels on which batch
    normalisation has more than one value per channel down to the deepest
    stage, the encoder returns its five taps, with these shapes, whatever
    the parameters hold. *)
Lemma encoder_shapes self nc x n h w :
  configured self nc ->
  shape x = mkSize n 3 h w -> 15 <= h -> 15 <= w ->
  n * size7b h * size7b w <> 1 ->
  exists t, encoder self x = Ok t /\
    shape (tap3b t) = mkSize n 480 (size3b h) (size3b w) /\
    shape (tap4e t) = mkSize n 832 (size4e h) (size4e w) /\
    shape (tap5b t) = mkSize n 1024 (size5b h) (size5b w) /\
    shape (tap6b t) = mkSize n 1024 (size6b h) (size6b w) /\
    shape (tap7b t) = mkSize n 1024 (size7b h) (size7b w).
Proof.
  intros C Hx Hh Hw Hbn. rewrite !size7b_closed in Hbn.
  unfold encoder, Inception_forward.
  assert (exists y0, (if transform_input self then _transform_input x else Ok x) = Ok y0 /\
                     shape y0 = mkSize n 3 h w) as (y0 & E0 & S0).
  { destruct (transform_input self); [|eauto].
    destruct (_transform_input_shape x) as (y & E & S); [rewrite Hx; cbn; lia|].
    exists y. split; [exact E|]. rewrite S, Hx. reflexivity. }
  rewrite E0. cbn [bind].
  destruct (BasicConv2d_forward_shape _ y0 _ _ _ _ _ (cfg_conv1 _ _ C)) as (y1 & E1 & S1);
    [shape_side S0..|].
  rewrite E1. cbn [bind]. rewrite S0 in S1. shape_simpl S1.
  rewrite (cfg_maxpool1 _ _ C).
  destruct (MaxPool2d_forward_shape 3 2 0 y1) as (y2 & E2 & S2); [shape_side S1..|].
  rewrite E2. cbn [bind]. rewrite S1 in S2. shape_simpl S2.
  destruct (BasicConv2d_forward_shape _ y2 _ _ _ _ _ (cfg_conv2 _ _ C)) as (y3 & E3 & S3);
    [shape_side S2..|].
  rewrite E3. cbn [bind]. rewrite S2 in S3. shape_simpl S3.
  destruct (BasicConv2d_forward_shape _ y3 _ _ _ _ _ (cfg_conv3 _ _ C)) as (y4 & E4 & S4);
    [shape_side S3..|].
  rewrite E4. cbn [bind]. rewrite S3 in S4. shape_simpl S4.
  rewrite (cfg_maxpool2 _ _ C).
  destruct (MaxPool2d_forward_shape 3 2 0 y4) as (y5 & E5 & S5); [shape_side S4..|].
  rewrite E5. cbn [bind]. rewrite S4 in S5. shape_simpl S5.
  destruct (Inception2_forward_shape _ y5 _ _ _ _ _ _ _ _ _ (cfg_inception3a _ _ C))
    as (y6 & E6 & S6); [shape_side S5..|].
  rewrite E6. cbn [bind]. rewrite S5 in S6. shape_simpl S6.
  destruct (Inception2_forward_shape _ y6 _ _ _ _ _ _ _ _ _ (cfg_inception3b _ _ C))
    as (i3b & E7 & S7); [shape_side S6..|].
  rewrite E7. cbn [bind]. rewrite S6 in S7. shape_simpl S7.
  rewrite (cfg_maxpool3 _ _ C).
  destruct (MaxPool2d_forward_shape 3 2 0 i3b) as (y8 & E8 & S8); [shape_side S7..|].
  rewrite E8. cbn [bind]. rewrite S7 in S8. shape_simpl S8.
  destruct (Inception2_forward_shape _ y8 _ _ _ _ _ _ _ _ _ (cfg_inception4a _ _ C))
    as (y9 & E9 & S9); [shape_side S8..|].
  rewrite E9. cbn [bind]. rewrite S8 in S9. shape_simpl S9.
  destruct (Inception2_forward_shape _ y9 _ _ _ _ _ _ _ _ _ (cfg_inception4b _ _ C))
    as (y10 & E10 & S10); [shape_side S9..|].
  rewrite E10. cbn [bind]. rewrite S9 in S10. shape_simpl S10.
  destruct (Inception2_forward_shape _ y10 _ _ _ _ _ _ _ _ _ (cfg_inception4c _ _ C))
    as (y11 & E11 & S11); [shape_side S10..|].
  rewrite E11. cbn [bind]. rewrite S10 in S11. shape_simpl S11.
  destruct (Inception2_forward_shape _ y11 _ _ _ _ _ _ _ _ _ (cfg_inception4d _ _ C))
    as (y12 & E12 & S12); [shape_side S11..|].
  rewrite E12. cbn [bind]. rewrite S11 in S12. shape_simpl S12.
  destruct (Inception2_forward_shape _ y12 _ _ _ _ _ _ _ _ _ (cfg_inception4e _ _ C))
    as (i4e & E13 & S13); [shape_side S12..|].
  rewrite E13. cbn [bind]. rewrite S12 in S13. shape_simpl S13.
  rewrite (cfg_maxpool4 _ _ C).
  destruct (MaxPool2d_forward_shape 2 2 0 i4e) as (y14 & E14 & S14); [shape_side S13..|].
  rewrite E14. cbn [bind]. rewrite S13 in S14. shape_simpl S14.
  destruct (Inception2_forward_shape _ y14 _ _ _ _ _ _ _ _ _ (cfg_inception5a _ _ C))
    as (y15 & E15 & S15); [shape_side S14..|].
  rewrite E15. cbn [bind]. rewrite S14 in S15. shape_simpl S15.
  destruct (Inception2_forward_shape _ y15 _ _ _ _ _ _ _ _ _ (cfg_inception5b _ _ C))
    as (i5b & E16 & S16); [shape_side S15..|].
  rewrite E16. cbn [bind]. rewrite S15 in S16. shape_simpl S16.
  rewrite (cfg_maxpool5 _ _ C).
  destruct (MaxPool2d_forward_shape 2 2 0 i5b) as (y17 & E17 & S17); [shape_side S16..|].
  rewrite E17. cbn [bind]. rewrite S16 in S17. shape_simpl S17.
  destruct (Inception2_forward_shape _ y17 _ _ _ _ _ _ _ _ _ (cfg_inception6a _ _ C))
    as (y18 & E18 & S18); [shape_side S17..|].
  rewrite E18. cbn [bind]. rewrite S17 in S18. shape_simpl S18.
  destruct (Inception2_forward_shape _ y18 _ _ _ _ _ _ _ _ _ (cfg_inception6b _ _ C))
    as (i6b & E19 & S19); [shape_side S18..|].
  rewrite E19. cbn [bind]. rewrite S18 in S19. shape_simpl S19.
  rewrite (cfg_maxpool6 _ _ C).
  destruct (MaxPool2d_forward_shape 2 2 0 i6b) as (y20 & E20 & S20); [shape_side S19..|].
  rewrite E20. cbn [bind]. rewrite S19 in S20. shape_simpl S20.
  destruct (Inception2_forward_shape _ y20 _ _ _ _ _ _ _ _ _ (cfg_inception7a _ _ C))
    as (y21 & E21 & S21); [shape_side S20..|].
  rewrite E21. cbn [bind]. rewrite S20 in S21. shape_simpl S21.
  destruct (Inception2_forward_shape _ y21 _ _ _ _ _ _ _ _ _ (cfg_inception7b _ _ C))
    as (i7b & E22 & S22); [shape_side S21..|].
  rewrite E22. cbn [bind]. rewrite S21 in S22. shape_simpl S22.
  exists (mkTaps i3b i4e i5b i6b i7b). cbn [tap3b tap4e tap5b tap6b tap7b].
  closed_sizes.
  repeat split; assumption.
Qed.

End EncoderLemmas.

(** ** Finite sums *)

Lemma sum_upto_ext (n : nat) (f g : nat -> Q) :
  (forall i, (i < n)%nat -> (f i == g i)%Q) -> (sum_upto n f == sum_upto n g)%Q.
Proof.
  induction n as [|n IH]; intros H; cbn [sum_upto]; [reflexivity|].
  rewrite IH by (intros; apply H; lia). rewrite (H n) by lia. reflexivity.
Qed.

Lemma Qsum_ext (n : Z) (f g : Z -> Q) :
  (forall i, 0 <= i < n -> (f i == g i)%Q) -> (Qsum n f == Qsum n g)%Q.
Proof. intros H. apply sum_upto_ext. intros i Hi. apply H. lia. Qed.

Lemma sum_upto_zero (n : nat) : (sum_upto n (fun _ => 0) == 0)%Q.
Proof. induction n as [|n IH]; cbn [sum_upto]; [reflexivity|]. rewrite IH. ring. Qed.

Lemma Qsum_zero (n : Z) (f : Z -> Q) :
  (forall i, 0 <= i < n -> (f i == 0)%Q) -> (Qsum n f == 0)%Q.
Proof.
  intros H. rewrite (Qsum_ext n f (fun _ => 0%Q) H).
  apply sum_upto_zero.
Qed.

Lemma sum_upto_single (n a : nat) (f : nat -> Q) :
  (a < n)%nat -> (forall i, (i < n)%nat -> i <> a -> (f i == 0)%Q) ->
  (sum_upto n f == f a)%Q.
Proof.
  induction n as [|n IH]; intros Ha H; [lia|]. cbn [sum_upto].
  destruct (Nat.eq_dec a n) as [->|Hne].
  - rewrite (sum_upto_ext n f (fun _ => 0%Q)) by (intros; apply H; lia).
    rewrite sum_upto_zero. ring.
  - rewrite IH by (try lia; intros; apply H; lia).
    rewrite (H n) by lia. ring.
Qed.

Lemma Qsum_single (n a : Z) (f : Z -> Q) :
  0 <= a < n -> (forall i, 0 <= i < n -> i <> a -> (f i == 0)%Q) ->
  (Qsum n f == f a)%Q.
Proof.
  intros Ha H. unfold Qsum.
  rewrite (sum_upto_single _ (Z.to_nat a)).
  - rewrite Z2Nat.id by lia. reflexivity.
  - lia.
  - intros i Hi Hne. apply H; lia.
Qed.

Lemma Qsum_two (n a b : Z) (f : Z -> Q) :
  0 <= a < n -> 0 <= b < n -> a <> b ->
  (forall i, 0 <= i < n -> i <> a -> i <> b -> (f i == 0)%Q) ->
  (Qsum n f == f a + f b)%Q.
Proof.
  intros Ha Hb Hab H.
  transitivity (Qsum n (fun i => (if i =? a then f a else 0) + (if i =? a then 0 else f i))%Q).
  - apply Qsum_ext. intros i Hi. destruct (Z.eqb_spec i a) as [->|]; ring.
  - unfold Qsum.
    assert (Hsplit : forall m (g h : nat -> Q),
               (sum_upto m (fun i => g i + h i) == sum_upto m g + sum_upto m h)%Q).
    { induction m as [|m IH]; intros; cbn [sum_upto]; [ring|]. rewrite IH. ring. }
    rewrite Hsplit.
    change (Qsum n (fun i => if i =? a then f a else 0) +
            Qsum n (fun i => if i =? a then 0 else f i) == f a + f b)%Q.
    assert (E1 := Qsum_single n a (fun i => if i =? a then f a else 0%Q) Ha).
    assert (E2 := Qsum_single n b (fun i => if i =? a then 0%Q else f i) Hb).
    cbv beta in E1, E2. rewrite E1, E2.
    + rewrite Z.eqb_refl. destruct (Z.eqb_spec b a); [lia|]. reflexivity.
    + intros i Hi Hne. destruct (Z.eqb_spec i a); [reflexivity|]. apply H; lia.
    + intros i Hi Hne. destruct (Z.eqb_spec i a); [lia|reflexivity].
Qed.

(** ** Values through the layers of a dense path *)

Lemma Conv2d_forward_zero m x y cin cout :
  zero_score m cin cout -> Conv2d_forward m x = Ok y -> zero_everywhere y.
Proof.
  intros (_ & Hw & b & Hb & Hb0) H. unfold Conv2d_forward in H.
  destruct (kernel_size m) as [kh kw], (stride m) as [sh sw], (padding m) as [ph pw].
  destruct (negb _); [discriminate|]. destruct (_ || _); [discriminate|].
  injection H as <-. intros n c i j. cbn [item].
  unfold bias_at. rewrite Hb, Hb0.
  rewrite Qsum_zero; [ring|]. intros ci _.
  apply Qsum_zero. intros ky _. apply Qsum_zero. intros kx _.
  rewrite Hw. ring.
Qed.

Lemma ConvTranspose2d_forward_zero m x y :
  bias m = None -> zero_everywhere x -> ConvTranspose2d_forward m x = Ok y ->
  zero_everywhere y.
Proof.
  intros Hb Hx H. unfold ConvTranspose2d_forward in H.
  destruct (kernel_size m) as [kh kw], (stride m) as [sh sw], (padding m) as [ph pw].
  destruct (negb _); [discriminate|].
  injection H as <-. intros n c i j. cbn [item].
  unfold bias_at. rewrite Hb.
  rewrite Qsum_zero; [ring|]. intros ci _.
  apply Qsum_zero. intros ky _. apply Qsum_zero. intros kx _.
  destruct (source_index _ _ _ _); [|reflexivity].
  destruct (source_index _ _ _ _); [|reflexivity].
  rewrite (Hx _ _ _ _). ring.
Qed.

Lemma getitem_hw_zero t y0 y1 x0 x1 :
  zero_everywhere t -> zero_everywhere (getitem_hw t y0 y1 x0 x1).
Proof. intros H n c y x. cbn. apply H. Qed.

Lemma iadd_zero a b r :
  zero_everywhere a -> zero_everywhere b -> iadd a b = Ok r -> zero_everywhere r.
Proof.
  intros Ha Hb H. unfold iadd in H. destruct (_ && _); [|discriminate].
  injection H as <-. intros n c y x. cbn. rewrite (Ha _ _ _ _), (Hb _ _ _ _). ring.
Qed.

Lemma zero_everywhere_all_zero t : zero_everywhere t -> all_zero t.
Proof. intros H n c y x _. apply H. Qed.

Section DensePath.
Context {T : TorchLib}.

Lemma fuse_zero up coarse score f :
  bias up = None -> zero_everywhere coarse -> zero_everywhere score ->
  fuse up coarse score = Ok f -> zero_everywhere f.
Proof.
  intros Hb Hc Hs H. unfold fuse in H. inv_bind H.
  eapply iadd_zero; [|exact Hs|exact H].
  apply getitem_hw_zero.
  eapply ConvTranspose2d_forward_zero; [exact Hb|exact Hc|exact Ha].
Qed.

(** A dense path whose score projections are zero returns zero, whatever
    the taps and whatever the upsampling weights. *)
Lemma dense_path_zero s3 s4 s5 s6 up up2 up4 up8 c3 c4 c5 c6 k3 k4 k5 k6 size t out :
  zero_score s3 c3 k3 -> zero_score s4 c4 k4 -> zero_score s5 c5 k5 -> zero_score s6 c6 k6 ->
  bias up = None -> bias up2 = None -> bias up4 = None -> bias up8 = None ->
  dense_path s3 s4 s5 s6 up up2 up4 up8 size t = Ok out ->
  zero_everywhere out.
Proof.
  intros Z3 Z4 Z5 Z6 B1 B2 B3 B4 H. unfold dense_path in H.
  do 8 inv_bind H. inv_Ok H.
  unfold contiguous, crop. apply getitem_hw_zero.
  assert (zero_everywhere a) by (eapply Conv2d_forward_zero; [exact Z6|eassumption]).
  assert (zero_everywhere a0) by (eapply Conv2d_forward_zero; [exact Z5|eassumption]).
  assert (zero_everywhere a2) by (eapply Conv2d_forward_zero; [exact Z4|eassumption]).
  assert (zero_everywhere a4) by (eapply Conv2d_forward_zero; [exact Z3|eassumption]).
  assert (zero_everywhere a1) by (eapply (fuse_zero up a a0); eassumption).
  assert (zero_everywhere a3) by (eapply (fuse_zero up2 a1 a2); eassumption).
  assert (zero_everywhere a5) by (eapply (fuse_zero up4 a3 a4); eassumption).
  eapply ConvTranspose2d_forward_zero; [exact B4| |eassumption]. assumption.
Qed.

End DensePath.

(** ** Shapes and entries through a dense path *)

Lemma ConvTranspose2d_forward_shape m x cin cout k s p :
  conv_is m true cin cout k s p ->
  dim1 (shape x) = cin ->
  exists y, ConvTranspose2d_forward m x = Ok y /\
    shape y = mkSize (dim0 (shape x)) cout
                     (conv_transpose_output_size (dim2 (shape x)) k p s)
                     (conv_transpose_output_size (dim3 (shape x)) k p s).
Proof.
  intros (_ & Hin & Hout & Hk & Hs & Hp) Hc.
  unfold ConvTranspose2d_forward. rewrite Hk, Hs, Hp, Hin, Hout.
  rewrite (proj2 (Z.eqb_eq _ _) Hc). cbn [negb].
  eexists; split; reflexivity.
Qed.

Lemma score_forward_shape m x cin cout :
  conv_is m false cin cout 1 1 0 ->
  dim1 (shape x) = cin -> 1 <= dim2 (shape x) -> 1 <= dim3 (shape x) ->
  exists y, Conv2d_forward m x = Ok y /\
    shape y = mkSize (dim0 (shape x)) cout (dim2 (shape x)) (dim3 (shape x)).
Proof.
  intros Hm Hc Hh Hw.
  destruct (Conv2d_forward_shape _ _ _ _ _ _ _ Hm Hc) as (y & E & S); [lia..|].
  exists y. split; [exact E|]. rewrite S, !conv_output_size_same by lia. reflexivity.
Qed.

Lemma iadd_same_shape a b :
  shape a = shape b ->
  exists r, iadd a b = Ok r /\ shape r = shape a /\
    forall n c y x, in_range (shape a) n c y x ->
      (item r n c y x == item a n c y x + item b n c y x)%Q.
Proof.
  intros H. unfold iadd. rewrite <- H, !broadcasts_to_refl. cbn [andb].
  eexists; split; [reflexivity|]. split; [reflexivity|].
  intros n c y x (Hn & Hc & Hy & Hx). cbn [item].
  rewrite !bidx_in_range by assumption. reflexivity.
Qed.

(** A fusion step whose crop window lies inside the upsampled map. *)
Lemma fuse_spec up coarse score n c hc wc hs ws :
  conv_is up true c c 4 2 0 ->
  shape coarse = mkSize n c hc wc -> shape score = mkSize n c hs ws ->
  0 <= hs <= 2 * hc + 1 -> 0 <= ws <= 2 * wc + 1 ->
  exists f, fuse up coarse score = Ok f /\ fused_from up coarse score f.
Proof.
  intros Hup Hc Hs Hh Hw.
  destruct (ConvTranspose2d_forward_shape _ coarse _ _ _ _ _ Hup) as (u & Eu & Su);
    [rewrite Hc; reflexivity|].
  rewrite Hc in Su. cbn [dim0 dim2 dim3] in Su. rewrite !conv_transpose_output_size_2 in Su.
  unfold fuse. rewrite Eu. cbn [bind].
  destruct (iadd_same_shape (crop 1 u (dim2 (shape score)) (dim3 (shape score))) score)
    as (f & Ef & Sf & If).
  { unfold crop. cbn [shape getitem_hw]. rewrite Su, Hs. cbn [dim0 dim1 dim2 dim3].
    rewrite !slice_length_inside by lia. reflexivity. }
  exists f. split; [exact Ef|]. exists u. split; [exact Eu|].
  assert (Sc : shape (crop 1 u (dim2 (shape score)) (dim3 (shape score))) = shape score).
  { unfold crop. cbn [shape getitem_hw]. rewrite Su, Hs. cbn [dim0 dim1 dim2 dim3].
    rewrite !slice_length_inside by lia. reflexivity. }
  split; [rewrite Sf; exact Sc|].
  intros n' c' y x Hr. rewrite If by (rewrite Sc; exact Hr).
  unfold crop. cbn [item getitem_hw]. rewrite Su. cbn [dim2 dim3].
  rewrite !adjust_index_inside by lia. reflexivity.
Qed.

(** The final crop. *)
Lemma final_crop_spec up8 fused n c h3 w3 h w :
  conv_is up8 true c c 16 8 0 ->
  shape fused = mkSize n c h3 w3 -> 0 <= h3 -> 0 <= w3 -> 0 <= h -> 0 <= w ->
  exists u, ConvTranspose2d_forward up8 fused = Ok u /\
    cropped_from up8 fused h w (contiguous (crop 4 u h w)) /\
    shape (contiguous (crop 4 u h w)) =
      mkSize n c (Z.min h (8 * h3 + 4)) (Z.min w (8 * w3 + 4)).
Proof.
  intros Hup Hf Hh3 Hw3 Hh Hw.
  destruct (ConvTranspose2d_forward_shape _ fused _ _ _ _ _ Hup) as (u & Eu & Su);
    [rewrite Hf; reflexivity|].
  rewrite Hf in Su. cbn [dim0 dim2 dim3] in Su. rewrite !conv_transpose_output_size_8 in Su.
  exists u. split; [exact Eu|].
  assert (S : shape (contiguous (crop 4 u h w)) =
              mkSize n c (Z.min h (8 * h3 + 4)) (Z.min w (8 * w3 + 4))).
  { unfold contiguous, crop. cbn [shape getitem_hw]. rewrite Su. cbn [dim0 dim1 dim2 dim3].
    rewrite !slice_length_clamp by lia. f_equal; lia. }
  split; [|exact S].
  exists u. split; [exact Eu|]. rewrite S, Su. cbn [dim0 dim1 dim2 dim3].
  repeat split; try lia.
  intros n' c' y x _. unfold contiguous, crop. cbn [item getitem_hw]. rewrite Su.
  cbn [dim2 dim3]. rewrite !adjust_index_inside by lia. reflexivity.
Qed.

Section DensePathShapes.
Context {T : TorchLib}.

(** A dense path on taps whose sizes halve (up to rounding) from one to the
    next: every stage returns, every fusion step is exact, and the result is
    the final crop. *)
Lemma dense_path_spec s3 s4 s5 s6 up up2 up4 up8 c size t n h3 w3 h4 w4 h5 w5 h6 w6 :
  conv_is s3 false 480 c 1 1 0 -> conv_is s4 false 832 c 1 1 0 ->
  conv_is s5 false 1024 c 1 1 0 -> conv_is s6 false 1024 c 1 1 0 ->
  conv_is up true c c 4 2 0 -> conv_is up2 true c c 4 2 0 ->
  conv_is up4 true c c 4 2 0 -> conv_is up8 true c c 16 8 0 ->
  shape (tap3b t) = mkSize n 480 h3 w3 -> shape (tap4e t) = mkSize n 832 h4 w4 ->
  shape (tap5b t) = mkSize n 1024 h5 w5 -> shape (tap6b t) = mkSize n 1024 h6 w6 ->
  1 <= h6 -> 1 <= h5 <= 2 * h6 + 1 -> 1 <= h4 <= 2 * h5 + 1 -> 1 <= h3 <= 2 * h4 + 1 ->
  1 <= w6 -> 1 <= w5 <= 2 * w6 + 1 -> 1 <= w4 <= 2 * w5 + 1 -> 1 <= w3 <= 2 * w4 + 1 ->
  0 <= dim2 size -> 0 <= dim3 size ->
  exists sc3 sc4 sc5 sc6 f5 f4 f3 out,
    Conv2d_forward s6 (tap6b t) = Ok sc6 /\ Conv2d_forward s5 (tap5b t) = Ok sc5 /\
    Conv2d_forward s4 (tap4e t) = Ok sc4 /\ Conv2d_forward s3 (tap3b t) = Ok sc3 /\
    shape sc6 = mkSize n c h6 w6 /\ shape sc5 = mkSize n c h5 w5 /\
    shape sc4 = mkSize n c h4 w4 /\ shape sc3 = mkSize n c h3 w3 /\
    fused_from up sc6 sc5 f5 /\ fused_from up2 f5 sc4 f4 /\ fused_from up4 f4 sc3 f3 /\
    cropped_from up8 f3 (dim2 size) (dim3 size) out /\
    dense_path s3 s4 s5 s6 up up2 up4 up8 size t = Ok out /\
    shape out = mkSize n c (Z.min (dim2 size) (8 * h3 + 4)) (Z.min (dim3 size) (8 * w3 + 4)).
Proof.
  intros C3 C4 C5 C6 U1 U2 U4 U8 T3 T4 T5 T6 Hh6 Hh5 Hh4 Hh3 Hw6 Hw5 Hw4 Hw3 Hh Hw.
  destruct (score_forward_shape _ (tap6b t) _ _ C6) as (sc6 & E6 & S6); [rewrite T6; cbn; lia..|].
  destruct (score_forward_shape _ (tap5b t) _ _ C5) as (sc5 & E5 & S5); [rewrite T5; cbn; lia..|].
  destruct (score_forward_shape _ (tap4e t) _ _ C4) as (sc4 & E4 & S4); [rewrite T4; cbn; lia..|].
  destruct (score_forward_shape _ (tap3b t) _ _ C3) as (sc3 & E3 & S3); [rewrite T3; cbn; lia..|].
  rewrite T6 in S6. rewrite T5 in S5. rewrite T4 in S4. rewrite T3 in S3.
  cbn [dim0 dim1 dim2 dim3] in *.
  destruct (fuse_spec up sc6 sc5 n c h6 w6 h5 w5 U1 S6 S5) as (f5 & F5 & R5); [lia..|].
  assert (Sf5 : shape f5 = mkSize n c h5 w5)
    by (destruct R5 as (? & _ & -> & _); exact S5).
  destruct (fuse_spec up2 f5 sc4 n c h5 w5 h4 w4 U2 Sf5 S4) as (f4 & F4 & R4); [lia..|].
  assert (Sf4 : shape f4 = mkSize n c h4 w4)
    by (destruct R4 as (? & _ & -> & _); exact S4).
  destruct (fuse_spec up4 f4 sc3 n c h4 w4 h3 w3 U4 Sf4 S3) as (f3 & F3 & R3); [lia..|].
  assert (Sf3 : shape f3 = mkSize n c h3 w3)
    by (destruct R3 as (? & _ & -> & _); exact S3).
  destruct (final_crop_spec up8 f3 n c h3 w3 (dim2 size) (dim3 size) U8 Sf3)
    as (u8 & E8 & R8 & S8); [lia..|].
  exists sc3, sc4, sc5, sc6, f5, f4, f3, (contiguous (crop 4 u8 (dim2 size) (dim3 size))).
  repeat match goal with |- _ /\ _ => split end; try assumption.
  unfold dense_path. rewrite E6. cbn [bind]. rewrite E5. cbn [bind].
  rewrite F5. cbn [bind]. rewrite E4. cbn [bind]. rewrite F4. cbn [bind].
  rewrite E3. cbn [bind]. rewrite F3. cbn [bind]. rewrite E8. reflexivity.
Qed.

End DensePathShapes.

(** ** The size of a dense output *)

Lemma dense_output_size_min (h : Z) :
  0 <= h -> dense_output_size h = Z.min h (8 * size3b h + 4).
Proof.
  intros Hh. unfold dense_output_size.
  rewrite conv_transpose_output_size_8, size3b_closed.
  rewrite slice_length_clamp by lia. lia.
Qed.

(** The output is as high as the input exactly when the input height is
    not 5 or 6 modulo 8. *)
Lemma dense_output_size_exact (h : Z) :
  0 <= h -> h mod 8 <> 5 -> h mod 8 <> 6 -> dense_output_size h = h.
Proof.
  intros Hh H5 H6. rewrite dense_output_size_min by lia. rewrite size3b_closed. lia.
Qed.

Lemma dense_output_size_short (h : Z) :
  0 <= h -> h mod 8 = 5 \/ h mod 8 = 6 -> dense_output_size h = 8 * (h / 8) + 4.
Proof.
  intros Hh H. rewrite dense_output_size_min by lia. rewrite size3b_closed. lia.
Qed.

(** ** The forward pass *)

Section ForwardLemmas.
Context {T : TorchLib}.

Lemma tap_size_bounds (h : Z) :
  15 <= h ->
  1 <= size6b h /\ 1 <= size5b h <= 2 * size6b h + 1 /\
  1 <= size4e h <= 2 * size5b h + 1 /\ 1 <= size3b h <= 2 * size4e h + 1.
Proof. intros H. closed_sizes. lia. Qed.

(** From the taps on, nothing depends on batch normalisation: both dense
    paths return, whatever the parameters hold, and [forward] returns as
    soon as the detection head does. *)
Lemma forward_dense_spec self nc x n h w t :
  configured self nc ->
  shape x = mkSize n 3 h w -> 15 <= h -> 15 <= w ->
  encoder self x = Ok t ->
  shape (tap3b t) = mkSize n 480 (size3b h) (size3b w) ->
  shape (tap4e t) = mkSize n 832 (size4e h) (size4e w) ->
  shape (tap5b t) = mkSize n 1024 (size5b h) (size5b w) ->
  shape (tap6b t) = mkSize n 1024 (size6b h) (size6b w) ->
  shape (tap7b t) = mkSize n 1024 (size7b h) (size7b w) ->
  exists sem offs,
    map shape (feature_maps t) = head_input_shapes n h w /\
    dense_path_reads (sem_score3b self) (sem_score4e self) (sem_score5b self)
      (sem_score6b self) (sem_upscore self) (sem_upscore2 self) (sem_upscore4 self)
      (sem_upscore8 self) (shape x) t sem /\
    dense_path_reads (offs_score3b self) (offs_score4e self) (offs_score5b self)
      (offs_score6b self) (offs_upscore self) (offs_upscore2 self) (offs_upscore4 self)
      (offs_upscore8 self) (shape x) t offs /\
    shape sem = mkSize n nc (dense_output_size h) (dense_output_size w) /\
    shape offs = mkSize n 2 (dense_output_size h) (dense_output_size w) /\
    forward self x =
      (let* (loc_preds, conf_preds) := MultiBox_forward (multibox self) (feature_maps t) in
       Ok (loc_preds, conf_preds, sem, offs)).
Proof.
  intros C Hx Hh Hw Et T3 T4 T5 T6 T7.
  destruct (tap_size_bounds h Hh) as (Bh6 & Bh5 & Bh4 & Bh3).
  destruct (tap_size_bounds w Hw) as (Bw6 & Bw5 & Bw4 & Bw3).
  destruct (dense_path_spec _ _ _ _ _ _ _ _ nc (shape x) t n _ _ _ _ _ _ _ _
              (cfg_sem_score3b _ _ C) (cfg_sem_score4e _ _ C) (cfg_sem_score5b _ _ C)
              (cfg_sem_score6b _ _ C) (cfg_sem_upscore _ _ C) (cfg_sem_upscore2 _ _ C)
              (cfg_sem_upscore4 _ _ C) (cfg_sem_upscore8 _ _ C) T3 T4 T5 T6)
    as (a3 & a4 & a5 & a6 & f5 & f4 & f3 & sem & A6 & A5 & A4 & A3 & _ & _ & _ & _
        & F5 & F4 & F3 & R & P & Ssem); try lia; try (rewrite Hx; cbn; lia).
  destruct (dense_path_spec _ _ _ _ _ _ _ _ 2 (shape x) t n _ _ _ _ _ _ _ _
              (cfg_offs_score3b _ _ C) (cfg_offs_score4e _ _ C) (cfg_offs_score5b _ _ C)
              (cfg_offs_score6b _ _ C) (cfg_offs_upscore _ _ C) (cfg_offs_upscore2 _ _ C)
              (cfg_offs_upscore4 _ _ C) (cfg_offs_upscore8 _ _ C) T3 T4 T5 T6)
    as (b3 & b4 & b5 & b6 & g5 & g4 & g3 & offs & B6' & B5' & B4' & B3' & _ & _ & _ & _
        & G5 & G4 & G3 & R' & P' & Soffs); try lia; try (rewrite Hx; cbn; lia).
  exists sem, offs.
  split; [unfold feature_maps, head_input_shapes; cbn [map]; rewrite T4, T5, T6, T7;
          reflexivity|].
  split; [exists a3, a4, a5, a6, f5, f4, f3; repeat split; assumption|].
  split; [exists b3, b4, b5, b6, g5, g4, g3; repeat split; assumption|].
  rewrite Hx in Ssem, Soffs. cbn [dim2 dim3] in Ssem, Soffs.
  split; [rewrite Ssem, !dense_output_size_min by lia; reflexivity|].
  split; [rewrite Soffs, !dense_output_size_min by lia; reflexivity|].
  rewrite forward_stages. unfold staged_forward, semantics_path, offsets_path.
  rewrite Et. cbn [bind].
  destruct (MultiBox_forward _ _) as [[loc conf]|]; cbn [bind]; [|reflexivity].
  rewrite P. cbn [bind]. rewrite P'. reflexivity.
Qed.

(** For every input of at least 15 x 15 pixels with more than one value
    per channel at the deepest stage, the encoder and both dense paths
    return. *)
Lemma forward_spec self nc x n h w :
  configured self nc ->
  shape x = mkSize n 3 h w -> 15 <= h -> 15 <= w ->
  n * size7b h * size7b w <> 1 ->
  exists t sem offs,
    encoder self x = Ok t /\
    map shape (feature_maps t) = head_input_shapes n h w /\
    dense_path_reads (sem_score3b self) (sem_score4e self) (sem_score5b self)
      (sem_score6b self) (sem_upscore self) (sem_upscore2 self) (sem_upscore4 self)
      (sem_upscore8 self) (shape x) t sem /\
    dense_path_reads (offs_score3b self) (offs_score4e self) (offs_score5b self)
      (offs_score6b self) (offs_upscore self) (offs_upscore2 self) (offs_upscore4 self)
      (offs_upscore8 self) (shape x) t offs /\
    shape sem = mkSize n nc (dense_output_size h) (dense_output_size w) /\
    shape offs = mkSize n 2 (dense_output_size h) (dense_output_size w) /\
    forward self x =
      (let* (loc_preds, conf_preds) := MultiBox_forward (multibox self) (feature_maps t) in
       Ok (loc_preds, conf_preds, sem, offs)).
Proof.
  intros C Hx Hh Hw Hbn.
  destruct (encoder_shapes self nc x n h w C Hx Hh Hw Hbn)
    as (t & Et & T3 & T4 & T5 & T6 & T7).
  destruct (forward_dense_spec self nc x n h w t C Hx Hh Hw Et T3 T4 T5 T6 T7)
    as (sem & offs & R).
  exists t, sem, offs. split; [exact Et|exact R].
Qed.

(** What [forward] returns once the detection head accepts its input. *)
Lemma forward_returns self nc x n h w :
  configured self nc ->
  shape x = mkSize n 3 h w -> 15 <= h -> 15 <= w ->
  2 <= n \/ 143 <= h \/ 143 <= w ->
  head_accepts self n h w ->
  exists t loc conf sem offs,
    encoder self x = Ok t /\
    forward self x = Ok (loc, conf, sem, offs) /\
    dense_path_reads (sem_score3b self) (sem_score4e self) (sem_score5b self)
      (sem_score6b self) (sem_upscore self) (sem_upscore2 self) (sem_upscore4 self)
      (sem_upscore8 self) (shape x) t sem /\
    dense_path_reads (offs_score3b self) (offs_score4e self) (offs_score5b self)
      (offs_score6b self) (offs_upscore self) (offs_upscore2 self) (offs_upscore4 self)
      (offs_upscore8 self) (shape x) t offs /\
    shape sem = mkSize n nc (dense_output_size h) (dense_output_size w) /\
    shape offs = mkSize n 2 (dense_output_size h) (dense_output_size w).
Proof.
  intros C Hx Hh Hw Hbn Hhead.
  destruct (forward_spec self nc x n h w C Hx Hh Hw
              (more_than_one_value_deepest n h w Hh Hw Hbn))
    as (t & sem & offs & Et & Hfm & Rs & Ro & Ssem & Soffs & F).
  destruct (Hhead _ Hfm) as ([loc conf] & E).
  exists t, loc, conf, sem, offs. rewrite F, E. cbn [bind]. auto 10.
Qed.

End ForwardLemmas.

(** ** The loop over [self.modules()] *)

Lemma mapM_app {A B : Type} (f : A -> result B) (l1 l2 : list A) (r1 r2 : list B) :
  mapM f l1 = Ok r1 -> mapM f l2 = Ok r2 -> mapM f (l1 ++ l2) = Ok (r1 ++ r2).
Proof.
  revert r1. induction l1 as [|a l1 IH]; intros r1 H1 H2; cbn in *.
  - injection H1 as <-. exact H2.
  - destruct (f a) as [b|]; [|discriminate]. cbn in *.
    destruct (mapM f l1) as [bs|]; [|discriminate]. injection H1 as <-.
    rewrite (IH bs eq_refl H2). reflexivity.
Qed.

Lemma mapM_cons {A B : Type} (f : A -> result B) a b l r :
  f a = Ok b -> mapM f l = Ok r -> mapM f (a :: l) = Ok (b :: r).
Proof. intros Ha Hl. cbn. rewrite Ha. cbn. rewrite Hl. reflexivity. Qed.

Lemma mapM_In {A B : Type} (f : A -> result B) (l : list A) (r : list B) (b : B) :
  mapM f l = Ok r -> In b r -> exists a, In a l /\ f a = Ok b.
Proof.
  revert r. induction l as [|a l IH]; intros r H Hb; cbn in H.
  - injection H as <-. destruct Hb.
  - destruct (f a) as [b'|] eqn:Ea; [|discriminate]. cbn in H.
    destruct (mapM f l) as [bs|]; [|discriminate]. injection H as <-.
    destruct Hb as [<-|Hb].
    + exists a. split; [left; reflexivity|exact Ea].
    + destruct (IH bs eq_refl Hb) as (a' & Ha' & Ea'). exists a'. split; [right|]; assumption.
Qed.

Section ModuleLoop.
Context {T : TorchLib}.

Lemma initialize_BasicConv2d_loop nc m m' :
  initialize_BasicConv2d nc m = Ok m' ->
  mapM (initialize_module nc) (BasicConv2d_modules m) = Ok (BasicConv2d_modules m').
Proof.
  unfold initialize_BasicConv2d. intros H. inv_bind H. inv_Ok H.
  unfold BasicConv2d_modules. cbn. rewrite Ha. reflexivity.
Qed.

Lemma initialize_Inception_loop nc m m' :
  initialize_Inception nc m = Ok m' ->
  mapM (initialize_module nc) (Inception_modules m) = Ok (Inception_modules m').
Proof.
  unfold initialize_Inception, initialize_pair. intros H.
  do 4 inv_bind H. inv_Ok H. do 2 inv_bind Ha0. inv_Ok Ha0. do 2 inv_bind Ha1. inv_Ok Ha1.
  unfold Inception_modules. cbn [branch1 branch2 branch3 branch4 fst snd].
  repeat first [ apply mapM_app | apply mapM_cons; [reflexivity|] ];
    apply initialize_BasicConv2d_loop; assumption.
Qed.

(** The module-by-module initialiser is the loop
    [for m in self.modules()] with body [initialize_module]. *)
Lemma _initialize_weights_loop self nc self' :
  _initialize_weights self nc = Ok self' ->
  mapM (initialize_module nc) (modules self) = Ok (modules self').
Proof.
  unfold _initialize_weights. intros H. do 33 inv_bind H. inv_Ok H.
  unfold initialize_MultiBox in *.
  match goal with Hm : bind (mapM _ (mb_modules _)) _ = Ok _ |- _ => inv_bind Hm; inv_Ok Hm end.
  unfold modules.
  cbn [conv1 conv2 conv3 maxpool1 maxpool2 maxpool3
    maxpool4 maxpool5 maxpool6 inception3a inception3b inception4a inception4b
    inception4c inception4d inception4e inception5a inception5b inception6a
    inception6b inception7a inception7b sem_score3b sem_score4e sem_score5b
    sem_score6b sem_upscore sem_upscore2 sem_upscore4 sem_upscore8 offs_score3b
    offs_score4e offs_score5b offs_score6b offs_upscore offs_upscore2 offs_upscore4
    offs_upscore8 multibox mb_modules].
  repeat first
    [ apply mapM_app; [first [ apply initialize_BasicConv2d_loop; assumption
                             | apply initialize_Inception_loop; assumption
                             | idtac ]|]
    | apply mapM_cons; [reflexivity|] ];
    try assumption.
  cbn [mapM initialize_module].
  repeat match goal with
         | Hc : initialize_conv nc ?m = Ok _ |- context [initialize_conv nc ?m] =>
             rewrite Hc; cbn [bind]
         end.
  reflexivity.
Qed.

(** Whatever [initialize_conv] returns and the test for a score projection
    recognises has zero weight and zero bias. *)
Lemma initialize_conv_score_like nc m m' :
  initialize_conv nc m = Ok m' -> score_like nc m' -> zero_parameters m'.
Proof.
  unfold initialize_conv. intros H (Htr & Hk & Hout).
  destruct (negb (transposed m)) eqn:Ht.
  - destruct (_ && _) eqn:Hc.
    + destruct (bias m); [|discriminate]. inv_Ok H. split; cbn.
      * intros; reflexivity.
      * eexists; split; [reflexivity|]. intros; reflexivity.
    + inv_bind H. inv_Ok H. cbn in Htr, Hk, Hout.
      apply andb_false_iff in Hc. exfalso.
      destruct Hc as [Hc|Hc].
      * apply Z.eqb_neq in Hc. contradiction.
      * apply orb_false_iff in Hc as [H1%Z.eqb_neq H2%Z.eqb_neq]. destruct Hout; contradiction.
  - inv_bind H. inv_Ok H. cbn in Htr. apply negb_false_iff in Ht. congruence.
Qed.

End ModuleLoop.

(** ** Running the definitions on the concrete library *)

(** With the concrete library the constructor returns a network for the
    default of 11 classes. *)
Lemma plain_init_11 : { self | @Box2Pix_init plain_lib 11 false = Ok self }.
Proof.
  destruct (@Box2Pix_init plain_lib 11 false) as [self|e] eqn:E.
  - exists self. reflexivity.
  - vm_compute in E. discriminate.
Defined.

Lemma plain_head_accepts self n h w : @head_accepts plain_lib self n h w.
Proof. intros fm _. eexists. reflexivity. Defined.

Lemma image_shape n h w v : shape (image n h w v) = mkSize n 3 h w.
Proof. reflexivity. Defined.

(** With the concrete library: a network of the constructor's architecture
    whose eight score projections hold ones, as after training. *)
Lemma plain_trained :
  { self | @configured self 11 /\ transform_input self = false /\
           (item (weight (sem_score6b self)) 0 0 0 0 == 1)%Q }.
Proof.
  destruct plain_init_11 as [self0 E].
  pose proof (Box2Pix_init_constructed 11 false self0 E) as [C0 Hti].
  apply constructed_configured in C0.
  pose (score := fun cin cout : Z =>
          mkConvNd false cin cout (1, 1) (1, 1) (0, 0)
            (full (mkSize cout cin 1 1) 1) (Some (fun _ => 1%Q))).
  exists (mkBox2Pix (transform_input self0)
    (conv1 self0) (maxpool1 self0) (conv2 self0) (conv3 self0) (maxpool2 self0)
    (inception3a self0) (inception3b self0) (maxpool3 self0)
    (inception4a self0) (inception4b self0) (inception4c self0) (inception4d self0)
    (inception4e self0) (maxpool4 self0) (inception5a self0) (inception5b self0)
    (maxpool5 self0) (inception6a self0) (inception6b self0) (maxpool6 self0)
    (inception7a self0) (inception7b self0)
    (score 480 11) (score 832 11) (score 1024 11) (score 1024 11)
    (sem_upscore self0) (sem_upscore2 self0) (sem_upscore4 self0) (sem_upscore8 self0)
    (score 480 2) (score 832 2) (score 1024 2) (score 1024 2)
    (offs_upscore self0) (offs_upscore2 self0) (offs_upscore4 self0) (offs_upscore8 self0)
    (multibox self0)).
  split; [|split; [exact Hti|reflexivity]].
  destruct C0. constructor; try assumption; repeat split.
Defined.

(** ** Score projections after construction *)

Section ScoreProjections.
Context {T : TorchLib}.

Lemma constructed_score_modules nc ti self c :
  Box2Pix_init nc ti = Ok self ->
  In (MConv c) (modules self) -> score_like nc c -> zero_parameters c.
Proof.
  unfold Box2Pix_init. intros H Hin Hs. do 33 inv_bind H.
  apply _initialize_weights_loop in H.
  destruct (mapM_In _ _ _ _ H Hin) as (m0 & _ & E).
  destruct m0 as [c0| |]; cbn in E; try discriminate.
  inv_bind E. injection E as ->.
  eapply initialize_conv_score_like; eassumption.
Qed.

(** Whenever [forward] returns on a freshly constructed network, for any
    input whatever, both dense outputs are zero. *)
Lemma forward_zero_if_returns nc ti self x loc conf sem offs :
  Box2Pix_init nc ti = Ok self ->
  forward self x = Ok (loc, conf, sem, offs) ->
  all_zero sem /\ all_zero offs.
Proof.
  intros Hnew H. apply Box2Pix_init_constructed in Hnew as [C _].
  rewrite forward_stages in H. unfold staged_forward in H.
  inv_bind H. inv_bind H. destruct a0 as [l c]. inv_bind H. inv_bind H. inv_Ok H.
  unfold semantics_path, offsets_path in *.
  split; apply zero_everywhere_all_zero.
  - eapply dense_path_zero;
      [exact (is_sem_score3b _ _ C)|exact (is_sem_score4e _ _ C)|exact (is_sem_score5b _ _ C)
      |exact (is_sem_score6b _ _ C)|apply (is_sem_upscore _ _ C)|apply (is_sem_upscore2 _ _ C)
      |apply (is_sem_upscore4 _ _ C)|apply (is_sem_upscore8 _ _ C)|eassumption].
  - eapply dense_path_zero;
      [exact (is_offs_score3b _ _ C)|exact (is_offs_score4e _ _ C)
      |exact (is_offs_score5b _ _ C)|exact (is_offs_score6b _ _ C)
      |apply (is_offs_upscore _ _ C)|apply (is_offs_upscore2 _ _ C)
      |apply (is_offs_upscore4 _ _ C)|apply (is_offs_upscore8 _ _ C)|eassumption].
Qed.

End ScoreProjections.

(** ** A fusion step whose crop window leaves the upsampled map *)

Section FusionFailure.
Context {T : TorchLib}.

(** The slice itself never raises; what raises is the in-place addition,
    because the clamped crop no longer has the size of the finer score. *)
Lemma fuse_window_exceeds up coarse score n c hc wc :
  conv_is up true c c 4 2 0 ->
  shape coarse = mkSize n c hc wc -> 0 <= hc -> 0 <= wc ->
  2 * hc + 2 < 1 + dim2 (shape score) \/ 2 * wc + 2 < 1 + dim3 (shape score) ->
  fuse up coarse score =
    Raise (RuntimeError "The size of tensor a must match the size of tensor b").
Proof.
  intros Hup Hc Hh Hw Hex.
  destruct (ConvTranspose2d_forward_shape _ coarse _ _ _ _ _ Hup) as (u & Eu & Su);
    [rewrite Hc; reflexivity|].
  rewrite Hc in Su. cbn [dim0 dim2 dim3] in Su. rewrite !conv_transpose_output_size_2 in Su.
  unfold fuse. rewrite Eu. cbn [bind]. unfold iadd, crop.
  cbn [shape getitem_hw]. rewrite Su. cbn [dim0 dim1 dim2 dim3].
  match goal with |- (if ?b then _ else _) = _ => replace b with false; [reflexivity|] end.
  symmetry. destruct Hex as [Hex|Hex].
  - rewrite slice_length_clamp by lia.
    apply andb_false_iff. left. apply andb_false_iff. right.
    unfold broadcasts_to. apply orb_false_iff. split; apply Z.eqb_neq; lia.
  - rewrite (slice_length_clamp 1 (dim3 (shape score))) by lia.
    apply andb_false_iff. right.
    unfold broadcasts_to. apply orb_false_iff. split; apply Z.eqb_neq; lia.
Qed.

End FusionFailure.

(** [fused_from] tells the offset of the crop.  With a kernel whose 16
    taps are all different, a 1 x 1 map holding 1 and a 2 x 2 score of
    zeros, entry (0, 0) of the sum is entry (1, 1) of the upsampled map,
    6, and not its entry (0, 0), 1. *)
Lemma fuse_reads_offset_one :
  let up := mkConvNd true 1 1 (4, 4) (2, 2) (0, 0)
              (mkTensor (mkSize 1 1 4 4) (fun _ _ ky kx => inject_Z (4 * ky + kx + 1))) None in
  let coarse := full (mkSize 1 1 1 1) 1 in
  let score := zeros (mkSize 1 1 2 2) in
  exists u fused,
    ConvTranspose2d_forward up coarse = Ok u /\ fuse up coarse score = Ok fused /\
    fused_from up coarse score fused /\
    (item u 0 0 0 0 == 1)%Q /\ (item u 0 0 1 1 == 6)%Q /\ (item fused 0 0 0 0 == 6)%Q.
Proof.
  intros up coarse score.
  destruct (fuse_spec up coarse score 1 1 1 1 2 2) as (fused & F & Hf);
    [repeat split | reflexivity | reflexivity | lia | lia |].
  pose proof Hf as (u & U & _).
  exists u, fused. split; [exact U|]. split; [exact F|]. split; [exact Hf|].
  assert (E : match ConvTranspose2d_forward up coarse, fuse up coarse score with
              | Ok u, Ok fused =>
                  (item u 0 0 0 0 == 1)%Q /\ (item u 0 0 1 1 == 6)%Q /\
                  (item fused 0 0 0 0 == 6)%Q
              | _, _ => False
              end) by (vm_compute; repeat split; reflexivity).
  rewrite U, F in E. exact E.
Qed.

(** * The claims *)

(** ** C2: shapes of the dense outputs *)

(** C2 as stated fails, in two ways.  A 70 x 70 image is at least 64 x 64,
    yet [forward] returns 68 x 68 semantics and offsets, because the last
    slice asks for rows 4..74 of a map that has 72 rows and is clamped.
    And on a single 64 x 64 image the network as the constructor leaves it,
    in training mode, returns nothing at all: its deepest feature maps are
    1 x 1, and batch normalisation refuses a single value per channel. *)
Lemma forward_shape_70_counterexample :
  dense_shapes
    (let* self := @Box2Pix_init plain_lib 11 false in
     @forward plain_lib self (image 2 70 70 0))
  = Ok (mkSize 2 11 68 68, mkSize 2 2 68 68)
  /\ mkSize 2 11 68 68 <> mkSize 2 11 70 70
  /\ dense_shapes
       (let* self := @Box2Pix_init plain_lib 11 false in
        @forward plain_lib self (image 1 64 64 0))
     = Raise (ValueError "Expected more than 1 value per channel when training").
Proof. split; [vm_compute; reflexivity | split; [discriminate | vm_compute; reflexivity]]. Qed.

(** C2, amended: for every network that has the constructor's
    architecture, whatever its parameters hold, and every input of shape
    (N, 3, H, W) with H, W >= 64, neither H nor W congruent to 5 or 6
    modulo 8, and N >= 2 or H >= 143 or W >= 143 (so that batch
    normalisation has more than one value per channel at the deepest
    stage), [forward] returns a semantics tensor of shape exactly
    (N, num_classes, H, W) and an offsets tensor of shape exactly
    (N, 2, H, W), provided the detection head accepts the encoder's feature
    maps. *)
Theorem forward_output_shapes {T : TorchLib} self nc x n h w :
  configured self nc ->
  shape x = mkSize n 3 h w ->
  64 <= h -> 64 <= w ->
  h mod 8 <> 5 -> h mod 8 <> 6 -> w mod 8 <> 5 -> w mod 8 <> 6 ->
  2 <= n \/ 143 <= h \/ 143 <= w ->
  head_accepts self n h w ->
  exists loc conf sem offs,
    forward self x = Ok (loc, conf, sem, offs) /\
    shape sem = mkSize n nc h w /\ shape offs = mkSize n 2 h w.
Proof.
  intros C Hx Hh Hw H5 H6 W5 W6 Hbn Hhead.
  destruct (forward_returns self nc x n h w C Hx) as (t & loc & conf & sem & offs & _ & F
                                                     & _ & _ & Ss & So);
    [lia | lia | exact Hbn | exact Hhead |].
  exists loc, conf, sem, offs. split; [exact F|].
  rewrite !dense_output_size_exact in Ss, So by lia. auto.
Qed.

Lemma forward_output_shapes_witness :
  exists self loc conf sem offs,
    (item (weight (sem_score6b self)) 0 0 0 0 == 1)%Q /\
    @forward plain_lib self (image 1 2048 1024 0) = Ok (loc, conf, sem, offs) /\
    shape sem = mkSize 1 11 2048 1024 /\ shape offs = mkSize 1 2 2048 1024.
Proof.
  destruct plain_trained as (self & C & _ & W). exists self.
  destruct (@forward_output_shapes plain_lib self 11 (image 1 2048 1024 0) 1 2048 1024 C)
    as (loc & conf & sem & offs & F & Ss & So);
    [reflexivity | lia | lia | vm_compute; discriminate | vm_compute; discriminate
    | vm_compute; discriminate | vm_compute; discriminate | right; left; lia
    | apply plain_head_accepts | ].
  exists loc, conf, sem, offs. auto.
Defined.

(** ** C3: the crops of the dense paths *)

(** C3 as stated fails in its last clause: for 64 x 77 images the final
    crop returns 76 columns, not the 77 of the input. *)
Lemma final_crop_77_counterexample :
  dense_shapes
    (let* self := @Box2Pix_init plain_lib 11 false in
     @forward plain_lib self (image 2 64 77 0))
  = Ok (mkSize 2 11 64 76, mkSize 2 2 64 76)
  /\ 76 <> 77.
Proof. split; [vm_compute; reflexivity | discriminate]. Qed.

(** C3, amended: whatever the parameters hold, in each of the three
    factor-2 fusion steps of both dense paths the upsampled coarser map is
    cropped at offset (1, 1) to exactly the height and width of the finer
    score tensor before the add ([fused_from]: entry (y, x) of the sum is
    entry (1 + y, 1 + x) of the upsampled map plus entry (y, x) of the
    score); the final stride-8 upsampling is cropped at offset (4, 4) to the
    height and width of the input, clamped to the upsampled map
    ([cropped_from]), which is exactly the input's height (width) when that
    is not 5 or 6 modulo 8. *)
Theorem dense_paths_crop {T : TorchLib} self nc x n h w :
  configured self nc ->
  shape x = mkSize n 3 h w -> 15 <= h -> 15 <= w ->
  2 <= n \/ 143 <= h \/ 143 <= w ->
  head_accepts self n h w ->
  exists t loc conf sem offs,
    encoder self x = Ok t /\
    forward self x = Ok (loc, conf, sem, offs) /\
    dense_path_reads (sem_score3b self) (sem_score4e self) (sem_score5b self)
      (sem_score6b self) (sem_upscore self) (sem_upscore2 self) (sem_upscore4 self)
      (sem_upscore8 self) (mkSize n 3 h w) t sem /\
    dense_path_reads (offs_score3b self) (offs_score4e self) (offs_score5b self)
      (offs_score6b self) (offs_upscore self) (offs_upscore2 self) (offs_upscore4 self)
      (offs_upscore8 self) (mkSize n 3 h w) t offs /\
    (h mod 8 <> 5 -> h mod 8 <> 6 -> dim2 (shape sem) = h /\ dim2 (shape offs) = h) /\
    (w mod 8 <> 5 -> w mod 8 <> 6 -> dim3 (shape sem) = w /\ dim3 (shape offs) = w).
Proof.
  intros C Hx Hh Hw Hbn Hhead.
  destruct (forward_returns self nc x n h w C Hx Hh Hw Hbn Hhead)
    as (t & loc & conf & sem & offs & Et & F & Rs & Ro & Ss & So).
  exists t, loc, conf, sem, offs. rewrite Hx in Rs, Ro.
  split; [exact Et|]. split; [exact F|].
  split; [exact Rs|]. split; [exact Ro|].
  rewrite Ss, So. cbn [dim2 dim3].
  split; intros; rewrite dense_output_size_exact by lia; auto.
Qed.

Lemma dense_paths_crop_witness :
  exists self t loc conf sem offs,
    (item (weight (sem_score6b self)) 0 0 0 0 == 1)%Q /\
    @encoder plain_lib self (image 2 64 120 0) = Ok t /\
    @forward plain_lib self (image 2 64 120 0) = Ok (loc, conf, sem, offs) /\
    dim2 (shape sem) = 64 /\ dim3 (shape sem) = 120.
Proof.
  destruct plain_trained as (self & C & _ & W). exists self.
  destruct (@dense_paths_crop plain_lib self 11 (image 2 64 120 0) 2 64 120 C)
    as (t & loc & conf & sem & offs & Et & F & _ & _ & Hh & Hw);
    [reflexivity | lia | lia | left; lia | apply plain_head_accepts | ].
  exists t, loc, conf, sem, offs.
  repeat split; try assumption.
  - apply Hh; vm_compute; discriminate.
  - apply Hw; vm_compute; discriminate.
Defined.

(** ** C5: a crop window larger than the tensor *)

(** C5 as stated fails: for 69 x 64 images the shallowest tap has 8 rows,
    its stride-8 upsampling 72, and the final crop window ends at row 73;
    nothing is raised, and the outputs come back with 68 rows. *)
Lemma silent_truncation_69_counterexample :
  size3b 69 = 8 /\ conv_transpose_output_size 8 16 0 8 < 4 + 69 /\
  dense_shapes
    (let* self := @Box2Pix_init plain_lib 11 false in
     @forward plain_lib self (image 2 69 64 0))
  = Ok (mkSize 2 11 68 64, mkSize 2 2 68 64).
Proof. repeat split; vm_compute; reflexivity. Qed.

(** C5, amended: a crop never raises.  When the final crop window exceeds
    the stride-8 upsampling (input height 5 or 6 modulo 8, likewise input
    width) the slice is clamped silently: [forward] returns, whatever the
    parameters hold, semantics and offsets of 8 * (H / 8) + 4 rows
    (8 * (W / 8) + 4 columns), fewer than the input has.  Only in a
    factor-2 fusion step is a window that exceeds the upsampled map
    followed by a failure, and it is the size mismatch of the in-place
    addition. *)
Theorem crop_clamps_silently {T : TorchLib} self nc x n h w :
  configured self nc ->
  shape x = mkSize n 3 h w -> 15 <= h -> 15 <= w ->
  2 <= n \/ 143 <= h \/ 143 <= w ->
  head_accepts self n h w ->
  (exists loc conf sem offs,
     forward self x = Ok (loc, conf, sem, offs) /\
     (h mod 8 = 5 \/ h mod 8 = 6 ->
      dim2 (shape sem) = 8 * (h / 8) + 4 /\ dim2 (shape offs) = 8 * (h / 8) + 4 /\
      8 * (h / 8) + 4 < h) /\
     (w mod 8 = 5 \/ w mod 8 = 6 ->
      dim3 (shape sem) = 8 * (w / 8) + 4 /\ dim3 (shape offs) = 8 * (w / 8) + 4 /\
      8 * (w / 8) + 4 < w)) /\
  (forall up coarse score c m hc wc,
     conv_is up true c c 4 2 0 ->
     shape coarse = mkSize m c hc wc -> 0 <= hc -> 0 <= wc ->
     2 * hc + 2 < 1 + dim2 (shape score) \/ 2 * wc + 2 < 1 + dim3 (shape score) ->
     fuse up coarse score =
       Raise (RuntimeError "The size of tensor a must match the size of tensor b")).
Proof.
  intros C Hx Hh Hw Hbn Hhead.
  split.
  - destruct (forward_returns self nc x n h w C Hx Hh Hw Hbn Hhead)
      as (t & loc & conf & sem & offs & _ & F & _ & _ & Ss & So).
    exists loc, conf, sem, offs. split; [exact F|].
    rewrite Ss, So. cbn [dim2 dim3].
    split; intros Hmod; rewrite dense_output_size_short by lia; lia.
  - intros. eapply fuse_window_exceeds; eassumption.
Qed.

Lemma crop_clamps_silently_witness :
  exists self loc conf sem offs,
    (item (weight (sem_score6b self)) 0 0 0 0 == 1)%Q /\
    @forward plain_lib self (image 2 78 69 0) = Ok (loc, conf, sem, offs) /\
    dim2 (shape sem) = 76 /\ dim3 (shape sem) = 68.
Proof.
  destruct plain_trained as (self & C & _ & W). exists self.
  destruct (@crop_clamps_silently plain_lib self 11 (image 2 78 69 0) 2 78 69 C)
    as ((loc & conf & sem & offs & F & Hr & Hc) & _);
    [reflexivity | lia | lia | left; lia | apply plain_head_accepts | ].
  exists loc, conf, sem, offs.
  split; [exact W|]. split; [exact F|].
  split; [apply Hr; right; reflexivity | apply Hc; left; reflexivity].
Defined.

(** ** C9: zero dense outputs for every image *)

(** C9 as stated fails: on a single 64 x 64 image the network as the
    constructor leaves it raises; it is in training mode, its deepest
    feature maps are 1 x 1, and batch normalisation refuses a single value
    per channel. *)
Lemma fresh_single_image_counterexample :
  dense_shapes
    (let* self := @Box2Pix_init plain_lib 11 false in
     @forward plain_lib self (image 1 64 64 (7 # 3)))
  = Raise (ValueError "Expected more than 1 value per channel when training").
Proof. vm_compute. reflexivity. Qed.

(** C9, amended: immediately after construction, whatever the entries of
    the input (in exact arithmetic), the semantics and offsets that
    [forward] returns are all zero whenever it returns; and it returns on
    every (N, 3, H, W) input with H, W >= 15 and N >= 2 or H >= 143 or
    W >= 143 that the detection head accepts. *)
Theorem fresh_outputs_zero {T : TorchLib} nc ti self x :
  Box2Pix_init nc ti = Ok self ->
  (forall loc conf sem offs,
     forward self x = Ok (loc, conf, sem, offs) -> all_zero sem /\ all_zero offs) /\
  (forall n h w,
     shape x = mkSize n 3 h w -> 15 <= h -> 15 <= w ->
     2 <= n \/ 143 <= h \/ 143 <= w ->
     head_accepts self n h w ->
     exists loc conf sem offs,
       forward self x = Ok (loc, conf, sem, offs) /\ all_zero sem /\ all_zero offs).
Proof.
  intros Hnew.
  assert (Z : forall loc conf sem offs,
             forward self x = Ok (loc, conf, sem, offs) -> all_zero sem /\ all_zero offs)
    by (intros loc conf sem offs; apply (forward_zero_if_returns nc ti self x _ _ _ _ Hnew)).
  split; [exact Z|].
  intros n h w Hx Hh Hw Hbn Hhead.
  pose proof (constructed_configured _ _ (proj1 (Box2Pix_init_constructed nc ti self Hnew)))
    as C.
  destruct (forward_returns self nc x n h w C Hx Hh Hw Hbn Hhead)
    as (t & loc & conf & sem & offs & _ & F & _).
  exists loc, conf, sem, offs. split; [exact F|exact (Z _ _ _ _ F)].
Qed.

Lemma fresh_outputs_zero_witness :
  exists self loc conf sem offs,
    @Box2Pix_init plain_lib 11 false = Ok self /\
    @forward plain_lib self (image 2 64 64 (7 # 3)) = Ok (loc, conf, sem, offs) /\
    all_zero sem /\ all_zero offs.
Proof.
  destruct plain_init_11 as [self E]. exists self.
  destruct (proj2 (@fresh_outputs_zero plain_lib 11 false self (image 2 64 64 (7 # 3)) E)
              2 64 64)
    as (loc & conf & sem & offs & F & Zs & Zo);
    [reflexivity | lia | lia | left; lia | apply plain_head_accepts | ].
  exists loc, conf, sem, offs. auto.
Defined.

(** ** C4: the all-zero image after construction *)

(** C4 as stated fails: fed a single all-zero image of 128 x 64 pixels,
    the network as the constructor leaves it produces no tensors; batch
    normalisation, in training mode, refuses the 1 x 1 feature maps of the
    deepest stage. *)
Lemma zero_image_single_counterexample :
  all_zero (image 1 128 64 0) /\
  dense_shapes
    (let* self := @Box2Pix_init plain_lib 11 false in
     @forward plain_lib self (image 1 128 64 0))
  = Raise (ValueError "Expected more than 1 value per channel when training").
Proof. split; [intros n c y x _; reflexivity | vm_compute; reflexivity]. Qed.

(** C4, amended: immediately after construction every convolution that the
    initialiser recognises as a score projection (1x1 kernel, num_classes
    or 2 output channels) has all-zero weight and all-zero bias, and
    feeding an all-zero image of shape (N, 3, H, W) with H, W >= 15 and
    N >= 2 or H >= 143 or W >= 143 gives all-zero semantics and offsets,
    provided the detection head accepts the encoder's feature maps. *)
Theorem zero_image_zero_outputs {T : TorchLib} nc ti self x n h w :
  Box2Pix_init nc ti = Ok self ->
  all_zero x ->
  shape x = mkSize n 3 h w -> 15 <= h -> 15 <= w ->
  2 <= n \/ 143 <= h \/ 143 <= w ->
  head_accepts self n h w ->
  (forall c, In (MConv c) (modules self) -> score_like nc c -> zero_parameters c) /\
  zero_parameters (sem_score3b self) /\ zero_parameters (sem_score4e self) /\
  zero_parameters (sem_score5b self) /\ zero_parameters (sem_score6b self) /\
  zero_parameters (offs_score3b self) /\ zero_parameters (offs_score4e self) /\
  zero_parameters (offs_score5b self) /\ zero_parameters (offs_score6b self) /\
  exists loc conf sem offs,
    forward self x = Ok (loc, conf, sem, offs) /\ all_zero sem /\ all_zero offs.
Proof.
  intros Hnew _ Hx Hh Hw Hbn Hhead.
  split; [intros c; apply (constructed_score_modules nc ti self c Hnew)|].
  pose proof (Box2Pix_init_constructed nc ti self Hnew) as [C _].
  repeat match goal with
         | |- zero_parameters _ /\ _ => split
         end;
    try (first [ apply (is_sem_score3b _ _ C) | apply (is_sem_score4e _ _ C)
               | apply (is_sem_score5b _ _ C) | apply (is_sem_score6b _ _ C)
               | apply (is_offs_score3b _ _ C) | apply (is_offs_score4e _ _ C)
               | apply (is_offs_score5b _ _ C) | apply (is_offs_score6b _ _ C) ]).
  destruct (forward_returns self nc x n h w (constructed_configured _ _ C) Hx Hh Hw Hbn Hhead)
    as (t & loc & conf & sem & offs & _ & F & _).
  exists loc, conf, sem, offs. split; [exact F|].
  exact (forward_zero_if_returns nc ti self x _ _ _ _ Hnew F).
Qed.

Lemma zero_image_zero_outputs_witness :
  exists self loc conf sem offs,
    @Box2Pix_init plain_lib 11 false = Ok self /\
    zero_parameters (sem_score3b self) /\
    @forward plain_lib self (image 1 160 64 0) = Ok (loc, conf, sem, offs) /\
    all_zero sem /\ all_zero offs.
Proof.
  destruct plain_init_11 as [self E]. exists self.
  destruct (@zero_image_zero_outputs plain_lib 11 false self (image 1 160 64 0) 1 160 64 E)
    as (_ & Z3 & _ & _ & _ & _ & _ & _ & _ & loc & conf & sem & offs & F & Zs & Zo);
    [intros a b c d _; reflexivity | reflexivity | lia | lia | right; left; lia
    | apply plain_head_accepts | ].
  exists loc, conf, sem, offs. auto.
Defined.

(** ** C1: who reads which taps *)

(** C1 as stated fails: on two 64 x 64 images the detection head is handed
    feature maps of 832, 1024, 1024 and 1024 channels (inception4e, 5b, 6b,
    7b), while the score projections of the dense paths read tensors of
    480, 832, 1024 and 1024 channels (inception3b, 4e, 5b, 6b).  The
    concrete head reports the shapes it receives as its first output. *)
Lemma head_taps_differ_counterexample :
  exists head_saw dense_read,
    (let* self := @Box2Pix_init plain_lib 11 false in
     let* t := @encoder plain_lib self (image 2 64 64 0) in
     let* out := @forward plain_lib self (image 2 64 64 0) in
     Ok (fst (fst (fst out)), map shape (dense_taps t)))
    = Ok (head_saw, dense_read) /\
    head_saw = [mkSize 2 832 4 4; mkSize 2 1024 2 2; mkSize 2 1024 1 1; mkSize 2 1024 1 1] /\
    dense_read = [mkSize 2 480 8 8; mkSize 2 832 4 4; mkSize 2 1024 2 2; mkSize 2 1024 1 1] /\
    head_saw <> dense_read.
Proof.
  do 2 eexists. split; [vm_compute; reflexivity|].
  split; [reflexivity|]. split; [reflexivity|]. discriminate.
Qed.

Section Taps.
Context {T : TorchLib}.

(** C1, amended: in every forward pass the two dense paths read the same
    four tensors in the same shallow-to-deep order (inception3b, 4e, 5b,
    6b) and nothing else of the encoder; the detection head is handed the
    ordered list inception4e, 5b, 6b, 7b, which is that list shifted by
    one tap. *)
Theorem taps_consumed (self : Box2Pix) (x : tensor) (size : torch_Size) (t t' : taps) :
  dense_taps t = dense_taps t' ->
  forward self x =
    (let* t := encoder self x in
     let* (loc_preds, conf_preds) :=
       MultiBox_forward (multibox self) [tap4e t; tap5b t; tap6b t; tap7b t] in
     let* semantics := semantics_path self (shape x) t in
     let* offsets := offsets_path self (shape x) t in
     Ok (loc_preds, conf_preds, semantics, offsets)) /\
  feature_maps t = tl (dense_taps t) ++ [tap7b t] /\
  semantics_path self size t = semantics_path self size t' /\
  offsets_path self size t = offsets_path self size t'.
Proof.
  intros H. split; [apply forward_stages|]. split; [reflexivity|].
  unfold dense_taps in H. injection H as H3 H4 H5 H6.
  unfold semantics_path, offsets_path, dense_path. rewrite H3, H4, H5, H6.
  split; reflexivity.
Qed.

End Taps.

Lemma taps_consumed_witness :
  let a := image 1 8 8 1 in
  let b := image 1 4 4 2 in
  semantics_path
    (match plain_init_11 with exist _ self _ => self end) (mkSize 1 3 64 64)
    (mkTaps a a a a a)
  = semantics_path
    (match plain_init_11 with exist _ self _ => self end) (mkSize 1 3 64 64)
    (mkTaps a a a a b).
Proof.
  intros a b.
  exact (proj1 (proj2 (proj2
    (@taps_consumed plain_lib (match plain_init_11 with exist _ self _ => self end)
       a (mkSize 1 3 64 64) (mkTaps a a a a a) (mkTaps a a a a b) eq_refl)))).
Defined.

(** ** C6: which class counts the constructor accepts *)

Section ClassCounts.
Context {T : TorchLib}.

(** A bias-free 1x1 convolution that the initialiser takes for a score
    projection makes it fail. *)
Lemma initialize_BasicConv2d_width nc m m' cin cout s p :
  initialize_BasicConv2d nc m = Ok m' ->
  basic_is m cin cout 1 s p -> cout <> nc /\ cout <> 2.
Proof.
  unfold initialize_BasicConv2d, initialize_conv. intros H ((Htr & _ & Hout & Hk & _) & Hb & _).
  inv_bind H. clear H. rewrite Htr, Hk, Hout, Hb in Ha. cbn [negb fst] in Ha.
  rewrite Z.eqb_refl in Ha. cbn [andb] in Ha.
  destruct (Z.eqb_spec cout nc), (Z.eqb_spec cout 2); cbn in Ha; try discriminate.
  split; assumption.
Qed.

Lemma initialize_Inception_width nc m m' k5 p5 cin c1 c3r c3 c5r c5 pp :
  initialize_Inception nc m = Ok m' ->
  inception_is m k5 p5 cin c1 c3r c3 c5r c5 pp ->
  c1 <> nc /\ c3r <> nc /\ c5r <> nc /\ pp <> nc.
Proof.
  unfold initialize_Inception, initialize_pair.
  intros H (H1 & H2 & _ & H4 & _ & _ & H7).
  do 4 inv_bind H. do 2 inv_bind Ha0. do 2 inv_bind Ha1.
  repeat split;
    match goal with
    | Hb : basic_is ?b _ ?c 1 _ _, Hi : initialize_BasicConv2d nc ?b = Ok _ |- ?c <> nc =>
        exact (proj1 (initialize_BasicConv2d_width _ _ _ _ _ _ _ Hi Hb))
    end.
Qed.

(** The constructor never returns a network for one of these class
    counts, whatever the library does. *)
Lemma Box2Pix_init_width nc ti self :
  Box2Pix_init nc ti = Ok self -> ~ In nc backbone_1x1_widths.
Proof.
  unfold Box2Pix_init. intros H.
  do 33 inv_bind H.
  unfold _initialize_weights in H. cbn [conv1 conv2 conv3 maxpool1 maxpool2 maxpool3
    maxpool4 maxpool5 maxpool6 inception3a inception3b inception4a inception4b
    inception4c inception4d inception4e inception5a inception5b inception6a
    inception6b inception7a inception7b sem_score3b sem_score4e sem_score5b
    sem_score6b sem_upscore sem_upscore2 sem_upscore4 sem_upscore8 offs_score3b
    offs_score4e offs_score5b offs_score6b offs_upscore offs_upscore2 offs_upscore4
    offs_upscore8 multibox transform_input] in H.
  do 33 inv_bind H. clear H.
  repeat match goal with
         | Hn : BasicConv2d_new _ _ 1 _ _ = Ok ?m, Hi : initialize_BasicConv2d nc ?m = Ok _ |- _ =>
             apply BasicConv2d_new_is in Hn;
             pose proof (initialize_BasicConv2d_width _ _ _ _ _ _ _ Hi Hn); clear Hi
         | Hn : Inception_new _ _ _ _ _ _ _ = Ok ?m, Hi : initialize_Inception nc ?m = Ok _ |- _ =>
             apply inception_branches_is in Hn;
             pose proof (initialize_Inception_width _ _ _ _ _ _ _ _ _ _ _ _ Hi Hn); clear Hi
         | Hn : Inception2_new _ _ _ _ _ _ _ = Ok ?m, Hi : initialize_Inception nc ?m = Ok _ |- _ =>
             apply inception_branches_is in Hn;
             pose proof (initialize_Inception_width _ _ _ _ _ _ _ _ _ _ _ _ Hi Hn); clear Hi
         end.
  unfold backbone_1x1_widths. cbn [In]. lia.
Qed.

(** Construction with 16 classes, a positive class count, raises whatever
    the library does: the initialiser takes the bias-free 1x1 convolution
    of 16 channels in inception3a for a score projection and fills a bias
    that is [None]. *)
Lemma Box2Pix_init_16_raises (ti : bool) : raises (Box2Pix_init 16 ti).
Proof.
  destruct (Box2Pix_init 16 ti) as [self|e] eqn:E.
  - exfalso. apply (Box2Pix_init_width 16 ti self E). unfold backbone_1x1_widths. cbn. auto.
  - exists e. reflexivity.
Qed.

(** A negative class count is stopped by the first score projection that
    is allocated. *)
Lemma Box2Pix_init_negative nc ti : nc < 0 -> raises (Box2Pix_init nc ti).
Proof.
  intros Hn. destruct (Box2Pix_init nc ti) as [self|e] eqn:E; [|exists e; reflexivity].
  exfalso. unfold Box2Pix_init in E. do 17 inv_bind E.
  match goal with
  | Hc : Conv2d_new 480 nc _ _ _ _ = Ok _ |- _ => apply Conv2d_new_is in Hc; lia
  end.
Qed.

(** *** When the constructor returns *)

Lemma succeeds_bind {A B : Type} (m : result A) (k : A -> result B) :
  succeeds m -> (forall a, m = Ok a -> succeeds (k a)) -> succeeds (bind m k).
Proof. intros [a ->] Hk. cbn. apply Hk. reflexivity. Qed.

Lemma succeeds_Ok {A : Type} (a : A) : succeeds (Ok a).
Proof. exists a. reflexivity. Qed.

Section LibraryReturns.
Hypothesis random_weight_returns : forall s, succeeds (random_weight s).
Hypothesis random_bias_returns : forall n, succeeds (random_bias n).
Hypothesis xavier_returns : forall t, succeeds (xavier_uniform_values t).

Lemma Conv2d_new_succeeds cin cout k s p b :
  0 <= cin -> 0 <= cout -> succeeds (Conv2d_new cin cout k s p b).
Proof using random_weight_returns random_bias_returns.
  intros Hin Hout. unfold Conv2d_new.
  rewrite (proj2 (Z.ltb_ge _ _) Hin), (proj2 (Z.ltb_ge _ _) Hout). cbn [orb].
  apply succeeds_bind; [apply random_weight_returns|]. intros w _.
  apply succeeds_bind; [|intros; apply succeeds_Ok].
  destruct b; [|apply succeeds_Ok].
  apply succeeds_bind; [apply random_bias_returns|]. intros; apply succeeds_Ok.
Qed.

Lemma ConvTranspose2d_new_succeeds c k s :
  0 <= c -> succeeds (ConvTranspose2d_new c c k s).
Proof using random_weight_returns.
  intros Hc. unfold ConvTranspose2d_new.
  rewrite (proj2 (Z.ltb_ge _ _) Hc). cbn [orb].
  apply succeeds_bind; [apply random_weight_returns|]. intros; apply succeeds_Ok.
Qed.

Lemma BasicConv2d_new_succeeds cin cout k s p :
  0 <= cin -> 0 <= cout -> succeeds (BasicConv2d_new cin cout k s p).
Proof using random_weight_returns random_bias_returns.
  intros Hin Hout. unfold BasicConv2d_new.
  apply succeeds_bind; [apply Conv2d_new_succeeds; assumption|]. intros c _.
  apply succeeds_bind; [|intros; apply succeeds_Ok].
  unfold BatchNorm2d_new. rewrite (proj2 (Z.ltb_ge _ _) Hout). apply succeeds_Ok.
Qed.

Lemma inception_branches_succeeds k5 p5 cin c1 c3r c3 c5r c5 pp :
  0 <= cin -> 0 <= c1 -> 0 <= c3r -> 0 <= c3 -> 0 <= c5r -> 0 <= c5 -> 0 <= pp ->
  succeeds (inception_branches k5 p5 cin c1 c3r c3 c5r c5 pp).
Proof using random_weight_returns random_bias_returns.
  intros. unfold inception_branches.
  repeat (apply succeeds_bind; [apply BasicConv2d_new_succeeds; assumption|]; intros ? _).
  apply succeeds_Ok.
Qed.

Lemma initialize_BasicConv2d_succeeds nc m cin cout k s p :
  basic_is m cin cout k s p -> k <> 1 \/ (cout <> nc /\ cout <> 2) ->
  succeeds (initialize_BasicConv2d nc m).
Proof using xavier_returns.
  intros ((Htr & _ & Hout & Hk & _) & _) Hne.
  unfold initialize_BasicConv2d, initialize_conv. rewrite Htr, Hk, Hout. cbn [negb fst].
  replace ((k =? 1) && ((cout =? nc) || (cout =? 2))) with false.
  - unfold xavier_uniform_.
    destruct (xavier_returns (weight (conv m))) as [v ->]. cbn. apply succeeds_Ok.
  - symmetry. destruct (Z.eqb_spec k 1), (Z.eqb_spec cout nc), (Z.eqb_spec cout 2);
      cbn; try reflexivity; lia.
Qed.

Lemma initialize_Inception_succeeds nc m k5 p5 cin c1 c3r c3 c5r c5 pp :
  inception_is m k5 p5 cin c1 c3r c3 c5r c5 pp -> k5 <> 1 ->
  (c1 <> nc /\ c1 <> 2) -> (c3r <> nc /\ c3r <> 2) ->
  (c5r <> nc /\ c5r <> 2) -> (pp <> nc /\ pp <> 2) ->
  succeeds (initialize_Inception nc m).
Proof using xavier_returns.
  intros (H1 & H2 & H3 & H4 & H5 & _ & H7) Hk N1 N2 N3 N4.
  unfold initialize_Inception, initialize_pair.
  repeat (apply succeeds_bind;
          [first [ eapply initialize_BasicConv2d_succeeds; [eassumption|]; lia | idtac ]
          |intros ? _]);
    try apply succeeds_Ok.
Qed.

Lemma initialize_conv_new_score nc cin cout m :
  Conv2d_new cin cout 1 1 0 true = Ok m -> succeeds (initialize_conv nc m).
Proof using xavier_returns.
  intros H. apply Conv2d_new_is in H as ((Htr & _) & _ & Hb & _).
  destruct (Hb eq_refl) as [v Hv].
  unfold initialize_conv. rewrite Htr, Hv. cbn [negb].
  destruct (_ && _); [apply succeeds_Ok|].
  unfold xavier_uniform_. destruct (xavier_returns (weight m)) as [w ->]. apply succeeds_Ok.
Qed.

Lemma initialize_conv_new_upscore nc c k s m :
  ConvTranspose2d_new c c k s = Ok m -> succeeds (initialize_conv nc m).
Proof.
  intros H. apply ConvTranspose2d_new_is in H as ((Htr & _ & Hout & Hk & _) & _ & Hw).
  unfold initialize_conv, copy_. rewrite Htr, Hk, Hout, Hw. cbn [negb fst].
  cbn [shape get_upsampling_weight dim0 dim1 dim2 dim3].
  rewrite !broadcasts_to_refl. apply succeeds_Ok.
Qed.

(** C6, amended: [Box2Pix.__init__] does not check [num_classes] itself.
    Construction fails fast, reported to the caller, for every negative
    [num_classes]; for every [num_classes >= 0] that is none of the output
    widths of the backbone's bias-free 1x1 convolutions it returns a
    network whenever the library's initialisers return and the detection
    head constructs and initialises. *)
Theorem Box2Pix_init_class_counts (num_classes : Z) (ti : bool) :
  (0 <= num_classes ->
   exists mb, MultiBox_new num_classes = Ok mb /\
              succeeds (initialize_MultiBox num_classes mb)) ->
  (num_classes < 0 -> raises (Box2Pix_init num_classes ti)) /\
  (0 <= num_classes -> ~ In num_classes backbone_1x1_widths ->
   succeeds (Box2Pix_init num_classes ti)).
Proof using random_weight_returns random_bias_returns xavier_returns.
  intros Hhead. split; [apply Box2Pix_init_negative|].
  intros Hnc Hw. destruct (Hhead Hnc) as (mb & Hmb & Hinit).
  unfold backbone_1x1_widths in Hw. cbn [In] in Hw.
  unfold Box2Pix_init, Inception_new, Inception2_new.
  repeat (apply succeeds_bind;
          [first [ apply BasicConv2d_new_succeeds; lia
                 | apply inception_branches_succeeds; lia
                 | apply Conv2d_new_succeeds; lia
                 | apply ConvTranspose2d_new_succeeds; lia ]
          |intros ? ?]).
  rewrite Hmb. cbn [bind].
  unfold _initialize_weights. cbn [conv1 conv2 conv3 maxpool1 maxpool2 maxpool3
    maxpool4 maxpool5 maxpool6 inception3a inception3b inception4a inception4b
    inception4c inception4d inception4e inception5a inception5b inception6a
    inception6b inception7a inception7b sem_score3b sem_score4e sem_score5b
    sem_score6b sem_upscore sem_upscore2 sem_upscore4 sem_upscore8 offs_score3b
    offs_score4e offs_score5b offs_score6b offs_upscore offs_upscore2 offs_upscore4
    offs_upscore8 multibox transform_input].
  repeat (apply succeeds_bind;
          [first [ eapply initialize_BasicConv2d_succeeds;
                     [eapply BasicConv2d_new_is; eassumption | lia]
                 | eapply initialize_Inception_succeeds;
                     [eapply inception_branches_is; eassumption | lia..]
                 | eapply initialize_conv_new_score; eassumption
                 | eapply initialize_conv_new_upscore; eassumption
                 | exact Hinit ]
          |intros ? _]).
  apply succeeds_Ok.
Qed.

End LibraryReturns.

End ClassCounts.

(** C6 as stated fails in both directions with the concrete library: the
    constructor returns a network for zero classes, and it raises for 16
    classes, with the [AttributeError] of [nn.init.constant_(m.bias, 0)]. *)
Lemma class_count_counterexample :
  succeeds (@Box2Pix_init plain_lib 0 false) /\
  @Box2Pix_init plain_lib 16 false
  = Raise (AttributeError "'NoneType' object has no attribute 'fill_'").
Proof.
  split.
  - destruct (@Box2Pix_init plain_lib 0 false) as [self|e] eqn:E.
    + exists self. reflexivity.
    + vm_compute in E. discriminate.
  - vm_compute. reflexivity.
Qed.

Lemma Box2Pix_init_class_counts_witness :
  raises (@Box2Pix_init plain_lib (-3) true) /\ succeeds (@Box2Pix_init plain_lib 20 false).
Proof.
  split.
  - apply (@Box2Pix_init_class_counts plain_lib
             (fun _ => succeeds_Ok _) (fun _ => succeeds_Ok _) (fun _ => succeeds_Ok _)
             (-3) true).
    + intros H. exfalso. lia.
    + lia.
  - apply (@Box2Pix_init_class_counts plain_lib
             (fun _ => succeeds_Ok _) (fun _ => succeeds_Ok _) (fun _ => succeeds_Ok _)
             20 false).
    + intros _. eexists. split; [reflexivity|]. apply succeeds_Ok.
    + lia.
    + unfold backbone_1x1_widths. cbn [In]. lia.
Defined.

(** ** C10: the factory with [pretrained=True] *)

Section Factory.
Context {T : TorchLib}.

(** C10: when the model zoo cannot resolve the empty URL, [box2pix] with
    [pretrained=True] raises for every class count and every keyword
    arguments, either in the constructor or, the network once built, with
    the error of [load_url('')]; a network is only ever returned on the
    [pretrained=False] path, where it is the one that
    [Box2Pix(num_classes, **kwargs)] builds. *)
Theorem box2pix_pretrained_raises (e : exn) (num_classes : Z) (kwargs : gmap string bool) :
  load_url "" = Raise e ->
  raises (box2pix num_classes true kwargs) /\
  (forall model,
     Box2Pix_call num_classes
       (if decide ("transform_input" ∉ dom kwargs)
        then <["transform_input" := true]> kwargs else kwargs) = Ok model ->
     box2pix num_classes true kwargs = Raise e) /\
  box2pix num_classes false kwargs = Box2Pix_call num_classes kwargs /\
  (forall pretrained model,
     box2pix num_classes pretrained kwargs = Ok model -> pretrained = false).
Proof.
  intros Hurl.
  assert (Htrue : raises (box2pix num_classes true kwargs)).
  { unfold box2pix. cbn [bind].
    destruct (Box2Pix_call _ _) as [model|e']; cbn [bind].
    - rewrite Hurl. exists e. reflexivity.
    - exists e'. reflexivity. }
  split; [exact Htrue|]. split; [|split].
  - intros model Hm. unfold box2pix. rewrite Hm. cbn [bind]. rewrite Hurl. reflexivity.
  - reflexivity.
  - intros [|] model H; [|reflexivity].
    destruct Htrue as [e' He']. congruence.
Qed.

End Factory.

Lemma box2pix_pretrained_raises_witness :
  raises (@box2pix plain_lib 11 true ∅) /\
  exists model, @box2pix plain_lib 11 false ∅ = Ok model.
Proof.
  destruct (@box2pix_pretrained_raises plain_lib (IOError "cannot open the model file")
              11 ∅ eq_refl) as (Htrue & _ & Hfalse & _).
  split; [exact Htrue|].
  destruct plain_init_11 as [self E].
  exists self. rewrite Hfalse. exact E.
Defined.

(** ** C7: the bilinear upsampling kernels *)

Lemma bilinear_tap_pair (s r : Z) :
  0 < s -> 0 <= r < s ->
  (bilinear_tap (2 * s) r + bilinear_tap (2 * s) (r + s) == 1)%Q.
Proof.
  intros Hs Hr. unfold bilinear_tap.
  replace ((2 * s + 1) / 2) with s by lia.
  replace ((2 * s) mod 2 =? 1) with false by (symmetry; apply Z.eqb_neq; lia).
  replace (Z.abs (2 * r - (2 * s - 1))) with (2 * s - 1 - 2 * r) by lia.
  replace (Z.abs (2 * (r + s) - (2 * s - 1))) with (2 * r + 1) by lia.
  assert (Hd : ~ (inject_Z (2 * s) == 0)%Q).
  { intros H. unfold Qeq in H. cbn in H. lia. }
  assert (Hsum : (inject_Z (2 * s - 1 - 2 * r) + inject_Z (2 * r + 1) == inject_Z (2 * s))%Q).
  { rewrite <- inject_Z_plus. replace (2 * s - 1 - 2 * r + (2 * r + 1)) with (2 * s) by lia.
    reflexivity. }
  transitivity (2 - (inject_Z (2 * s - 1 - 2 * r) + inject_Z (2 * r + 1)) / inject_Z (2 * s))%Q.
  - field. exact Hd.
  - rewrite Hsum. field. exact Hd.
Qed.

Lemma source_index_low (o s len : Z) :
  s = 2 \/ s = 8 -> s <= o < s * len ->
  source_index o (o mod s) s len = Some (o / s).
Proof.
  intros Hs Ho. unfold source_index.
  replace ((o - o mod s) mod s =? 0) with true
    by (symmetry; apply Z.eqb_eq; destruct Hs; subst; lia).
  replace ((o - o mod s) / s) with (o / s) by (destruct Hs; subst; lia).
  replace (0 <=? o / s) with true by (symmetry; apply Z.leb_le; destruct Hs; subst; lia).
  replace (o / s <? len) with true by (symmetry; apply Z.ltb_lt; destruct Hs; subst; lia).
  reflexivity.
Qed.

Lemma source_index_high (o s len : Z) :
  s = 2 \/ s = 8 -> s <= o < s * len ->
  source_index o (o mod s + s) s len = Some (o / s - 1).
Proof.
  intros Hs Ho. unfold source_index.
  replace ((o - (o mod s + s)) mod s =? 0) with true
    by (symmetry; apply Z.eqb_eq; destruct Hs; subst; lia).
  replace ((o - (o mod s + s)) / s) with (o / s - 1) by (destruct Hs; subst; lia).
  replace (0 <=? o / s - 1) with true by (symmetry; apply Z.leb_le; destruct Hs; subst; lia).
  replace (o / s - 1 <? len) with true by (symmetry; apply Z.ltb_lt; destruct Hs; subst; lia).
  reflexivity.
Qed.

Lemma source_index_other (o k s len : Z) :
  s = 2 \/ s = 8 -> 0 <= k < 2 * s -> k <> o mod s -> k <> o mod s + s ->
  source_index o k s len = None.
Proof.
  intros Hs Hk H1 H2. unfold source_index.
  replace ((o - k) mod s =? 0) with false; [reflexivity|].
  symmetry. apply Z.eqb_neq. destruct Hs; subst; lia.
Qed.

(** Inside the output, the taps that reach an output entry from a constant
    field add up to the constant. *)
Lemma tap_sum_2d (s h w oy ox : Z) (g wt : Z -> Z -> Q) (v : Q) :
  s = 2 \/ s = 8 -> s <= oy < s * h -> s <= ox < s * w ->
  (forall iy ix, 0 <= iy < h -> 0 <= ix < w -> (g iy ix == v)%Q) ->
  (forall ky kx, 0 <= ky < 2 * s -> 0 <= kx < 2 * s ->
     (wt ky kx == bilinear_tap (2 * s) ky * bilinear_tap (2 * s) kx)%Q) ->
  (Qsum (2 * s) (fun ky => Qsum (2 * s) (fun kx =>
     match source_index oy ky s h, source_index ox kx s w with
     | Some iy, Some ix => g iy ix * wt ky kx
     | _, _ => 0
     end)) == v)%Q.
Proof.
  intros Hs Hy Hx Hg Hwt.
  assert (Hs0 : 0 < s) by (destruct Hs; lia).
  assert (Ry : 0 <= oy mod s < s) by (apply Z.mod_pos_bound; lia).
  assert (Rx : 0 <= ox mod s < s) by (apply Z.mod_pos_bound; lia).
  assert (Qy : 1 <= oy / s < h) by (destruct Hs; subst; lia).
  assert (Qx : 1 <= ox / s < w) by (destruct Hs; subst; lia).
  etransitivity.
  { apply (Qsum_two (2 * s) (oy mod s) (oy mod s + s)); [lia..|].
    intros ky Hky N1 N2. apply Qsum_zero. intros kx _.
    rewrite (source_index_other oy ky s h) by assumption. reflexivity. }
  cbv beta.
  rewrite (source_index_low oy s h Hs Hy), (source_index_high oy s h Hs Hy).
  etransitivity.
  { apply Qplus_comp;
      (apply (Qsum_two (2 * s) (ox mod s) (ox mod s + s)); [lia..|];
       intros kx Hkx N1 N2;
       rewrite (source_index_other ox kx s w) by assumption; reflexivity). }
  cbv beta.
  rewrite (source_index_low ox s w Hs Hx), (source_index_high ox s w Hs Hx).
  rewrite !Hg by lia. rewrite !Hwt by lia.
  pose proof (bilinear_tap_pair s (oy mod s) Hs0 Ry) as Py.
  pose proof (bilinear_tap_pair s (ox mod s) Hs0 Rx) as Px.
  set (a := bilinear_tap (2 * s) (oy mod s)) in *.
  set (a' := bilinear_tap (2 * s) (oy mod s + s)) in *.
  set (b := bilinear_tap (2 * s) (ox mod s)) in *.
  set (b' := bilinear_tap (2 * s) (ox mod s + s)) in *.
  transitivity (v * ((a + a') * (b + b')))%Q; [ring|].
  rewrite Py, Px. ring.
Qed.

(** The kernel is diagonal in the channels. *)
Lemma get_upsampling_weight_diagonal (channels k ci co ky kx : Z) :
  ci <> co -> item (get_upsampling_weight channels k) ci co ky kx = 0%Q.
Proof.
  intros H. cbn. destruct (Z.eqb_spec ci co); [contradiction|reflexivity].
Qed.

(** On its diagonal it is the same separable tent for every channel. *)
Lemma get_upsampling_weight_diagonal_entry (channels k c ky kx : Z) :
  item (get_upsampling_weight channels k) c c ky kx
  = (bilinear_tap k ky * bilinear_tap k kx)%Q.
Proof. cbn. rewrite Z.eqb_refl. reflexivity. Qed.

Lemma bilinear_constant up c k s x n h w v y :
  bilinear_upscore up c k s -> (k = 4 /\ s = 2) \/ (k = 16 /\ s = 8) ->
  shape x = mkSize n c h w -> all_const v x ->
  ConvTranspose2d_forward up x = Ok y ->
  shape y = mkSize n c (s * h + s) (s * w + s) /\
  forall n' c' oy ox,
    0 <= n' < n -> 0 <= c' < c -> s <= oy < s * h -> s <= ox < s * w ->
    (item y n' c' oy ox == v)%Q.
Proof.
  intros ((Htr & Hin & Hout & Hk & Hs & Hp) & Hb & Hsh & Hw) Hks Hx Hv Hy.
  assert (Hs' : s = 2 \/ s = 8) by lia.
  assert (Hk2 : k = 2 * s) by lia.
  unfold ConvTranspose2d_forward in Hy. rewrite Hk, Hs, Hp, Hin, Hout, Hx in Hy.
  cbn [dim0 dim1 dim2 dim3] in Hy. rewrite Z.eqb_refl in Hy. cbn [negb] in Hy.
  injection Hy as <-. split.
  { cbn [shape]. unfold conv_transpose_output_size. f_equal; lia. }
  intros n' c' oy ox Hn Hc Hoy Hox. cbn [item].
  unfold bias_at. rewrite Hb. rewrite !Z.add_0_r.
  assert (E := Qsum_single c c'
    (fun ci => Qsum k (fun ky => Qsum k (fun kx =>
       match source_index oy ky s h, source_index ox kx s w with
       | Some iy, Some ix => item x n' ci iy ix * item (weight up) ci c' ky kx
       | _, _ => 0
       end)))%Q Hc).
  cbv beta in E. rewrite E; clear E.
  - rewrite Qplus_0_l. subst k. apply tap_sum_2d; try assumption.
    + intros iy ix Hiy Hix. apply Hv. rewrite Hx. repeat split; cbn; lia.
    + intros ky kx Hky Hkx. rewrite Hw.
      * rewrite get_upsampling_weight_diagonal_entry. reflexivity.
      * rewrite Hsh. repeat split; cbn; lia.
  - intros ci Hci Hne. apply Qsum_zero. intros ky Hky. apply Qsum_zero. intros kx Hkx.
    destruct (source_index oy ky s h); [|reflexivity].
    destruct (source_index ox kx s w); [|reflexivity].
    rewrite Hw by (rewrite Hsh; repeat split; cbn; lia).
    rewrite get_upsampling_weight_diagonal by assumption. ring.
Qed.

Section UpsamplingOperators.
Context {T : TorchLib}.

Lemma constructed_upscore_operators self nc up c k s :
  constructed self nc -> In (up, c, k, s) (upscore_operators self nc) ->
  bilinear_upscore up c k s /\ ((k = 4 /\ s = 2) \/ (k = 16 /\ s = 8)).
Proof.
  intros C Hin. unfold upscore_operators in Hin. cbn [In] in Hin.
  repeat destruct Hin as [Hin|Hin]; try contradiction;
    injection Hin as <- <- <- <-; (split; [apply C | lia]).
Qed.

(** C7: after construction the weight of every upsampling operator is the
    bilinear kernel of its kernel size, a function of kernel size and
    channel count alone, zero off the channel diagonal and the same
    separable tent on it; applied to a tensor that is constant [v], the
    operator returns [v] at every output entry that lies at least one
    stride away from the border. *)
Theorem upscore_bilinear_constant nc ti self up c k s x n h w v :
  Box2Pix_init nc ti = Ok self ->
  In (up, c, k, s) (upscore_operators self nc) ->
  shape x = mkSize n c h w -> all_const v x ->
  tensor_eq (weight up) (get_upsampling_weight c k) /\
  (forall ci co ky kx, ci <> co -> item (get_upsampling_weight c k) ci co ky kx = 0%Q) /\
  (forall ci ky kx,
     item (get_upsampling_weight c k) ci ci ky kx
     = (bilinear_tap k ky * bilinear_tap k kx)%Q) /\
  exists y, ConvTranspose2d_forward up x = Ok y /\
    shape y = mkSize n c (s * h + s) (s * w + s) /\
    forall n' c' oy ox,
      0 <= n' < n -> 0 <= c' < c -> s <= oy < s * h -> s <= ox < s * w ->
      (item y n' c' oy ox == v)%Q.
Proof.
  intros Hnew Hin Hx Hv.
  apply Box2Pix_init_constructed in Hnew as [C _].
  destruct (constructed_upscore_operators self nc up c k s C Hin) as [Hup Hks].
  split; [apply Hup|].
  split; [intros; apply get_upsampling_weight_diagonal; assumption|].
  split; [intros; apply get_upsampling_weight_diagonal_entry|].
  destruct (ConvTranspose2d_forward_shape up x c c k s 0) as (y & Ey & _);
    [apply Hup | rewrite Hx; reflexivity |].
  exists y. split; [exact Ey|].
  exact (bilinear_constant up c k s x n h w v y Hup Hks Hx Hv Ey).
Qed.

End UpsamplingOperators.

Lemma upscore_bilinear_constant_witness :
  exists self y,
    @Box2Pix_init plain_lib 11 false = Ok self /\
    ConvTranspose2d_forward (sem_upscore8 self) (full (mkSize 1 11 3 3) (5 # 2)) = Ok y /\
    shape y = mkSize 1 11 32 32 /\
    (item y 0 10 8 23 == 5 # 2)%Q.
Proof.
  destruct plain_init_11 as [self E]. exists self.
  destruct (@upscore_bilinear_constant plain_lib 11 false self (sem_upscore8 self) 11 16 8
              (full (mkSize 1 11 3 3) (5 # 2)) 1 3 3 (5 # 2) E)
    as (_ & _ & _ & y & Ey & Sy & Iy);
    [cbn; tauto | reflexivity | intros a b c d _; reflexivity | ].
  exists y. repeat split; [exact E | exact Ey | exact Sy | apply Iy; lia].
Defined.

(** ** Tensor objects *)

Lemma bind_st_assoc {A B C : Type} (m : St A) (f : A -> St B) (g : B -> St C) (h : heap) :
  bind_st (bind_st m f) g h = bind_st m (fun a => bind_st (f a) g) h.
Proof. unfold bind_st. destruct (m h) as [[a h']|e]; reflexivity. Qed.

Lemma bind_st_ret {A B : Type} (a : A) (k : A -> St B) (h : heap) :
  bind_st (ret_st a) k h = k a h.
Proof. reflexivity. Qed.

Lemma bind_st_cong {A B : Type} (m : St A) (k k' : A -> St B) (h : heap) :
  (forall a h', k a h' = k' a h') -> bind_st m k h = bind_st m k' h.
Proof. intros H. unfold bind_st. destruct (m h) as [[a h']|e]; [apply H|reflexivity]. Qed.

Ltac step_st :=
  repeat (rewrite ?bind_st_assoc, ?bind_st_ret;
          apply bind_st_cong; intros ? ?).

Section ObjectStages.
Context {T : TorchLib}.

Lemma forward_st_stages (self : Box2Pix) (x : view) (h : heap) :
  forward_st self x h = staged_forward_st self x h.
Proof.
  unfold forward_st, staged_forward_st, encoder_st, dense_path_st, fuse_st.
  cbn [app].
  step_st.
  match goal with p : (box_tensor * box_tensor)%type |- _ => destruct p end.
  step_st.
  reflexivity.
Qed.

End ObjectStages.

(** *** Reading the heap *)

Lemma read_prefix (h h' : heap) (v : view) (t : tensor) :
  h `prefix_of` h' -> read h v = Some t -> read h' v = Some t.
Proof.
  unfold read. intros Hp H.
  destruct (h !! storage v) as [s|] eqn:E; [|discriminate].
  rewrite (prefix_lookup_Some _ _ _ _ E Hp). exact H.
Qed.

Lemma read_new (h : heap) (t : tensor) :
  read (h ++ [t]) (mkView (length h) None) = Some t.
Proof.
  unfold read. cbn [storage window].
  rewrite lookup_app_r by lia. rewrite Nat.sub_diag. reflexivity.
Qed.

Lemma tensor_same_refl (a : tensor) : tensor_same a a.
Proof. split; [reflexivity|]. intros; reflexivity. Qed.

Lemma tensor_same_sym (a b : tensor) : tensor_same a b -> tensor_same b a.
Proof.
  intros [Hs Hi]. split; [symmetry; exact Hs|].
  intros n c y x Hr. symmetry. apply Hi. rewrite Hs. exact Hr.
Qed.

Lemma tensor_same_trans (a b c : tensor) :
  tensor_same a b -> tensor_same b c -> tensor_same a c.
Proof.
  intros [Hs Hi] [Hs' Hi']. split; [congruence|].
  intros n ch y x Hr. rewrite Hi by exact Hr. apply Hi'. rewrite <- Hs. exact Hr.
Qed.

(** *** Runs on objects follow runs on values *)

Lemma sim_bind {A B A' B' : Type} (R : A -> B -> heap -> Prop)
    (R' : A' -> B' -> heap -> Prop) (m : result A) (ms : St B)
    (k : A -> result A') (ks : B -> St B') (h : heap) :
  sim R m (ms h) ->
  (forall a b h', m = Ok a -> R a b h' -> sim R' (k a) (ks b h')) ->
  sim R' (bind m k) (bind_st ms ks h).
Proof.
  unfold sim, bind_st. destruct m as [a|e]; cbn [bind].
  - intros (b & h' & -> & HR) Hk. apply Hk; [reflexivity|exact HR].
  - intros -> _. reflexivity.
Qed.

Lemma sim_weaken {A B : Type} (R R' : A -> B -> heap -> Prop) m ms :
  sim R m ms -> (forall a b h', R a b h' -> R' a b h') -> sim R' m ms.
Proof.
  unfold sim. destruct m as [a|e]; [|auto].
  intros (b & h' & E & HR) Hw. exists b, h'. auto.
Qed.

(** A module call on an object that holds exactly the value. *)
Lemma sim_call (f : tensor -> result tensor) (v : view) (t : tensor) (h : heap) :
  read h v = Some t ->
  sim (fun r v' h' => h' = h ++ [r] /\ v' = mkView (length h) None) (f t) (call f v h).
Proof.
  intros Hv. unfold sim, call, bind_st, deref, lift, new_tensor. rewrite Hv.
  destruct (f t) as [r|e]; [|reflexivity].
  exists (mkView (length h) None), (h ++ [r]). auto.
Qed.

Lemma sim_call_prefix (f : tensor -> result tensor) (v : view) (t : tensor) (h : heap) :
  read h v = Some t ->
  sim (fun r v' h' => h `prefix_of` h' /\ read h' v' = Some r) (f t) (call f v h).
Proof.
  intros Hv. eapply sim_weaken; [apply sim_call; exact Hv|].
  intros r v' h' [-> ->]. split; [apply prefix_app_r; reflexivity | apply read_new].
Qed.

(** A module call on an object that holds the value up to [tensor_same],
    for a module that cannot tell the difference. *)
Lemma sim_call_same (f : tensor -> result tensor) (v : view) (t t' : tensor) (h : heap) :
  read h v = Some t' ->
  sim (fun r r' _ => tensor_same r' r) (f t) (lift (f t') h) ->
  sim (fun r v' h' => exists r', h' = h ++ [r'] /\ v' = mkView (length h) None /\
                                 tensor_same r' r)
      (f t) (call f v h).
Proof.
  intros Hv Hf. unfold sim, call, bind_st, deref, new_tensor in *. rewrite Hv.
  unfold lift in *. destruct (f t) as [r|e].
  - destruct Hf as (r' & h' & E & Hs). destruct (f t') as [r''|]; [|discriminate].
    injection E as -> _. exists (mkView (length h) None), (h ++ [r']).
    split; [reflexivity|]. exists r'. auto.
  - destruct (f t'); [discriminate|]. congruence.
Qed.

Lemma sim_size_of (v : view) (t : tensor) (h : heap) :
  read h v = Some t -> size_of v h = Ok (shape t, h).
Proof. intros Hv. unfold size_of, bind_st, deref, ret_st. rewrite Hv. reflexivity. Qed.

(** *** The layers of a dense path cannot tell equal tensors apart *)

Lemma sum_upto_ext_eq (n : nat) (f g : nat -> Q) :
  (forall i, (i < n)%nat -> f i = g i) -> sum_upto n f = sum_upto n g.
Proof.
  induction n as [|n IH]; intros H; cbn [sum_upto]; [reflexivity|].
  rewrite IH by (intros; apply H; lia). rewrite (H n) by lia. reflexivity.
Qed.

Lemma Qsum_ext_eq (n : Z) (f g : Z -> Q) :
  (forall i, 0 <= i < n -> f i = g i) -> Qsum n f = Qsum n g.
Proof. intros H. apply sum_upto_ext_eq. intros i Hi. apply H. lia. Qed.

Lemma source_index_range (o k s len i : Z) :
  source_index o k s len = Some i -> 0 <= i < len.
Proof.
  unfold source_index. intros H.
  destruct (_ =? _); cbn in H; [|discriminate].
  destruct (Z.leb_spec 0 ((o - k) / s)); cbn in H; [|discriminate].
  destruct (Z.ltb_spec ((o - k) / s) len); cbn in H; [|discriminate].
  injection H as <-. lia.
Qed.

Lemma ConvTranspose2d_forward_same (m : ConvNd) (t t' : tensor) (h : heap) :
  tensor_same t' t ->
  sim (fun r r' (_ : heap) => tensor_same r' r)
      (ConvTranspose2d_forward m t) (lift (ConvTranspose2d_forward m t') h).
Proof.
  intros [Hs Hi]. unfold sim, lift, ConvTranspose2d_forward. rewrite Hs.
  destruct (kernel_size m) as [kh kw], (stride m) as [sh sw], (padding m) as [ph pw].
  destruct (Z.eqb_spec (dim1 (shape t)) (in_channels m)) as [Hc|Hc]; cbn [negb];
    [|reflexivity].
  eexists _, h. split; [reflexivity|]. split; [reflexivity|].
  intros n co y x (Hn & _). cbn [shape dim0] in Hn. cbn [item]. f_equal.
  apply Qsum_ext_eq. intros ci Hci. apply Qsum_ext_eq. intros ky _.
  apply Qsum_ext_eq. intros kx _.
  destruct (source_index (y + ph) ky sh (dim2 (shape t))) as [iy|] eqn:Ey; [|reflexivity].
  destruct (source_index (x + pw) kx sw (dim3 (shape t))) as [ix|] eqn:Ex; [|reflexivity].
  apply source_index_range in Ey, Ex.
  rewrite Hi; [reflexivity|]. rewrite Hs. repeat split; lia.
Qed.

Lemma iadd_same (a a' b : tensor) (h : heap) :
  tensor_same a' a ->
  sim (fun r r' (_ : heap) => tensor_same r' r) (iadd a b) (lift (iadd a' b) h).
Proof.
  intros [Hs Hi]. unfold sim, lift, iadd. rewrite Hs.
  destruct (_ && _); [|reflexivity].
  eexists _, h. split; [reflexivity|]. split; [reflexivity|].
  intros n c y x Hr. cbn [shape] in Hr. cbn [item]. rewrite Hi; [reflexivity|].
  rewrite Hs. exact Hr.
Qed.

Lemma adjust_index_bounds (i len : Z) : 0 <= len -> 0 <= adjust_index i len <= len.
Proof. intros. unfold adjust_index. destruct (Z.ltb_spec i 0); lia. Qed.

Lemma getitem_hw_same (t t' : tensor) (y0 y1 x0 x1 : Z) :
  0 <= dim2 (shape t) -> 0 <= dim3 (shape t) ->
  tensor_same t' t -> tensor_same (getitem_hw t' y0 y1 x0 x1) (getitem_hw t y0 y1 x0 x1).
Proof.
  intros H2 H3 [Hs Hi]. split; [cbn; rewrite Hs; reflexivity|].
  intros n c y x (Hn & Hc & Hy & Hx). cbn [getitem_hw shape item dim0 dim1 dim2 dim3] in *.
  rewrite Hs in *.
  pose proof (adjust_index_bounds y0 _ H2). pose proof (adjust_index_bounds y1 _ H2).
  pose proof (adjust_index_bounds x0 _ H3). pose proof (adjust_index_bounds x1 _ H3).
  unfold slice_length in Hy, Hx.
  apply Hi. repeat split; lia.
Qed.

(** *** Slices and in-place writes on the heap *)

Lemma getitem_view_whole (h : heap) (a : nat) (s : tensor) (y0 y1 x0 x1 : Z) :
  h !! a = Some s ->
  getitem_view (mkView a None) y0 y1 x0 x1 h =
    Ok (mkView a (Some (adjust_index y0 (dim2 (shape s)), adjust_index x0 (dim3 (shape s)),
                        slice_length y0 y1 (dim2 (shape s)),
                        slice_length x0 x1 (dim3 (shape s)))), h).
Proof. intros H. unfold getitem_view. cbn [storage window]. rewrite H. reflexivity. Qed.

Lemma read_window_slice (s : tensor) (y0 y1 x0 x1 : Z) :
  read_window s (Some (adjust_index y0 (dim2 (shape s)), adjust_index x0 (dim3 (shape s)),
                       slice_length y0 y1 (dim2 (shape s)),
                       slice_length x0 x1 (dim3 (shape s))))
  = getitem_hw s y0 y1 x0 x1.
Proof. reflexivity. Qed.

Lemma lookup_last (h : heap) (t : tensor) : (h ++ [t]) !! length h = Some t.
Proof. rewrite lookup_app_r by lia. rewrite Nat.sub_diag. reflexivity. Qed.

Lemma insert_last (h : heap) (t t' : tensor) : <[length h := t']> (h ++ [t]) = h ++ [t'].
Proof. rewrite insert_app_r_alt by lia. rewrite Nat.sub_diag. reflexivity. Qed.

Lemma read_write_window (s r : tensor) (oy ox hh ww : Z) :
  shape r = mkSize (dim0 (shape s)) (dim1 (shape s)) hh ww ->
  tensor_same (read_window (write_window s (Some (oy, ox, hh, ww)) r)
                           (Some (oy, ox, hh, ww))) r.
Proof.
  intros Hr. split; [cbn; symmetry; exact Hr|].
  intros n c y x (_ & _ & Hy & Hx). cbn [read_window write_window shape item dim2 dim3] in *.
  replace ((oy <=? oy + y) && (oy + y <? oy + hh) && (ox <=? ox + x) && (ox + x <? ox + ww))
    with true.
  - f_equal; lia.
  - symmetry. repeat (apply andb_true_iff; split);
      first [apply Z.leb_le; lia | apply Z.ltb_lt; lia].
Qed.

Lemma iadd_shape (a b r : tensor) : iadd a b = Ok r -> shape r = shape a.
Proof. unfold iadd. destruct (_ && _); [|discriminate]. intros H. injection H as <-. reflexivity. Qed.

Lemma ConvTranspose2d_forward_shape_inv m x y cin cout k s p :
  conv_is m true cin cout k s p -> ConvTranspose2d_forward m x = Ok y ->
  shape y = mkSize (dim0 (shape x)) cout
                   (conv_transpose_output_size (dim2 (shape x)) k p s)
                   (conv_transpose_output_size (dim3 (shape x)) k p s).
Proof.
  intros (_ & _ & Hout & Hk & Hs & Hp) H. unfold ConvTranspose2d_forward in H.
  rewrite Hk, Hs, Hp, Hout in H. destruct (negb _); [discriminate|].
  injection H as <-. reflexivity.
Qed.

Lemma slice_length_nonneg (a b len : Z) : 0 <= slice_length a b len.
Proof. unfold slice_length. lia. Qed.

(** One fusion step on objects: the upsampled map is a new storage, the
    crop a view of it, and the addition writes through that view into that
    storage and no other. *)
Lemma fuse_st_sim up c k s vc vs tc tc' ts h :
  conv_is up true c c k s 0 -> (k = 4 /\ s = 2) \/ (k = 16 /\ s = 8) ->
  0 <= dim2 (shape tc) -> 0 <= dim3 (shape tc) ->
  read h vc = Some tc' -> tensor_same tc' tc -> read h vs = Some ts ->
  sim (fun f vf h' =>
         h `prefix_of` h' /\ 0 <= dim2 (shape f) /\ 0 <= dim3 (shape f) /\
         exists f', read h' vf = Some f' /\ tensor_same f' f)
      (fuse up tc ts) (fuse_st up vc vs h).
Proof.
  intros Hup Hks H2 H3 Hc Hsame Hs. unfold fuse, fuse_st.
  eapply sim_bind.
  { apply (sim_call_same _ vc tc tc' h Hc). apply ConvTranspose2d_forward_same. exact Hsame. }
  intros u vu h1 Eu (u' & -> & -> & Hu).
  pose proof (ConvTranspose2d_forward_shape_inv _ _ _ _ _ _ _ _ Hup Eu) as Su.
  assert (Hu2 : 0 <= dim2 (shape u) /\ 0 <= dim3 (shape u)).
  { rewrite Su. cbn [dim2 dim3]. unfold conv_transpose_output_size. lia. }
  assert (Hs1 : read (h ++ [u']) vs = Some ts)
    by (eapply read_prefix; [apply prefix_app_r; reflexivity | exact Hs]).
  unfold bind_st at 1. rewrite (sim_size_of vs ts _ Hs1).
  unfold bind_st. rewrite (getitem_view_whole _ _ u' _ _ _ _ (lookup_last h u')).
  unfold iadd_view. cbn [storage window]. rewrite lookup_last, Hs1, read_window_slice.
  unfold crop.
  pose proof (iadd_same (getitem_hw u 1 (1 + dim2 (shape ts)) 1 (1 + dim3 (shape ts)))
                (getitem_hw u' 1 (1 + dim2 (shape ts)) 1 (1 + dim3 (shape ts))) ts h
                (getitem_hw_same u u' _ _ _ _ (proj1 Hu2) (proj2 Hu2) Hu)) as Hi.
  unfold sim, lift in Hi |- *.
  destruct (iadd (getitem_hw u _ _ _ _) ts) as [r|e] eqn:Er.
  - destruct Hi as (r' & h0 & E' & Hr).
    destruct (iadd (getitem_hw u' _ _ _ _) ts) as [r''|] eqn:Er'; [|discriminate].
    injection E' as -> _.
    eexists _, _. split; [reflexivity|]. rewrite insert_last.
    split; [apply prefix_app_r; reflexivity|].
    apply iadd_shape in Er. apply iadd_shape in Er'.
    split; [rewrite Er; cbn; apply slice_length_nonneg|].
    split; [rewrite Er; cbn; apply slice_length_nonneg|].
    eexists. split.
    + unfold read. cbn [storage window]. rewrite lookup_last. reflexivity.
    + eapply tensor_same_trans; [|exact Hr].
      apply read_write_window. rewrite Er'. reflexivity.
  - destruct (iadd (getitem_hw u' _ _ _ _) ts); [discriminate|]. congruence.
Qed.

Lemma prefix_of_trans (h1 h2 h3 : heap) :
  h1 `prefix_of` h2 -> h2 `prefix_of` h3 -> h1 `prefix_of` h3.
Proof. intros H1 H2. etransitivity; eassumption. Qed.

(** Move every fact about heap [h1] to its extension [h2]. *)
Ltac advance Hp :=
  match type of Hp with
  | ?h1 `prefix_of` ?h2 =>
      repeat match goal with
             | H : read h1 _ = Some _ |- _ => apply (read_prefix h1 h2 _ _ Hp) in H
             | H : ?h0 `prefix_of` h1 |- _ => apply (fun X => prefix_of_trans h0 h1 h2 X Hp) in H
             end
  end.

Lemma score_forward_dims m x y cin cout :
  conv_is m false cin cout 1 1 0 -> Conv2d_forward m x = Ok y ->
  0 <= dim2 (shape y) /\ 0 <= dim3 (shape y).
Proof.
  intros (_ & _ & _ & Hk & Hs & Hp) H. unfold Conv2d_forward in H.
  rewrite Hk, Hs, Hp in H. destruct (negb _); [discriminate|].
  destruct (Z.ltb_spec (dim2 (shape x) + 2 * 0) 1); [discriminate|].
  destruct (Z.ltb_spec (dim3 (shape x) + 2 * 0) 1); [discriminate|].
  cbn [orb] in H. injection H as <-. cbn [shape dim2 dim3].
  rewrite !conv_output_size_same by lia. lia.
Qed.

Lemma bind_st_size_of {B : Type} (v : view) (t : tensor) (k : torch_Size -> St B) (h : heap) :
  read h v = Some t -> bind_st (size_of v) k h = k (shape t) h.
Proof. intros Hv. unfold bind_st at 1. rewrite (sim_size_of v t h Hv). reflexivity. Qed.

(** A dense path on objects returns what the dense path on values returns,
    in storages of its own; the heap it started from is still there. *)
Lemma dense_path_st_sim s3 s4 s5 s6 up up2 up4 up8 c6 c size t tv h :
  conv_is s6 false c6 c 1 1 0 ->
  conv_is up true c c 4 2 0 -> conv_is up2 true c c 4 2 0 ->
  conv_is up4 true c c 4 2 0 -> conv_is up8 true c c 16 8 0 ->
  read h (view3b tv) = Some (tap3b t) -> read h (view4e tv) = Some (tap4e t) ->
  read h (view5b tv) = Some (tap5b t) -> read h (view6b tv) = Some (tap6b t) ->
  sim (fun out vo h' =>
         h `prefix_of` h' /\ exists o', read h' vo = Some o' /\ tensor_same o' out)
      (dense_path s3 s4 s5 s6 up up2 up4 up8 size t)
      (dense_path_st s3 s4 s5 s6 up up2 up4 up8 size tv h).
Proof.
  intros C6 U1 U2 U4 U8 R3 R4 R5 R6. unfold dense_path, dense_path_st.
  assert (P : h `prefix_of` h) by reflexivity.
  eapply sim_bind; [apply sim_call_prefix; exact R6|].
  intros a6 v6 h1 E6 [Hp1 Ra6]. advance Hp1.
  destruct (score_forward_dims _ _ _ _ _ C6 E6) as [D62 D63].
  eapply sim_bind; [apply sim_call_prefix; exact R5|].
  intros a5 v5 h2 E5 [Hp2 Ra5]. advance Hp2.
  eapply sim_bind.
  { eapply (fuse_st_sim up c 4 2 v6 v5 a6 a6 a5 h2); try eassumption;
      [left; split; reflexivity | apply tensor_same_refl]. }
  intros f5 vf5 h3 _ (Hp3 & D52 & D53 & f5' & Rf5 & Sf5). advance Hp3.
  eapply sim_bind; [apply sim_call_prefix; exact R4|].
  intros a4 v4 h4 E4 [Hp4 Ra4]. advance Hp4.
  eapply sim_bind.
  { eapply (fuse_st_sim up2 c 4 2 vf5 v4 f5 f5' a4 h4); try eassumption.
    left; split; reflexivity. }
  intros f4 vf4 h5 _ (Hp5 & D42 & D43 & f4' & Rf4 & Sf4). advance Hp5.
  eapply sim_bind; [apply sim_call_prefix; exact R3|].
  intros a3 v3 h6 E3 [Hp6 Ra3]. advance Hp6.
  eapply sim_bind.
  { eapply (fuse_st_sim up4 c 4 2 vf4 v3 f4 f4' a3 h6); try eassumption.
    left; split; reflexivity. }
  intros f3 vf3 h7 _ (Hp7 & D32 & D33 & f3' & Rf3 & Sf3). advance Hp7.
  eapply sim_bind.
  { apply (sim_call_same _ vf3 f3 f3' h7 Rf3). apply ConvTranspose2d_forward_same. exact Sf3. }
  intros u8 vu8 h8 E8 (u8' & -> & -> & Su8).
  pose proof (ConvTranspose2d_forward_shape_inv _ _ _ _ _ _ _ _ U8 E8) as Sh8.
  assert (D8 : 0 <= dim2 (shape u8) /\ 0 <= dim3 (shape u8)).
  { rewrite Sh8. cbn [dim2 dim3]. unfold conv_transpose_output_size. lia. }
  unfold bind_st. rewrite (getitem_view_whole _ _ u8' _ _ _ _ (lookup_last h7 u8')).
  unfold contiguous_view. cbn [window]. unfold bind_st, deref, read. cbn [storage window].
  rewrite lookup_last, read_window_slice. unfold new_tensor.
  unfold sim. eexists _, _. split; [reflexivity|]. split.
  - eapply prefix_of_trans; [exact P|]. rewrite <- app_assoc. apply prefix_app_r. reflexivity.
  - eexists. split; [apply read_new|].
    unfold contiguous, crop. apply getitem_hw_same; [apply D8..|exact Su8].
Qed.

Section ObjectRuns.
Context {T : TorchLib}.

(** The encoder on objects: every layer allocates, nothing is written
    twice, and the five taps hold the values of the encoder on values. *)
Lemma encoder_st_sim self x xv h :
  read h x = Some xv ->
  sim (fun t tv h' =>
         h `prefix_of` h' /\
         read h' (view3b tv) = Some (tap3b t) /\ read h' (view4e tv) = Some (tap4e t) /\
         read h' (view5b tv) = Some (tap5b t) /\ read h' (view6b tv) = Some (tap6b t) /\
         read h' (view7b tv) = Some (tap7b t))
      (encoder self xv) (encoder_st self x h).
Proof.
  intros Rx. unfold encoder, encoder_st.
  assert (P : h `prefix_of` h) by reflexivity.
  eapply sim_bind.
  { instantiate (1 := fun r v' h' => h `prefix_of` h' /\ read h' v' = Some r).
    destruct (transform_input self).
    - apply sim_call_prefix. exact Rx.
    - unfold sim, ret_st. eexists _, _. split; [reflexivity|]. split; [reflexivity|exact Rx]. }
  intros y0 v0 h0 _ [Hp0 R0]. clear P. rename Hp0 into P.
  do 22 (eapply sim_bind; [apply sim_call_prefix; eassumption|];
         let r := fresh "r" in let v := fresh "v" in let h' := fresh "h" in
         let Hp := fresh "Hp" in let Hr := fresh "Hr" in
         intros r v h' _ [Hp Hr]; advance Hp; clear Hp).
  unfold sim, ret_st. eexists _, _. split; [reflexivity|].
  cbn [view3b view4e view5b view6b view7b tap3b tap4e tap5b tap6b tap7b].
  repeat split; assumption.
Qed.

Lemma call_head_sim (m : MultiBox) (v1 v2 v3 v4 : view) (t1 t2 t3 t4 : tensor) (h : heap) :
  read h v1 = Some t1 -> read h v2 = Some t2 -> read h v3 = Some t3 -> read h v4 = Some t4 ->
  sim (fun r r' h' => r' = r /\ h' = h)
      (MultiBox_forward m [t1; t2; t3; t4]) (call_head m [v1; v2; v3; v4] h).
Proof.
  intros H1 H2 H3 H4. unfold call_head, bind_st, deref_all, bind_st, deref, ret_st, lift.
  rewrite H1, H2, H3, H4. unfold sim.
  destruct (MultiBox_forward m [t1; t2; t3; t4]) as [r|e]; [|reflexivity].
  eexists _, _. split; [reflexivity|]. auto.
Qed.

(** [forward] on objects returns what [forward] on values returns (the same
    head outputs, and dense outputs that hold the same tensors), raises
    when it raises, and leaves every storage that existed before the call
    as it was. *)
Lemma forward_st_sim self nc x xv h :
  configured self nc -> read h x = Some xv ->
  sim (fun out outv h' =>
         h `prefix_of` h' /\
         fst (fst (fst outv)) = fst (fst (fst out)) /\
         snd (fst (fst outv)) = snd (fst (fst out)) /\
         (exists s', read h' (snd (fst outv)) = Some s' /\ tensor_same s' (snd (fst out))) /\
         (exists o', read h' (snd outv) = Some o' /\ tensor_same o' (snd out)))
      (forward self xv) (forward_st self x h).
Proof.
  intros C Rx. rewrite forward_stages, forward_st_stages.
  unfold staged_forward, staged_forward_st, semantics_path, offsets_path.
  rewrite (bind_st_size_of x xv _ h Rx).
  eapply sim_bind; [apply encoder_st_sim; exact Rx|].
  intros t tv h1 _ (P & R3 & R4 & R5 & R6 & R7).
  eapply sim_bind; [apply call_head_sim; eassumption|].
  intros [loc conf] [loc' conf'] h2 _ [E ->]. injection E as -> ->.
  eapply sim_bind.
  { eapply (dense_path_st_sim _ _ _ _ _ _ _ _ 1024 nc); try eassumption;
      first [ apply (cfg_sem_score6b _ _ C) | apply (cfg_sem_upscore _ _ C)
            | apply (cfg_sem_upscore2 _ _ C) | apply (cfg_sem_upscore4 _ _ C)
            | apply (cfg_sem_upscore8 _ _ C) ]. }
  intros sem vs h3 _ (Hp3 & s' & Rs & Ss). advance Hp3.
  eapply sim_bind.
  { eapply (dense_path_st_sim _ _ _ _ _ _ _ _ 1024 2); try eassumption;
      first [ apply (cfg_offs_score6b _ _ C) | apply (cfg_offs_upscore _ _ C)
            | apply (cfg_offs_upscore2 _ _ C) | apply (cfg_offs_upscore4 _ _ C)
            | apply (cfg_offs_upscore8 _ _ C) ]. }
  intros offs vo h4 _ (Hp4 & o' & Ro & So). advance Hp4.
  unfold sim, ret_st. eexists _, _. split; [reflexivity|]. cbn [fst snd].
  repeat split; try assumption; eauto.
Qed.

End ObjectRuns.

(** ** C8: two calls of [forward] *)

Section TwoCalls.
Context {T : TorchLib}.

(** A call that raises raises again, with the same exception, from any
    heap that holds the same input. *)
Lemma forward_st_raises_again self nc x xv h0 h e :
  configured self nc ->
  read h0 x = Some xv -> read h x = Some xv ->
  forward_st self x h0 = Raise e -> forward_st self x h = Raise e.
Proof.
  intros C R0 R H0.
  pose proof (forward_st_sim self nc x xv h0 C R0) as S0.
  pose proof (forward_st_sim self nc x xv h C R) as S.
  unfold sim in S0, S. destruct (forward self xv) as [out|e'].
  - destruct S0 as (b & h' & E & _). congruence.
  - congruence.
Qed.

(** C8: for every network that has the constructor's architecture,
    whatever its parameters hold, calling [forward] twice on the same
    input tensor object, the second call starting from the heap that the
    first one left, gives identical outputs: the first call has written to
    no storage that existed before it (the input is still what it was, and
    the parameters are not on the heap at all), the second call returns as
    the first did, with the same head outputs and with semantics and
    offsets of the same shape and the same entry at every index. *)
Theorem forward_twice self nc x xv h0 loc1 conf1 sem1 offs1 h1 :
  configured self nc ->
  read h0 x = Some xv ->
  forward_st self x h0 = Ok ((loc1, conf1, sem1, offs1), h1) ->
  exists loc2 conf2 sem2 offs2 h2 s1 o1 s2 o2,
    forward_st self x h1 = Ok ((loc2, conf2, sem2, offs2), h2) /\
    read h1 x = Some xv /\ read h2 x = Some xv /\
    loc2 = loc1 /\ conf2 = conf1 /\
    read h2 sem1 = Some s1 /\ read h2 sem2 = Some s2 /\ tensor_same s1 s2 /\
    read h2 offs1 = Some o1 /\ read h2 offs2 = Some o2 /\ tensor_same o1 o2.
Proof.
  intros C R0 H1.
  pose proof (forward_st_sim self nc x xv h0 C R0) as S0. unfold sim in S0.
  destruct (forward self xv) as [[[[loc conf] sem] offs]|e] eqn:F.
  - destruct S0 as (b & h' & E & P1 & El & Ec & (s1 & Rs1 & Ss1) & (o1 & Ro1 & So1)).
    rewrite H1 in E. injection E as <- <-. cbn [fst snd] in *.
    assert (R1 : read h1 x = Some xv) by (eapply read_prefix; eassumption).
    pose proof (forward_st_sim self nc x xv h1 C R1) as S1. unfold sim in S1. rewrite F in S1.
    destruct S1 as ([[[loc2 conf2] sem2] offs2] & h2 & E2 & P2 & El2 & Ec2
                    & (s2 & Rs2 & Ss2) & (o2 & Ro2 & So2)).
    cbn [fst snd] in *.
    exists loc2, conf2, sem2, offs2, h2, s1, o1, s2, o2.
    split; [exact E2|]. split; [exact R1|].
    split; [eapply read_prefix; eassumption|].
    split; [congruence|]. split; [congruence|].
    split; [eapply read_prefix; eassumption|]. split; [exact Rs2|].
    split; [eapply tensor_same_trans; [exact Ss1|apply tensor_same_sym; exact Ss2]|].
    split; [eapply read_prefix; eassumption|]. split; [exact Ro2|].
    eapply tensor_same_trans; [exact So1|apply tensor_same_sym; exact So2].
  - congruence.
Qed.

(** On objects [forward] returns exactly when it does on values. *)
Lemma forward_st_returns nc self x xv h loc conf sem offs :
  configured self nc -> read h x = Some xv ->
  forward self xv = Ok (loc, conf, sem, offs) ->
  exists semv offsv h', forward_st self x h = Ok ((loc, conf, semv, offsv), h').
Proof.
  intros C R F. pose proof (forward_st_sim self nc x xv h C R) as S.
  unfold sim in S. rewrite F in S.
  destruct S as ([[[loc' conf'] semv] offsv] & h' & E & _ & El & Ec & _).
  cbn [fst snd] in *. subst. eauto.
Qed.

End TwoCalls.

Lemma forward_twice_witness :
  exists self out1 h1 out2 h2,
    (item (weight (sem_score6b self)) 0 0 0 0 == 1)%Q /\
    @forward_st plain_lib self (mkView 0 None) [image 2 64 64 (1 # 2)] = Ok (out1, h1) /\
    @forward_st plain_lib self (mkView 0 None) h1 = Ok (out2, h2) /\
    fst (fst (fst out2)) = fst (fst (fst out1)) /\
    exists s1 s2,
      read h2 (snd (fst out1)) = Some s1 /\ read h2 (snd (fst out2)) = Some s2 /\
      tensor_same s1 s2.
Proof.
  destruct plain_trained as (self & C & _ & W). exists self.
  destruct (@forward_returns plain_lib self 11 (image 2 64 64 (1 # 2)) 2 64 64 C)
    as (t & loc & conf & sem & offs & _ & F & _);
    [reflexivity | lia | lia | left; lia | apply plain_head_accepts |].
  destruct (@forward_st_returns plain_lib 11 self (mkView 0 None) (image 2 64 64 (1 # 2))
              [image 2 64 64 (1 # 2)] loc conf sem offs C eq_refl F)
    as (semv & offsv & h1 & F1).
  destruct (@forward_twice plain_lib self 11 (mkView 0 None) (image 2 64 64 (1 # 2))
              [image 2 64 64 (1 # 2)] loc conf semv offsv h1 C eq_refl F1)
    as (loc2 & conf2 & sem2 & offs2 & h2 & s1 & o1 & s2 & o2 & F2 & _ & _ & El & _
        & Rs1 & Rs2 & Ss & _).
  exists (loc, conf, semv, offsv), h1, (loc2, conf2, sem2, offs2), h2.
  cbn [fst snd]. repeat split; try assumption. exists s1, s2. auto.
Defined.

(** * Further properties *)

(** ** What a layer that returns says about its input *)

Lemma conv_output_size_1x1 (h : Z) : conv_output_size h 1 0 1 = h.
Proof. apply conv_output_size_same. reflexivity. Qed.

Lemma conv_output_size_3x3 (h : Z) : conv_output_size h 3 1 1 = h.
Proof. apply conv_output_size_same. reflexivity. Qed.

Lemma tap4e_rows_inv (h : Z) : 1 <= (h + 1) / 2 / 2 / 2 / 2 -> 15 <= h.
Proof. lia. Qed.

Lemma rows_div_8 (h : Z) : (h + 1) / 2 / 2 / 2 = (h + 1) / 8.
Proof. lia. Qed.

Lemma rows_div_16 (h : Z) : (h + 1) / 2 / 2 / 2 / 2 = (h + 1) / 16.
Proof. lia. Qed.

Lemma ceil_half_twice (s : Z) : ((s + 1) / 2 + 1) / 2 = (s + 3) / 4.
Proof. lia. Qed.

Lemma ceil_half_thrice (s : Z) : ((s + 3) / 4 + 1) / 2 = (s + 7) / 8.
Proof. lia. Qed.

Lemma dense_rows_bounds (h : Z) :
  15 <= h -> h - 2 <= Z.min h (8 * ((h + 1) / 8) + 4) <= h.
Proof. lia. Qed.

Section LayerInversion.
Context {T : TorchLib}.

Lemma Conv2d_forward_inv m x y cin cout k s p :
  conv_is m false cin cout k s p -> Conv2d_forward m x = Ok y ->
  dim1 (shape x) = cin /\
  k <= dim2 (shape x) + 2 * p /\ k <= dim3 (shape x) + 2 * p /\
  shape y = mkSize (dim0 (shape x)) cout
                   (conv_output_size (dim2 (shape x)) k p s)
                   (conv_output_size (dim3 (shape x)) k p s).
Proof.
  intros (_ & Hin & Hout & Hk & Hs & Hp) H. unfold Conv2d_forward in H.
  rewrite Hk, Hs, Hp, Hin, Hout in H.
  destruct (Z.eqb_spec (dim1 (shape x)) cin) as [Hc|Hc]; cbn [negb] in H; [|discriminate].
  destruct (Z.ltb_spec (dim2 (shape x) + 2 * p) k); [discriminate|].
  destruct (Z.ltb_spec (dim3 (shape x) + 2 * p) k); [discriminate|].
  cbn [orb] in H. injection H as <-. cbn [shape]. auto.
Qed.

Lemma BasicConv2d_forward_inv m x y cin cout k s p :
  basic_is m cin cout k s p -> BasicConv2d_forward m x = Ok y ->
  dim1 (shape x) = cin /\
  k <= dim2 (shape x) + 2 * p /\ k <= dim3 (shape x) + 2 * p /\
  shape y = mkSize (dim0 (shape x)) cout
                   (conv_output_size (dim2 (shape x)) k p s)
                   (conv_output_size (dim3 (shape x)) k p s).
Proof.
  intros (Hc & _ & _) H. unfold BasicConv2d_forward in H.
  inv_bind H. inv_bind H. inv_Ok H.
  destruct (Conv2d_forward_inv _ _ _ _ _ _ _ _ Hc Ha) as (H1 & H2 & H3 & H4).
  repeat split; try assumption.
  unfold BatchNorm2d_forward in Ha0.
  destruct (_ && _); [discriminate|]. destruct (negb _); [discriminate|].
  injection Ha0 as <-. cbn [relu shape]. exact H4.
Qed.

(** In training mode a [BasicConv2d] returns only what has more than one
    value per channel. *)
Lemma BasicConv2d_forward_batch m x y :
  BasicConv2d_forward m x = Ok y -> training (bn m) = true ->
  dim0 (shape y) * dim2 (shape y) * dim3 (shape y) <> 1.
Proof.
  unfold BasicConv2d_forward. intros H Htr. inv_bind H. inv_bind H. inv_Ok H.
  unfold BatchNorm2d_forward in Ha0. rewrite Htr in Ha0. cbn [andb] in Ha0.
  destruct (Z.eqb_spec (dim0 (shape a) * dim2 (shape a) * dim3 (shape a)) 1);
    [discriminate|].
  destruct (negb _); [discriminate|]. injection Ha0 as <-. cbn [relu shape]. assumption.
Qed.

Lemma MaxPool2d_forward_inv k s p x y :
  MaxPool2d_forward (mkMaxPool2d k s p true) x = Ok y ->
  1 <= pooling_output_shape (dim2 (shape x)) k p s true /\
  1 <= pooling_output_shape (dim3 (shape x)) k p s true /\
  shape y = mkSize (dim0 (shape x)) (dim1 (shape x))
                   (pooling_output_shape (dim2 (shape x)) k p s true)
                   (pooling_output_shape (dim3 (shape x)) k p s true).
Proof.
  unfold MaxPool2d_forward. cbn [pool_kernel_size pool_stride pool_padding ceil_mode].
  intros H. destruct (_ || _); [discriminate|]. destruct (_ <? _); [discriminate|].
  destruct (Z.ltb_spec (pooling_output_shape (dim2 (shape x)) k p s true) 1);
    [discriminate|].
  destruct (Z.ltb_spec (pooling_output_shape (dim3 (shape x)) k p s true) 1);
    [discriminate|].
  cbn [orb] in H. injection H as <-. cbn [shape]. auto.
Qed.

Lemma cat2_inv a b y :
  cat2 a b = Ok y ->
  shape y = mkSize (dim0 (shape a)) (dim1 (shape a) + dim1 (shape b))
                   (dim2 (shape a)) (dim3 (shape a)).
Proof. unfold cat2. intros H. destruct (_ && _); [|discriminate]. injection H as <-. reflexivity. Qed.

(** A block that returns was given its [in_channels] channels and at least
    one row and one column; it has kept the batch size, the height and the
    width, and concatenated the channels of its four branches. *)
Lemma Inception2_forward_inv m x y k5 p5 cin c1 c3r c3 c5r c5 pp :
  inception_is m k5 p5 cin c1 c3r c3 c5r c5 pp -> Inception2_forward m x = Ok y ->
  dim1 (shape x) = cin /\ 1 <= dim2 (shape x) /\ 1 <= dim3 (shape x) /\
  shape y = mkSize (dim0 (shape x)) (c1 + c3 + c5 + pp) (dim2 (shape x)) (dim3 (shape x)).
Proof.
  intros (H1 & _ & H2b & _ & H3b & _ & H4b) H.
  unfold Inception2_forward, Sequential2 in H.
  inv_bind H. rename a into y1, Ha into E1.
  inv_bind H. rename a into y2, Ha into E2.
  inv_bind H. rename a into y3, Ha into E3.
  inv_bind H. rename a into y4, Ha into E4.
  inv_bind E2. inv_bind E3. inv_bind E4.
  destruct (BasicConv2d_forward_inv _ _ _ _ _ _ _ _ H1 E1) as (Hc & Hh & Hw & S1).
  apply (BasicConv2d_forward_inv _ _ _ _ _ _ _ _ H2b) in E2 as (_ & _ & _ & S2).
  apply (BasicConv2d_forward_inv _ _ _ _ _ _ _ _ H3b) in E3 as (_ & _ & _ & S3).
  apply (BasicConv2d_forward_inv _ _ _ _ _ _ _ _ H4b) in E4 as (_ & _ & _ & S4).
  apply (f_equal dim1) in S2, S3, S4. cbn [dim1] in S2, S3, S4.
  rewrite !conv_output_size_1x1 in S1.
  unfold torch_cat in H. cbn [fold_left bind] in H.
  inv_bind H. rename a2 into z2, Ha2 into F2.
  inv_bind F2. rename a2 into z1, Ha2 into F1.
  apply cat2_inv in F1, F2, H.
  rewrite F1 in F2. cbn [dim0 dim1 dim2 dim3] in F2.
  rewrite F2 in H. cbn [dim0 dim1 dim2 dim3] in H.
  rewrite S1, S2, S3, S4 in H. cbn [dim0 dim1 dim2 dim3] in H.
  repeat split; try assumption; lia.
Qed.

Lemma select_channel_inv x c y :
  select_channel x c = Ok y ->
  0 <= c < dim1 (shape x) /\
  shape y = mkSize (dim0 (shape x)) 1 (dim2 (shape x)) (dim3 (shape x)) /\
  forall n c' yy xx, item y n c' yy xx = item x n c yy xx.
Proof.
  unfold select_channel. intros H.
  destruct (Z.leb_spec 0 c); [|discriminate].
  destruct (Z.ltb_spec c (dim1 (shape x))); [|discriminate].
  cbn [andb] in H. injection H as <-. cbn. repeat split; auto.
Qed.

Lemma _transform_input_inv x y :
  _transform_input x = Ok y ->
  3 <= dim1 (shape x) /\
  shape y = mkSize (dim0 (shape x)) 3 (dim2 (shape x)) (dim3 (shape x)).
Proof.
  intros H. assert (H3 : 3 <= dim1 (shape x)).
  { unfold _transform_input in H. do 3 inv_bind H.
    apply select_channel_inv in Ha1 as [? _]. lia. }
  split; [exact H3|].
  destruct (_transform_input_shape x H3) as (y' & E & S). congruence.
Qed.

End LayerInversion.

(** ** What a run of the encoder that returns says about its input *)

Ltac inv_basic C E S S' :=
  apply (BasicConv2d_forward_inv _ _ _ _ _ _ _ _ C) in E as (_ & _ & _ & S');
  rewrite S in S'; cbn [dim0 dim1 dim2 dim3] in S';
  rewrite ?conv_output_size_stem, ?conv_output_size_1x1, ?conv_output_size_3x3 in S'.

Ltac pool_closed H :=
  repeat rewrite pooling_3_2_ceil in H; repeat rewrite pooling_2_2_ceil in H.

Ltac inv_pool E S S' Hh Hw :=
  apply MaxPool2d_forward_inv in E as (Hh & Hw & S');
  rewrite S in Hh, Hw, S'; cbn [dim0 dim1 dim2 dim3] in Hh, Hw, S';
  pool_closed Hh; pool_closed Hw; pool_closed S'.

Ltac inv_block C E S S' :=
  apply (Inception2_forward_inv _ _ _ _ _ _ _ _ _ _ _ _ C) in E as (_ & _ & _ & S');
  rewrite S in S'; cbn [dim0 dim1 dim2 dim3] in S'.

Section EncoderInversion.
Context {T : TorchLib}.

(** The encoder returns only on inputs of at least 15 x 15 pixels, with
    exactly three channels, or at least three when the input is
    transformed first; its taps then have these shapes. *)
Lemma encoder_inv self nc x t n c h w :
  configured self nc -> shape x = mkSize n c h w -> encoder self x = Ok t ->
  (if transform_input self then 3 <= c else c = 3) /\
  15 <= h /\ 15 <= w /\
  shape (tap3b t) = mkSize n 480 (size3b h) (size3b w) /\
  shape (tap4e t) = mkSize n 832 (size4e h) (size4e w) /\
  shape (tap5b t) = mkSize n 1024 (size5b h) (size5b w) /\
  shape (tap6b t) = mkSize n 1024 (size6b h) (size6b w) /\
  shape (tap7b t) = mkSize n 1024 (size7b h) (size7b w).
Proof.
  intros C Hx H. unfold encoder, Inception_forward in H.
  inv_bind H. rename a into y0, Ha into E0.
  inv_bind H. rename a into y1, Ha into E1.
  rewrite (cfg_maxpool1 _ _ C) in H. inv_bind H. rename a into y2, Ha into E2.
  inv_bind H. rename a into y3, Ha into E3.
  inv_bind H. rename a into y4, Ha into E4.
  rewrite (cfg_maxpool2 _ _ C) in H. inv_bind H. rename a into y5, Ha into E5.
  inv_bind H. rename a into y6, Ha into E6.
  inv_bind H. rename a into i3b, Ha into E7.
  rewrite (cfg_maxpool3 _ _ C) in H. inv_bind H. rename a into y8, Ha into E8.
  inv_bind H. rename a into y9, Ha into E9.
  inv_bind H. rename a into y10, Ha into E10.
  inv_bind H. rename a into y11, Ha into E11.
  inv_bind H. rename a into y12, Ha into E12.
  inv_bind H. rename a into i4e, Ha into E13.
  rewrite (cfg_maxpool4 _ _ C) in H. inv_bind H. rename a into y14, Ha into E14.
  inv_bind H. rename a into y15, Ha into E15.
  inv_bind H. rename a into i5b, Ha into E16.
  rewrite (cfg_maxpool5 _ _ C) in H. inv_bind H. rename a into y17, Ha into E17.
  inv_bind H. rename a into y18, Ha into E18.
  inv_bind H. rename a into i6b, Ha into E19.
  rewrite (cfg_maxpool6 _ _ C) in H. inv_bind H. rename a into y20, Ha into E20.
  inv_bind H. rename a into y21, Ha into E21.
  inv_bind H. rename a into i7b, Ha into E22.
  injection H as <-. cbn [tap3b tap4e tap5b tap6b tap7b].
  assert (S0 : exists c0, shape y0 = mkSize n c0 h w /\
                          (if transform_input self then 3 <= c else c0 = c)).
  { destruct (transform_input self).
    - apply _transform_input_inv in E0 as [H3 S0]. rewrite Hx in H3, S0.
      cbn [dim0 dim1 dim2 dim3] in H3, S0. exists 3. auto.
    - injection E0 as <-. exists c. auto. }
  destruct S0 as (c0 & S0 & Hc0).
  pose proof (BasicConv2d_forward_inv _ _ _ _ _ _ _ _ (cfg_conv1 _ _ C) E1) as (Hc1 & _).
  rewrite S0 in Hc1. cbn [dim1] in Hc1.
  inv_basic (cfg_conv1 _ _ C) E1 S0 S1.
  inv_pool E2 S1 S2 Hh2 Hw2.
  inv_basic (cfg_conv2 _ _ C) E3 S2 S3.
  inv_basic (cfg_conv3 _ _ C) E4 S3 S4.
  inv_pool E5 S4 S5 Hh5 Hw5.
  inv_block (cfg_inception3a _ _ C) E6 S5 S6.
  inv_block (cfg_inception3b _ _ C) E7 S6 S7.
  inv_pool E8 S7 S8 Hh8 Hw8.
  inv_block (cfg_inception4a _ _ C) E9 S8 S9.
  inv_block (cfg_inception4b _ _ C) E10 S9 S10.
  inv_block (cfg_inception4c _ _ C) E11 S10 S11.
  inv_block (cfg_inception4d _ _ C) E12 S11 S12.
  inv_block (cfg_inception4e _ _ C) E13 S12 S13.
  inv_pool E14 S13 S14 Hh14 Hw14.
  inv_block (cfg_inception5a _ _ C) E15 S14 S15.
  inv_block (cfg_inception5b _ _ C) E16 S15 S16.
  inv_pool E17 S16 S17 Hh17 Hw17.
  inv_block (cfg_inception6a _ _ C) E18 S17 S18.
  inv_block (cfg_inception6b _ _ C) E19 S18 S19.
  inv_pool E20 S19 S20 Hh20 Hw20.
  inv_block (cfg_inception7a _ _ C) E21 S20 S21.
  inv_block (cfg_inception7b _ _ C) E22 S21 S22.
  apply tap4e_rows_inv in Hh8, Hw8.
  split; [destruct (transform_input self); [exact Hc0 | congruence]|].
  split; [exact Hh8|]. split; [exact Hw8|].
  rewrite !size3b_closed, !size4e_closed, !size5b_closed, !size6b_closed, !size7b_closed.
  rewrite S7, S13, S16, S19, S22. repeat split; reflexivity.
Qed.

End EncoderInversion.

(** ** [_transform_input] *)

(** X1: [_transform_input] turns an image that was normalised with the ImageNet
    mean and standard deviation of each channel into the same image
    normalised with mean 0.5 and standard deviation 0.5: where the input
    holds [(p - mean) / std] the output holds [(p - 0.5) / 0.5]. *)
Theorem _transform_input_renormalises (x y : tensor) (n c yy xx : Z) (mean std p : Q) :
  _transform_input x = Ok y ->
  In (c, mean, std) imagenet_statistics ->
  (item x n c yy xx == (p - mean) / std)%Q ->
  (item y n c yy xx == (p - (1 # 2)) / (1 # 2))%Q.
Proof.
  intros H Hc Hx. unfold _transform_input in H. do 3 inv_bind H.
  apply select_channel_inv in Ha as (_ & S0 & I0).
  apply select_channel_inv in Ha0 as (_ & S1 & I1).
  apply select_channel_inv in Ha1 as (_ & S2 & I2).
  unfold torch_cat in H. cbn [fold_left bind] in H. inv_bind H.
  unfold cat2 in Ha, H. destruct (_ && _) in Ha; [|discriminate]. injection Ha as <-.
  cbn [shape affine dim0 dim1 dim2 dim3] in H.
  destruct (_ && _) in H; [|discriminate]. injection H as <-.
  cbn [item shape affine dim1]. rewrite S0, S1. cbn [dim1].
  unfold imagenet_statistics in Hc. cbn [In] in Hc.
  destruct Hc as [Hc|[Hc|[Hc|[]]]]; injection Hc as <- <- <-.
  all: repeat match goal with
              | |- context [if ?b then _ else _] =>
                  let v := eval vm_compute in b in change b with v; cbv iota
              end.
  all: rewrite ?I0, ?I1, ?I2, Hx; field.
Qed.

Lemma _transform_input_renormalises_witness :
  exists y, _transform_input (image 1 2 2 ((1 - (485 # 1000)) / (229 # 1000))) = Ok y /\
            (item y 0 0 1 1 == 1)%Q.
Proof.
  eexists. split; [reflexivity|].
  rewrite (_transform_input_renormalises
             (image 1 2 2 ((1 - (485 # 1000)) / (229 # 1000))) _ 0 0 1 1
             (485 # 1000) (229 # 1000) 1 eq_refl).
  - reflexivity.
  - left. reflexivity.
  - reflexivity.
Defined.

(** X2: [_transform_input] raises [IndexError] exactly on inputs with fewer
    than three channels; on every other input it returns a tensor of
    exactly three channels with the batch size, height and width of the
    input. *)
Theorem _transform_input_channels (x : tensor) :
  (_transform_input x = Raise (IndexError "index out of range for dimension 1")
   <-> dim1 (shape x) < 3) /\
  (succeeds (_transform_input x) <-> 3 <= dim1 (shape x)) /\
  (forall y, _transform_input x = Ok y ->
     shape y = mkSize (dim0 (shape x)) 3 (dim2 (shape x)) (dim3 (shape x))).
Proof.
  assert (Hlow : dim1 (shape x) < 3 ->
                 _transform_input x = Raise (IndexError "index out of range for dimension 1")).
  { intros H. unfold _transform_input, select_channel.
    destruct (Z.ltb_spec 0 (dim1 (shape x))); cbn; [|reflexivity].
    destruct (Z.ltb_spec 1 (dim1 (shape x))); cbn; [|reflexivity].
    destruct (Z.ltb_spec 2 (dim1 (shape x))); cbn; [lia|reflexivity]. }
  split; [|split].
  - split; [|exact Hlow]. intros H.
    destruct (Z.lt_ge_cases (dim1 (shape x)) 3) as [|H3]; [assumption|].
    destruct (_transform_input_shape x H3) as (y & E & _). congruence.
  - split.
    + intros [y E]. apply _transform_input_inv in E. apply E.
    + intros H3. destruct (_transform_input_shape x H3) as (y & E & _). exists y. exact E.
  - intros y E. apply _transform_input_inv in E. apply E.
Qed.

(** X3: [_transform_input] reads the first three channels only: two inputs of
    the same batch size, height and width that agree on channels 0, 1 and 2
    give the same result, however many further channels each has. *)
Theorem _transform_input_first_three (x x' y : tensor) :
  dim0 (shape x') = dim0 (shape x) -> dim2 (shape x') = dim2 (shape x) ->
  dim3 (shape x') = dim3 (shape x) -> 3 <= dim1 (shape x') ->
  (forall n c yy xx, 0 <= c < 3 -> item x' n c yy xx = item x n c yy xx) ->
  _transform_input x = Ok y ->
  exists y', _transform_input x' = Ok y' /\ tensor_same y' y.
Proof.
  intros H0 H2 H3 Hc Hag H.
  destruct (_transform_input_shape x' Hc) as (y' & E' & S').
  exists y'. split; [exact E'|].
  pose proof (_transform_input_inv x y H) as [_ S].
  split; [rewrite S, S', H0, H2, H3; reflexivity|].
  intros n c yy xx _.
  unfold _transform_input in H, E'. do 3 inv_bind H. do 3 inv_bind E'.
  apply select_channel_inv in Ha as (_ & S0 & I0).
  apply select_channel_inv in Ha0 as (_ & S1 & I1).
  apply select_channel_inv in Ha1 as (_ & S2 & I2).
  apply select_channel_inv in Ha2 as (_ & S0' & I0').
  apply select_channel_inv in Ha3 as (_ & S1' & I1').
  apply select_channel_inv in Ha4 as (_ & S2' & I2').
  unfold torch_cat in H, E'. cbn [fold_left bind] in H, E'. inv_bind H. inv_bind E'.
  unfold cat2 in Ha, H, Ha0, E'.
  destruct (_ && _) in Ha; [|discriminate]. injection Ha as <-.
  destruct (_ && _) in Ha0; [|discriminate]. injection Ha0 as <-.
  cbn [shape affine dim0 dim1 dim2 dim3] in H, E'.
  destruct (_ && _) in H; [|discriminate]. injection H as <-.
  destruct (_ && _) in E'; [|discriminate]. injection E' as <-.
  cbn [item shape affine dim1]. rewrite S0, S1, S0', S1'. cbn [dim1].
  rewrite I0, I1, I2, I0', I1', I2', !Hag by lia. reflexivity.
Qed.

Lemma _transform_input_first_three_witness :
  exists y y', _transform_input (full (mkSize 1 3 2 2) 1) = Ok y /\
               _transform_input (full (mkSize 1 4 2 2) 1) = Ok y' /\
               tensor_same y' y.
Proof.
  destruct (_transform_input_shape (full (mkSize 1 3 2 2) 1)) as (y & E & _); [cbn; lia|].
  exists y.
  destruct (_transform_input_first_three
              (full (mkSize 1 3 2 2) 1) (full (mkSize 1 4 2 2) 1) y) as (y' & E' & S);
    [reflexivity | reflexivity | reflexivity | cbn; lia | intros; reflexivity | exact E |].
  exists y'. split; [exact E|]. split; assumption.
Defined.

(** ** The input contract of [forward] *)

Section ForwardContract.
Context {T : TorchLib}.

Lemma dense_path_size_dims s3 s4 s5 s6 up up2 up4 up8 (size size' : torch_Size) t :
  dim2 size' = dim2 size -> dim3 size' = dim3 size ->
  dense_path s3 s4 s5 s6 up up2 up4 up8 size' t
  = dense_path s3 s4 s5 s6 up up2 up4 up8 size t.
Proof. intros H2 H3. unfold dense_path. rewrite H2, H3. reflexivity. Qed.

Lemma encoder_transform_input self x :
  encoder self x =
  (let* y := (if transform_input self then _transform_input x else Ok x) in
   encoder (set_transform_input self false) y).
Proof.
  unfold encoder, set_transform_input.
  cbn [bind transform_input conv1 conv2 conv3 maxpool1 maxpool2 maxpool3
    maxpool4 maxpool5 maxpool6 inception3a inception3b inception4a inception4b
    inception4c inception4d inception4e inception5a inception5b inception6a
    inception6b inception7a inception7b].
  reflexivity.
Qed.

(** X4: a network with [transform_input] set computes what the same network
    without it computes on the transformed input; the final crop, which
    reads the height and width of the original input, is the same because
    the transformation keeps them. *)
Theorem forward_transform_input (self : Box2Pix) (x : tensor) :
  transform_input self = true ->
  forward self x =
  (let* y := _transform_input x in forward (set_transform_input self false) y).
Proof.
  intros Hti. destruct (_transform_input x) as [y|e] eqn:E; cbn [bind].
  - rewrite !forward_stages. unfold staged_forward.
    rewrite (encoder_transform_input self x), Hti, E. cbn [bind].
    apply _transform_input_inv in E as [_ S].
    destruct (encoder _ y) as [t|]; cbn [bind]; [|reflexivity].
    unfold semantics_path, offsets_path, set_transform_input.
    cbn [multibox sem_score3b sem_score4e sem_score5b sem_score6b sem_upscore
      sem_upscore2 sem_upscore4 sem_upscore8 offs_score3b offs_score4e offs_score5b
      offs_score6b offs_upscore offs_upscore2 offs_upscore4 offs_upscore8].
    rewrite !(dense_path_size_dims _ _ _ _ _ _ _ _ (shape x) (shape y))
      by (rewrite S; reflexivity).
    reflexivity.
  - rewrite forward_stages. unfold staged_forward.
    rewrite (encoder_transform_input self x), Hti, E. reflexivity.
Qed.

(** X5: [forward] of a network that has the constructor's architecture,
    whatever its parameters hold, returns only on inputs of at least 15
    rows and 15 columns that have exactly three channels (at least three
    when [transform_input] is set): on every other input it raises. *)
Theorem forward_input_contract self nc x :
  configured self nc -> succeeds (forward self x) ->
  (if transform_input self then 3 <= dim1 (shape x) else dim1 (shape x) = 3) /\
  15 <= dim2 (shape x) /\ 15 <= dim3 (shape x).
Proof.
  intros C [r F].
  rewrite forward_stages in F. unfold staged_forward in F. inv_bind F.
  destruct (shape x) as [n c h w] eqn:Hx. cbn [dim1 dim2 dim3].
  destruct (encoder_inv self nc x a n c h w C Hx Ha) as (Hc & Hh & Hw & _). auto.
Qed.

(** X6: on every (n, 3, h, w) input with h, w >= 15 and n >= 2 or h >= 143
    or w >= 143 (so that batch normalisation has more than one value per
    channel at the deepest stage) [forward] reaches the detection head,
    hands it four feature maps of 832, 1024, 1024 and 1024 channels whose
    heights and widths are those of the input at stride 16, halved
    (rounding up) from one map to the next, and raises only if the head
    does; this holds whatever the parameters hold. *)
Theorem forward_feature_maps self nc x n h w :
  configured self nc ->
  shape x = mkSize n 3 h w -> 15 <= h -> 15 <= w ->
  2 <= n \/ 143 <= h \/ 143 <= w ->
  exists fm sem offs,
    map shape fm =
      [mkSize n 832 ((h + 1) / 16) ((w + 1) / 16);
       mkSize n 1024 (((h + 1) / 16 + 1) / 2) (((w + 1) / 16 + 1) / 2);
       mkSize n 1024 (((h + 1) / 16 + 3) / 4) (((w + 1) / 16 + 3) / 4);
       mkSize n 1024 (((h + 1) / 16 + 7) / 8) (((w + 1) / 16 + 7) / 8)] /\
    forward self x =
      (let* (loc_preds, conf_preds) := MultiBox_forward (multibox self) fm in
       Ok (loc_preds, conf_preds, sem, offs)).
Proof.
  intros C Hx Hh Hw Hbn.
  destruct (forward_spec self nc x n h w C Hx Hh Hw
              (more_than_one_value_deepest n h w Hh Hw Hbn))
    as (t & sem & offs & _ & Hfm & _ & _ & _ & _ & F).
  exists (feature_maps t), sem, offs. split; [|exact F].
  rewrite Hfm. unfold head_input_shapes.
  rewrite !size7b_closed, !size6b_closed, !size5b_closed, !size4e_closed.
  rewrite !rows_div_16, !ceil_half_twice, !ceil_half_thrice. reflexivity.
Qed.

(** X7: whenever [forward] returns on a three-channel input of [h] rows
    and [w] columns, semantics and offsets have
    [min h (8 * ((h + 1) / 8) + 4)] rows and as many columns by the same
    formula, never more than the input and never fewer than two less,
    with [num_classes] and 2 channels; the values of the parameters play no
    part in it. *)
Theorem forward_output_size self nc x n h w loc conf sem offs :
  configured self nc ->
  shape x = mkSize n 3 h w ->
  forward self x = Ok (loc, conf, sem, offs) ->
  shape sem = mkSize n nc (Z.min h (8 * ((h + 1) / 8) + 4))
                          (Z.min w (8 * ((w + 1) / 8) + 4)) /\
  shape offs = mkSize n 2 (Z.min h (8 * ((h + 1) / 8) + 4))
                          (Z.min w (8 * ((w + 1) / 8) + 4)) /\
  h - 2 <= dim2 (shape sem) <= h /\ w - 2 <= dim3 (shape sem) <= w.
Proof.
  intros C Hx F.
  assert (Et : exists t, encoder self x = Ok t).
  { pose proof F as F0. rewrite forward_stages in F0. unfold staged_forward in F0.
    inv_bind F0. eauto. }
  destruct Et as [t Et].
  destruct (encoder_inv self nc x t n 3 h w C Hx Et)
    as (_ & Hh & Hw & T3 & T4 & T5 & T6 & T7).
  destruct (forward_dense_spec self nc x n h w t C Hx Hh Hw Et T3 T4 T5 T6 T7)
    as (sem' & offs' & _ & _ & _ & Ss & So & F').
  rewrite F' in F. destruct (MultiBox_forward _ _) as [[l c]|]; [|discriminate].
  cbn [bind] in F. injection F as _ _ <- <-.
  rewrite !dense_output_size_min, !size3b_closed, !rows_div_8 in Ss, So by lia.
  split; [exact Ss|]. split; [exact So|].
  rewrite Ss. cbn [dim2 dim3]. split; apply dense_rows_bounds; assumption.
Qed.

End ForwardContract.

Lemma forward_transform_input_witness :
  exists self,
    @Box2Pix_init plain_lib 11 false = Ok self /\
    @forward plain_lib (set_transform_input self true) (image 2 64 64 0) =
    (let* y := _transform_input (image 2 64 64 0) in
     @forward plain_lib (set_transform_input (set_transform_input self true) false) y).
Proof.
  destruct plain_init_11 as [self E]. exists self. split; [exact E|].
  apply (@forward_transform_input plain_lib (set_transform_input self true)
           (image 2 64 64 0)).
  reflexivity.
Defined.

Lemma forward_input_contract_witness :
  exists self,
    (item (weight (sem_score6b self)) 0 0 0 0 == 1)%Q /\
    succeeds (@forward plain_lib self (image 2 15 15 0)) /\
    dim1 (shape (image 2 15 15 0)) = 3 /\
    15 <= dim2 (shape (image 2 15 15 0)) /\ 15 <= dim3 (shape (image 2 15 15 0)).
Proof.
  destruct plain_trained as (self & C & Hti & W). exists self.
  destruct (@forward_returns plain_lib self 11 (image 2 15 15 0) 2 15 15 C)
    as (t & loc & conf & sem & offs & _ & F & _);
    [reflexivity | lia | lia | left; lia | apply plain_head_accepts |].
  assert (S : succeeds (@forward plain_lib self (image 2 15 15 0))).
  { rewrite F. eexists. reflexivity. }
  split; [exact W|]. split; [exact S|].
  pose proof (@forward_input_contract plain_lib self 11 (image 2 15 15 0) C S) as R.
  rewrite Hti in R. exact R.
Defined.

Lemma forward_feature_maps_witness :
  exists self fm sem offs,
    (item (weight (sem_score6b self)) 0 0 0 0 == 1)%Q /\
    map shape fm = [mkSize 2 832 4 8; mkSize 2 1024 2 4; mkSize 2 1024 1 2; mkSize 2 1024 1 1] /\
    @forward plain_lib self (image 2 64 128 0) =
      (let* (loc_preds, conf_preds) := @MultiBox_forward plain_lib (multibox self) fm in
       Ok (loc_preds, conf_preds, sem, offs)).
Proof.
  destruct plain_trained as (self & C & _ & W). exists self.
  destruct (@forward_feature_maps plain_lib self 11 (image 2 64 128 0) 2 64 128 C)
    as (fm & sem & offs & Hfm & F); [reflexivity | lia | lia | left; lia |].
  exists fm, sem, offs. split; [exact W|]. split; [exact Hfm|exact F].
Defined.

Lemma forward_output_size_witness :
  exists self loc conf sem offs,
    (item (weight (sem_score6b self)) 0 0 0 0 == 1)%Q /\
    @forward plain_lib self (image 2 70 77 0) = Ok (loc, conf, sem, offs) /\
    shape sem = mkSize 2 11 68 76 /\ shape offs = mkSize 2 2 68 76.
Proof.
  destruct plain_trained as (self & C & _ & W). exists self.
  destruct (@forward_returns plain_lib self 11 (image 2 70 77 0) 2 70 77 C)
    as (t & loc & conf & sem & offs & _ & F & _);
    [reflexivity | lia | lia | left; lia | apply plain_head_accepts |].
  exists loc, conf, sem, offs. split; [exact W|]. split; [exact F|].
  destruct (@forward_output_size plain_lib self 11 (image 2 70 77 0) 2 70 77
              loc conf sem offs C eq_refl F) as (Ss & So & _).
  split; [exact Ss|exact So].
Defined.

(** ** [Inception2] *)

Section Inception2Block.
Context {T : TorchLib}.

Lemma BasicConv2d_new_training cin cout k s p m :
  BasicConv2d_new cin cout k s p = Ok m -> training (bn m) = true.
Proof.
  unfold BasicConv2d_new, BatchNorm2d_new. intros H. inv_bind H. inv_bind H. inv_Ok H.
  destruct (cout <? 0); [discriminate|]. injection Ha0 as <-. reflexivity.
Qed.

Lemma inception_branches_training k5 p5 cin c1 c3r c3 c5r c5 pp m :
  inception_branches k5 p5 cin c1 c3r c3 c5r c5 pp = Ok m ->
  training (bn (branch1 m)) = true.
Proof.
  unfold inception_branches. intros H. do 6 inv_bind H. inv_Ok H. cbn [branch1].
  eapply BasicConv2d_new_training. eassumption.
Qed.

Lemma Inception2_forward_channels m x y k5 p5 cin c1 c3r c3 c5r c5 pp :
  inception_is m k5 p5 cin c1 c3r c3 c5r c5 pp -> Inception2_forward m x = Ok y ->
  dim1 (shape x) <> 0.
Proof.
  intros (_ & _ & _ & _ & _ & H4 & _) H. unfold Inception2_forward in H. do 4 inv_bind H.
  unfold Sequential2 in Ha2. inv_bind Ha2. rewrite H4 in Ha3.
  unfold MaxPool2d_forward in Ha3.
  destruct (Z.eqb_spec (dim1 (shape x)) 0); [discriminate|assumption].
Qed.

Lemma Inception2_forward_batch m x y k5 p5 cin c1 c3r c3 c5r c5 pp :
  inception_is m k5 p5 cin c1 c3r c3 c5r c5 pp -> training (bn (branch1 m)) = true ->
  Inception2_forward m x = Ok y ->
  dim0 (shape x) * dim2 (shape x) * dim3 (shape x) <> 1.
Proof.
  intros (H1 & _) Htr H. unfold Inception2_forward in H. inv_bind H.
  pose proof (BasicConv2d_forward_batch _ _ _ Ha Htr) as Hb.
  apply (BasicConv2d_forward_inv _ _ _ _ _ _ _ _ H1) in Ha as (_ & _ & _ & S1).
  rewrite S1 in Hb. cbn [dim0 dim2 dim3] in Hb. rewrite !conv_output_size_1x1 in Hb.
  exact Hb.
Qed.

(** X8: a block as [Inception2(in_channels, ch1x1, ch3x3red, ch3x3,
    ch5x5red, ch5x5, pool_proj)] builds it, in training mode, returns
    exactly on the inputs that have [in_channels] channels (not zero), at
    least one row and one column, and more than one value per channel
    (batch size times height times width is not 1); what it returns has the
    batch size, height and width of the input and
    [ch1x1 + ch3x3 + ch5x5 + pool_proj] channels. *)
Theorem Inception2_forward_returns_iff cin c1 c3r c3 c5r c5 pp (m : InceptionBlock)
    (x : tensor) :
  Inception2_new cin c1 c3r c3 c5r c5 pp = Ok m ->
  (succeeds (Inception2_forward m x) <->
   dim1 (shape x) = cin /\ cin <> 0 /\ 1 <= dim2 (shape x) /\ 1 <= dim3 (shape x) /\
   dim0 (shape x) * dim2 (shape x) * dim3 (shape x) <> 1) /\
  (forall y, Inception2_forward m x = Ok y ->
     shape y = mkSize (dim0 (shape x)) (c1 + c3 + c5 + pp)
                      (dim2 (shape x)) (dim3 (shape x))).
Proof.
  intros Hnew. pose proof (inception_branches_training _ _ _ _ _ _ _ _ _ _ Hnew) as Htr.
  apply inception_branches_is in Hnew.
  split; [split|].
  - intros [y E].
    pose proof (Inception2_forward_channels _ _ _ _ _ _ _ _ _ _ _ _ Hnew E) as Hnz.
    pose proof (Inception2_forward_batch _ _ _ _ _ _ _ _ _ _ _ _ Hnew Htr E) as Hb.
    destruct (Inception2_forward_inv _ _ _ _ _ _ _ _ _ _ _ _ Hnew E) as (Hc & Hh & Hw & _).
    repeat split; try assumption. congruence.
  - intros (Hc & Hnz & Hh & Hw & Hb).
    destruct (Inception2_forward_shape m x _ _ _ _ _ _ _ _ _ Hnew eq_refl) as (y & E & _);
      try assumption; [lia|]. exists y. exact E.
  - intros y E. apply (Inception2_forward_inv _ _ _ _ _ _ _ _ _ _ _ _ Hnew E).
Qed.

End Inception2Block.

Lemma Inception2_forward_returns_iff_witness :
  exists m y,
    @Inception2_new plain_lib 4 1 2 3 1 5 2 = Ok m /\
    @Inception2_forward plain_lib m (full (mkSize 2 4 3 5) 1) = Ok y /\
    shape y = mkSize 2 11 3 5 /\
    ~ succeeds (@Inception2_forward plain_lib m (full (mkSize 1 4 1 1) 1)).
Proof.
  destruct (@Inception2_new plain_lib 4 1 2 3 1 5 2) as [m|e] eqn:E;
    [|vm_compute in E; discriminate].
  exists m.
  destruct (@Inception2_forward_returns_iff plain_lib 4 1 2 3 1 5 2 m
              (full (mkSize 2 4 3 5) 1) E) as [[_ Hret] Hshape].
  destruct Hret as [y F]; [cbn; lia|].
  exists y. split; [reflexivity|]. split; [exact F|]. split; [exact (Hshape y F)|].
  intros S.
  apply (proj1 (@Inception2_forward_returns_iff plain_lib 4 1 2 3 1 5 2 m
                  (full (mkSize 1 4 1 1) 1) E)) in S.
  cbn in S. lia.
Defined.

(** ** The factory and its keyword arguments *)

Section FactoryKeywords.
Context {T : TorchLib}.

(** X9: the network that [box2pix] returns with [pretrained=False] has
    the [transform_input] that was passed as a keyword argument, and
    [False] when none was passed. *)
Theorem box2pix_transform_input (num_classes : Z) (kwargs : gmap string bool)
    (model : Box2Pix) :
  box2pix num_classes false kwargs = Ok model ->
  transform_input model = default false (kwargs !! "transform_input").
Proof.
  unfold box2pix, Box2Pix_call. intros H.
  destruct (decide (dom kwargs ⊆ _)) as [Hs|]; [|discriminate].
  apply Box2Pix_init_constructed in H. apply H.
Qed.

(** X10: a keyword argument other than [transform_input] makes [box2pix] raise
    [TypeError], with [pretrained] set or not: the error comes from the
    call of the constructor, before any checkpoint is looked for. *)
Theorem box2pix_unexpected_keyword (num_classes : Z) (pretrained : bool)
    (kwargs : gmap string bool) (k : string) :
  k ∈ dom kwargs -> k <> "transform_input" ->
  box2pix num_classes pretrained kwargs
  = Raise (TypeError "__init__() got an unexpected keyword argument").
Proof.
  intros Hk Hne. unfold box2pix, Box2Pix_call. destruct pretrained.
  - destruct (decide ("transform_input" ∉ dom kwargs)).
    + destruct (decide (dom (<["transform_input" := true]> kwargs) ⊆ _)) as [Hs|];
        [|reflexivity].
      exfalso. rewrite dom_insert_L in Hs. set_solver.
    + destruct (decide (dom kwargs ⊆ _)) as [Hs|]; [|reflexivity].
      exfalso. set_solver.
  - destruct (decide (dom kwargs ⊆ _)) as [Hs|]; [|reflexivity].
    exfalso. set_solver.
Qed.

End FactoryKeywords.

Lemma box2pix_transform_input_witness :
  (exists model,
     @box2pix plain_lib 11 false {["transform_input" := true]} = Ok model /\
     transform_input model = true) /\
  (exists model,
     @box2pix plain_lib 11 false ∅ = Ok model /\ transform_input model = false).
Proof.
  split.
  - destruct (@Box2Pix_init plain_lib 11 true) as [self|e] eqn:E;
      [|vm_compute in E; discriminate].
    exists self.
    assert (F : @box2pix plain_lib 11 false {["transform_input" := true]} = Ok self).
    { unfold box2pix, Box2Pix_call.
      rewrite decide_True by (rewrite dom_singleton_L; reflexivity).
      rewrite lookup_singleton. exact E. }
    split; [exact F|].
    rewrite (@box2pix_transform_input plain_lib 11 {["transform_input" := true]} self F).
    rewrite lookup_singleton. reflexivity.
  - destruct plain_init_11 as [self E]. exists self.
    assert (F : @box2pix plain_lib 11 false ∅ = Ok self) by exact E.
    split; [exact F|].
    exact (@box2pix_transform_input plain_lib 11 ∅ self F).
Defined.

Lemma box2pix_unexpected_keyword_witness :
  @box2pix plain_lib 11 true {["aux_logits" := true]}
  = Raise (TypeError "__init__() got an unexpected keyword argument").
Proof.
  apply (@box2pix_unexpected_keyword plain_lib 11 true {["aux_logits" := true]} "aux_logits").
  - rewrite dom_singleton_L. apply elem_of_singleton. reflexivity.
  - discriminate.
Defined.

(** ** What [_initialize_weights] changes *)

Lemma mapM_map {A B C : Type} (f : A -> result B) (g : A -> C) (g' : B -> C)
    (l : list A) (r : list B) :
  (forall a b, f a = Ok b -> g' b = g a) -> mapM f l = Ok r -> map g' r = map g l.
Proof.
  intros Hf. revert r. induction l as [|a l IH]; intros r H; cbn in H.
  - injection H as <-. reflexivity.
  - destruct (f a) as [b|] eqn:Ea; [|discriminate]. cbn in H.
    destruct (mapM f l) as [bs|]; [|discriminate]. injection H as <-.
    cbn. rewrite (Hf a b Ea), (IH bs eq_refl). reflexivity.
Qed.

Section Initialiser.
Context {T : TorchLib}.

Lemma initialize_module_config nc m m' :
  initialize_module nc m = Ok m' -> config m' = config m.
Proof.
  destruct m as [c|b|p]; cbn [initialize_module]; intros H.
  - inv_bind H. injection H as <-. unfold initialize_conv in Ha.
    destruct (negb (transposed c)).
    + destruct (_ && _).
      * destruct (bias c) eqn:Eb; [|discriminate]. injection Ha as <-.
        cbn. rewrite Eb. reflexivity.
      * inv_bind Ha. injection Ha as <-. unfold xavier_uniform_ in Ha0.
        inv_bind Ha0. injection Ha0 as <-. reflexivity.
    + inv_bind Ha. injection Ha as <-. unfold copy_ in Ha0.
      destruct (_ && _); [|discriminate]. injection Ha0 as <-. reflexivity.
  - injection H as <-. reflexivity.
  - injection H as <-. reflexivity.
Qed.

(** X11: [_initialize_weights] changes parameter values and nothing else: the
    network it returns has the same [transform_input] and, module by
    module in registration order, the same hyper-parameters, weight shapes
    and presence of a bias as the network it was given. *)
Theorem _initialize_weights_keeps_configuration (self self' : Box2Pix) (num_classes : Z) :
  _initialize_weights self num_classes = Ok self' ->
  transform_input self' = transform_input self /\
  map config (modules self') = map config (modules self).
Proof.
  intros H. split.
  - unfold _initialize_weights in H. do 33 inv_bind H. injection H as <-. reflexivity.
  - apply _initialize_weights_loop in H.
    exact (mapM_map _ config config _ _ (initialize_module_config num_classes) H).
Qed.

(** X12: after construction every [nn.BatchNorm2d] of the network, those of the
    detection head included, has weight 1 and bias 0. *)
Theorem Box2Pix_init_batch_norm nc ti self (b : BatchNorm2d) :
  Box2Pix_init nc ti = Ok self ->
  In (MBatchNorm2d b) (modules self) ->
  forall i, bn_weight b i = 1%Q /\ bn_bias b i = 0%Q.
Proof.
  unfold Box2Pix_init. intros H Hin i. do 33 inv_bind H.
  apply _initialize_weights_loop in H.
  destruct (mapM_In _ _ _ _ H Hin) as (m0 & _ & E).
  destruct m0 as [c0|b0|p0]; cbn in E.
  - inv_bind E. discriminate.
  - injection E as <-. split; reflexivity.
  - discriminate.
Qed.

(** X13: construction raises for each of the thirteen class counts that are the
    width of a bias-free 1x1 convolution of the backbone, whatever the
    library does. *)
Theorem Box2Pix_init_backbone_width nc ti :
  In nc backbone_1x1_widths -> raises (Box2Pix_init nc ti).
Proof.
  intros Hin. destruct (Box2Pix_init nc ti) as [self|e] eqn:E.
  - exfalso. exact (Box2Pix_init_width nc ti self E Hin).
  - exists e. reflexivity.
Qed.

End Initialiser.

Lemma _initialize_weights_keeps_configuration_witness :
  exists self self',
    @Box2Pix_init plain_lib 11 true = Ok self /\
    @_initialize_weights plain_lib self 11 = Ok self' /\
    transform_input self' = transform_input self /\
    map config (modules self') = map config (modules self).
Proof.
  destruct (let* self := @Box2Pix_init plain_lib 11 true in
            @_initialize_weights plain_lib self 11) as [self'|e] eqn:E;
    [|vm_compute in E; discriminate].
  apply bind_Ok_inv in E as (self & E1 & E2).
  exists self, self'. split; [exact E1|]. split; [exact E2|].
  exact (@_initialize_weights_keeps_configuration plain_lib self self' 11 E2).
Defined.

Lemma Box2Pix_init_batch_norm_witness :
  exists self,
    @Box2Pix_init plain_lib 11 false = Ok self /\
    forall i, bn_weight (bn (conv1 self)) i = 1%Q /\ bn_bias (bn (conv1 self)) i = 0%Q.
Proof.
  destruct plain_init_11 as [self E]. exists self. split; [exact E|].
  apply (@Box2Pix_init_batch_norm plain_lib 11 false self (bn (conv1 self)) E).
  unfold modules, BasicConv2d_modules. cbn [app]. right. left. reflexivity.
Defined.

Lemma Box2Pix_init_backbone_width_witness : raises (@Box2Pix_init plain_lib 24 true).
Proof.
  apply (@Box2Pix_init_backbone_width plain_lib 24 true).
  unfold backbone_1x1_widths. cbn [In]. right. left. reflexivity.
Defined.

(** ** In-place additions and the functional reading of [forward] *)

Section InPlace.
Context {T : TorchLib}.

(** X14: run on tensor objects, with every [+=] writing through the crop
    into the storage of the upsampled map, [forward] raises what its
    functional reading raises and otherwise returns the same head outputs
    and dense outputs of the same shape and entries, whatever the
    parameters hold; every tensor object that existed before the call is
    left as it was. *)
Theorem forward_in_place_refines self nc (x : view) (xv : tensor) (h : heap) :
  configured self nc ->
  read h x = Some xv ->
  match forward self xv with
  | Ok (loc, conf, sem, offs) =>
      exists semv offsv h' s o,
        forward_st self x h = Ok ((loc, conf, semv, offsv), h') /\
        h `prefix_of` h' /\
        read h' semv = Some s /\ tensor_same s sem /\
        read h' offsv = Some o /\ tensor_same o offs
  | Raise e => forward_st self x h = Raise e
  end.
Proof.
  intros C Rx.
  pose proof (forward_st_sim self nc x xv h C Rx) as S. unfold sim in S.
  destruct (forward self xv) as [[[[loc conf] sem] offs]|e]; [|exact S].
  destruct S as ([[[loc' conf'] semv] offsv] & h' & E & P & El & Ec
                 & (s & Rs & Ss) & (o & Ro & So)).
  cbn [fst snd] in *. subst loc' conf'.
  exists semv, offsv, h', s, o. auto 10.
Qed.

End InPlace.

Lemma forward_in_place_refines_witness :
  exists self loc conf sem offs semv offsv h' s,
    (item (weight (sem_score6b self)) 0 0 0 0 == 1)%Q /\
    @forward plain_lib self (image 2 64 64 (1 # 2)) = Ok (loc, conf, sem, offs) /\
    @forward_st plain_lib self (mkView 0 None) [image 2 64 64 (1 # 2)]
    = Ok ((loc, conf, semv, offsv), h') /\
    [image 2 64 64 (1 # 2)] `prefix_of` h' /\
    read h' semv = Some s /\ tensor_same s sem.
Proof.
  destruct plain_trained as (self & C & _ & W). exists self.
  destruct (@forward_returns plain_lib self 11 (image 2 64 64 (1 # 2)) 2 64 64 C)
    as (t & loc & conf & sem & offs & _ & F & _);
    [reflexivity | lia | lia | left; lia | apply plain_head_accepts |].
  pose proof (@forward_in_place_refines plain_lib self 11 (mkView 0 None)
                (image 2 64 64 (1 # 2)) [image 2 64 64 (1 # 2)] C eq_refl) as R.
  rewrite F in R. destruct R as (semv & offsv & h' & s & o & Fs & P & Rs & Ss & _).
  exists loc, conf, sem, offs, semv, offsv, h', s.
  split; [exact W|]. split; [exact F|]. auto 10.
Defined.

(** ** Values of a block and zeroed projections *)

Lemma cat2_nonnegative a b y :
  cat2 a b = Ok y -> nonnegative a -> nonnegative b -> nonnegative y.
Proof.
  unfold cat2. intros H Ha Hb. destruct (_ && _); [|discriminate]. injection H as <-.
  intros n c yy xx. cbn [item]. destruct (c <? dim1 (shape a)); [apply Ha|apply Hb].
Qed.

Section BlockValues.
Context {T : TorchLib}.

Lemma BasicConv2d_forward_nonnegative m x y :
  BasicConv2d_forward m x = Ok y -> nonnegative y.
Proof.
  unfold BasicConv2d_forward. intros H. do 2 inv_bind H. injection H as <-.
  intros n c yy xx. cbn [relu item]. apply Q.le_max_l.
Qed.

(** X15: no entry of what an [Inception2] block returns is negative: each
    of the four concatenated branches ends in a [BasicConv2d], whose last
    step is a ReLU. *)
Theorem Inception2_forward_nonneg (m : InceptionBlock) (x y : tensor) (n c yy xx : Z) :
  Inception2_forward m x = Ok y -> (0 <= item y n c yy xx)%Q.
Proof.
  unfold Inception2_forward, Sequential2. intros H. do 4 inv_bind H.
  inv_bind Ha0. inv_bind Ha1. inv_bind Ha2.
  unfold torch_cat in H. cbn [fold_left bind] in H. inv_bind H.
  match goal with Hc : bind (cat2 _ _) _ = Ok _ |- _ => inv_bind Hc end.
  revert n c yy xx. change (nonnegative y).
  repeat match goal with
         | Hc : cat2 _ _ = Ok ?t |- nonnegative ?t => apply (cat2_nonnegative _ _ _ Hc)
         | Hb : BasicConv2d_forward _ _ = Ok ?t |- nonnegative ?t =>
             exact (BasicConv2d_forward_nonnegative _ _ _ Hb)
         end.
Qed.

(** X16: after construction every [nn.Conv2d] of the network, in the
    detection head as well, that has a 1x1 kernel and [num_classes] or 2
    output channels has a weight and a bias that are zero everywhere. *)
Theorem Box2Pix_init_zeroed_projections nc ti self (c : ConvNd) :
  Box2Pix_init nc ti = Ok self ->
  In (MConv c) (modules self) ->
  transposed c = false -> fst (kernel_size c) = 1 ->
  out_channels c = nc \/ out_channels c = 2 ->
  (forall i j ky kx, item (weight c) i j ky kx == 0)%Q /\
  exists b, bias c = Some b /\ forall i, (b i == 0)%Q.
Proof.
  intros Hnew Hin Htr Hk Hout.
  exact (constructed_score_modules nc ti self c Hnew Hin (conj Htr (conj Hk Hout))).
Qed.

End BlockValues.

Lemma Inception2_forward_nonneg_witness :
  exists m y,
    @Inception2_new plain_lib 4 1 2 3 1 5 2 = Ok m /\
    @Inception2_forward plain_lib m (full (mkSize 2 4 3 5) (-1)) = Ok y /\
    (0 <= item y 1 10 2 4)%Q.
Proof.
  destruct (@Inception2_new plain_lib 4 1 2 3 1 5 2) as [m|e] eqn:E;
    [|vm_compute in E; discriminate].
  exists m.
  pose proof (inception_branches_is _ _ _ _ _ _ _ _ _ _ E) as Hm.
  destruct (@Inception2_forward_shape plain_lib m (full (mkSize 2 4 3 5) (-1))
              _ _ _ _ _ _ _ _ _ Hm eq_refl) as (y & F & _); [lia | reflexivity | lia | cbn; lia..|].
  exists y. split; [reflexivity|]. split; [exact F|].
  exact (@Inception2_forward_nonneg plain_lib m (full (mkSize 2 4 3 5) (-1)) y 1 10 2 4 F).
Defined.

Lemma Box2Pix_init_zeroed_projections_witness :
  exists self b,
    @Box2Pix_init plain_lib 11 false = Ok self /\
    bias (offs_score4e self) = Some b /\ forall i, (b i == 0)%Q.
Proof.
  destruct plain_init_11 as [self E]. exists self.
  pose proof (proj1 (Box2Pix_init_constructed 11 false self E)) as C.
  destruct (is_offs_score4e _ _ C) as ((Htr & _ & Hout & Hk & _) & _).
  destruct (@Box2Pix_init_zeroed_projections plain_lib 11 false self (offs_score4e self) E)
    as (_ & b & Hb & Hz).
  - unfold modules. rewrite !in_app_iff. cbn [In].
    repeat first [ left; reflexivity | right ].
  - exact Htr.
  - rewrite Hk. reflexivity.
  - right. exact Hout.
  - exists b. split; [exact E|]. split; [exact Hb|exact Hz].
Defined.
